(** * LocalAI backend orchestration: discovery, variant selection, loading

    A shallow embedding of the model-loader core of LocalAI
    (package [model]: [backendsInAssetDir], [selectGRPCProcess], [grpcModel],
    [BackendLoader], [GreedyLoader]) and the properties of its
    specification that concern them. *)

From Stdlib Require Import ZArith Ascii String.
From stdpp Require Import base gmap strings list fin_maps pretty.

Local Open Scope string_scope.
Local Open Scope list_scope.

(** ** Strings and paths (Go's [strings] and [path/filepath], Unix) *)

Module strings.

(** [strings.Contains(s, substr)]: [substr] occurs in [s]. *)
Fixpoint Contains (s substr : string) : bool :=
  String.prefix substr s ||
  match s with
  | EmptyString => false
  | String _ s' => Contains s' substr
  end.

(** [strings.HasSuffix(s, suffix)]:
    [len(s) >= len(suffix) && s[len(s)-len(suffix):] == suffix]. *)
Definition HasSuffix (s suffix : string) : bool :=
  (String.length suffix <=? String.length s)%nat &&
  String.eqb
    (String.substring (String.length s - String.length suffix)
                      (String.length suffix) s)
    suffix.

(** A string of ASCII bytes: every byte is below [utf8.RuneSelf]. *)
Fixpoint isASCII (s : string) : bool :=
  match s with
  | EmptyString => true
  | String c s' => (nat_of_ascii c <? 128)%nat && isASCII s'
  end.

(** The ASCII path of [strings.ToLower]: the letters A to Z are mapped to
    a to z, every other byte is kept. *)
Definition lowerByte (c : ascii) : ascii :=
  let n := nat_of_ascii c in
  if ((65 <=? n) && (n <=? 90))%nat then ascii_of_nat (n + 32) else c.

Fixpoint lowerASCII (s : string) : string :=
  match s with
  | EmptyString => EmptyString
  | String c s' => String (lowerByte c) (lowerASCII s')
  end.

(** [strings.ToLower]: a string of ASCII bytes goes the ASCII path; any
    other string is mapped rune by rune, [strings.Map(unicode.ToLower, s)],
    which lower-cases every letter of Unicode and rewrites bytes that are
    not UTF-8. The tables of package [unicode] are not part of the sources:
    that mapping is a collaborator, [mapToLower]. *)
Definition ToLower (mapToLower : string → string) (s : string) : string :=
  if isASCII s then lowerASCII s else mapToLower s.

End strings.

Module filepath.

(** The elements of a path between separators. *)
Fixpoint split (s : string) : list string :=
  match s with
  | EmptyString => [EmptyString]
  | String c s' =>
      if Ascii.eqb c "/"%char then EmptyString :: split s'
      else match split s' with
           | x :: xs => String c x :: xs
           | [] => [String c EmptyString]
           end
  end.

(** One element of [Clean]: [.] and empty elements vanish, [..] removes
    the element before it, is dropped at the root and is kept at the
    start of a relative path. [stack] is reversed. *)
Definition cleanStep (rooted : bool) (stack : list string) (c : string)
  : list string :=
  if String.eqb c "" || String.eqb c "." then stack
  else if String.eqb c ".." then
    match stack with
    | top :: below =>
        if String.eqb top ".." then c :: stack else below
    | [] => if rooted then [] else [c]
    end
  else c :: stack.

(** [filepath.Clean]. *)
Definition Clean (path : string) : string :=
  let rooted := String.prefix "/" path in
  let elems := rev (foldl (cleanStep rooted) [] (split path)) in
  let body := String.concat "/" elems in
  if rooted then "/" +:+ body
  else if String.eqb body "" then "." else body.

(** [filepath.Join]: the non-empty elements joined by the separator, then
    cleaned; the empty string when there is none. *)
Definition Join (elem : list string) : string :=
  match filter (λ e, e ≠ "") elem with
  | [] => ""
  | es => Clean (String.concat "/" es)
  end.

End filepath.

(** ** Errors (Go's [error] values built by [fmt.Errorf] and [errors.Join]) *)

Local Set Warnings "-register-all".

(** [errorString]: an error carrying only a message ([errors.New], a
    [fmt.Errorf] without [%w], or an error of a collaborator);
    [wrapError]: [fmt.Errorf] with [%w], its formatted message and the
    wrapped error; [joinError]: the result of [errors.Join]. *)
Inductive error : Type :=
| errorString (s : string)
| wrapError (msg : string) (err : error)
| joinError (errs : list error).

(** The [Error()] method. *)
Fixpoint Error (e : error) : string :=
  match e with
  | errorString s => s
  | wrapError msg _ => msg
  | joinError errs =>
      String.concat (String "010"%char EmptyString) (map Error errs)
  end.

(** [errors.Join(a, b)]: nil arguments are discarded, the result is nil
    when nothing is left. *)
Definition errors_Join (errs : list (option error)) : option error :=
  match omap id errs with
  | [] => None
  | es => Some (joinError es)
  end.

(** The errors collected under an error, joins flattened. *)
Fixpoint causes (e : error) : list error :=
  match e with
  | joinError errs => concat (map causes errs)
  | _ => [e]
  end.

(** ** Backend names *)

Definition LlamaGGML := "llama-ggml".
Definition LLamaCPP := "llama-cpp".
Definition LLamaCPPAVX2 := "llama-cpp-avx2".
Definition LLamaCPPAVX := "llama-cpp-avx".
Definition LLamaCPPFallback := "llama-cpp-fallback".
Definition LLamaCPPCUDA := "llama-cpp-cuda".
Definition LLamaCPPHipblas := "llama-cpp-hipblas".
Definition LLamaCPPSycl16 := "llama-cpp-sycl_16".
Definition LLamaCPPSycl32 := "llama-cpp-sycl_32".
Definition LLamaCPPGRPC := "llama-cpp-grpc".
Definition BertEmbeddingsBackend := "bert-embeddings".
Definition RwkvBackend := "rwkv".
Definition WhisperBackend := "whisper".
Definition StableDiffusionBackend := "stablediffusion".
Definition TinyDreamBackend := "tinydream".
Definition PiperBackend := "piper".
Definition LCHuggingFaceBackend := "huggingface".
Definition LocalStoreBackend := "local-store".

(** The alias table. *)
Definition Aliases : gmap string string :=
  list_to_map
    [ ("go-llama", LLamaCPP);
      ("llama", LLamaCPP);
      ("embedded-store", LocalStoreBackend);
      ("langchain-huggingface", LCHuggingFaceBackend) ].

Definition backendPath (assetDir backend : string) : string :=
  filepath.Join [assetDir; "backend-assets"; "grpc"; backend].

(** ** Backend discovery: [backendsInAssetDir] *)

(** An [os.DirEntry], as far as the loader looks at it. *)
Record DirEntry := { Name : string; IsDir : bool }.

(** The file-backed map [backends]: backend name to its variants. *)
Abbreviation Backends := (gmap string (list string)).

Definition excludeBackends : list string := [LocalStoreBackend].

(** The body of the first loop over the directory entries (label [ENTRY]). *)
Definition scanEntry (autoDetect : bool) (backends : Backends) (e : DirEntry)
  : Backends :=
  if bool_decide (Name e ∈ excludeBackends) then backends
  else if IsDir e then backends
  else if strings.HasSuffix (Name e) ".log" then backends
  else if strings.Contains (Name e) LLamaCPP
          && negb (strings.Contains (Name e) LLamaCPPFallback)
          && autoDetect
  then backends
  else <[Name e := []]> backends.

(** The eight [found...] flags of the second loop. *)
Record Found := {
  foundLCPPAVX : bool;
  foundLCPPAVX2 : bool;
  foundLCPPFallback : bool;
  foundLCPPGRPC : bool;
  foundLCPPCuda : bool;
  foundLCPPHipblas : bool;
  foundSycl16 : bool;
  foundSycl32 : bool
}.

Definition noneFound : Found :=
  {| foundLCPPAVX := false; foundLCPPAVX2 := false;
     foundLCPPFallback := false; foundLCPPGRPC := false;
     foundLCPPCuda := false; foundLCPPHipblas := false;
     foundSycl16 := false; foundSycl32 := false |}.

Definition set_foundLCPPAVX (f : Found) : Found :=
  {| foundLCPPAVX := true; foundLCPPAVX2 := foundLCPPAVX2 f;
     foundLCPPFallback := foundLCPPFallback f; foundLCPPGRPC := foundLCPPGRPC f;
     foundLCPPCuda := foundLCPPCuda f; foundLCPPHipblas := foundLCPPHipblas f;
     foundSycl16 := foundSycl16 f; foundSycl32 := foundSycl32 f |}.
Definition set_foundLCPPAVX2 (f : Found) : Found :=
  {| foundLCPPAVX := foundLCPPAVX f; foundLCPPAVX2 := true;
     foundLCPPFallback := foundLCPPFallback f; foundLCPPGRPC := foundLCPPGRPC f;
     foundLCPPCuda := foundLCPPCuda f; foundLCPPHipblas := foundLCPPHipblas f;
     foundSycl16 := foundSycl16 f; foundSycl32 := foundSycl32 f |}.
Definition set_foundLCPPFallback (f : Found) : Found :=
  {| foundLCPPAVX := foundLCPPAVX f; foundLCPPAVX2 := foundLCPPAVX2 f;
     foundLCPPFallback := true; foundLCPPGRPC := foundLCPPGRPC f;
     foundLCPPCuda := foundLCPPCuda f; foundLCPPHipblas := foundLCPPHipblas f;
     foundSycl16 := foundSycl16 f; foundSycl32 := foundSycl32 f |}.
Definition set_foundLCPPGRPC (f : Found) : Found :=
  {| foundLCPPAVX := foundLCPPAVX f; foundLCPPAVX2 := foundLCPPAVX2 f;
     foundLCPPFallback := foundLCPPFallback f; foundLCPPGRPC := true;
     foundLCPPCuda := foundLCPPCuda f; foundLCPPHipblas := foundLCPPHipblas f;
     foundSycl16 := foundSycl16 f; foundSycl32 := foundSycl32 f |}.
Definition set_foundLCPPCuda (f : Found) : Found :=
  {| foundLCPPAVX := foundLCPPAVX f; foundLCPPAVX2 := foundLCPPAVX2 f;
     foundLCPPFallback := foundLCPPFallback f; foundLCPPGRPC := foundLCPPGRPC f;
     foundLCPPCuda := true; foundLCPPHipblas := foundLCPPHipblas f;
     foundSycl16 := foundSycl16 f; foundSycl32 := foundSycl32 f |}.
Definition set_foundLCPPHipblas (f : Found) : Found :=
  {| foundLCPPAVX := foundLCPPAVX f; foundLCPPAVX2 := foundLCPPAVX2 f;
     foundLCPPFallback := foundLCPPFallback f; foundLCPPGRPC := foundLCPPGRPC f;
     foundLCPPCuda := foundLCPPCuda f; foundLCPPHipblas := true;
     foundSycl16 := foundSycl16 f; foundSycl32 := foundSycl32 f |}.
Definition set_foundSycl16 (f : Found) : Found :=
  {| foundLCPPAVX := foundLCPPAVX f; foundLCPPAVX2 := foundLCPPAVX2 f;
     foundLCPPFallback := foundLCPPFallback f; foundLCPPGRPC := foundLCPPGRPC f;
     foundLCPPCuda := foundLCPPCuda f; foundLCPPHipblas := foundLCPPHipblas f;
     foundSycl16 := true; foundSycl32 := foundSycl32 f |}.
Definition set_foundSycl32 (f : Found) : Found :=
  {| foundLCPPAVX := foundLCPPAVX f; foundLCPPAVX2 := foundLCPPAVX2 f;
     foundLCPPFallback := foundLCPPFallback f; foundLCPPGRPC := foundLCPPGRPC f;
     foundLCPPCuda := foundLCPPCuda f; foundLCPPHipblas := foundLCPPHipblas f;
     foundSycl16 := foundSycl16 f; foundSycl32 := true |}.

(** [backends[LLamaCPP] = append(backends[LLamaCPP], v)]: a missing key
    reads as the nil slice. *)
Definition appendVariant (backends : Backends) (v : string) : Backends :=
  <[LLamaCPP := default [] (backends !! LLamaCPP) ++ [v]]> backends.

(** One of the eight tests of the second loop: the entry name contains the
    variant name and the variant was not found before. *)
Definition foldVariant (name v : string) (get : Found → bool)
    (set : Found → Found) (acc : Backends * Found) : Backends * Found :=
  if strings.Contains name v && negb (get acc.2)
  then (appendVariant acc.1 v, set acc.2)
  else acc.

(** The body of the second loop, the tests in the order of the source. *)
Definition scanVariants (acc : Backends * Found) (e : DirEntry)
  : Backends * Found :=
  let acc := foldVariant (Name e) LLamaCPPAVX2 foundLCPPAVX2 set_foundLCPPAVX2 acc in
  let acc := foldVariant (Name e) LLamaCPPAVX foundLCPPAVX set_foundLCPPAVX acc in
  let acc := foldVariant (Name e) LLamaCPPFallback foundLCPPFallback set_foundLCPPFallback acc in
  let acc := foldVariant (Name e) LLamaCPPGRPC foundLCPPGRPC set_foundLCPPGRPC acc in
  let acc := foldVariant (Name e) LLamaCPPCUDA foundLCPPCuda set_foundLCPPCuda acc in
  let acc := foldVariant (Name e) LLamaCPPHipblas foundLCPPHipblas set_foundLCPPHipblas acc in
  let acc := foldVariant (Name e) LLamaCPPSycl16 foundSycl16 set_foundSycl16 acc in
  let acc := foldVariant (Name e) LLamaCPPSycl32 foundSycl32 set_foundSycl32 acc in
  acc.

(** The map [backends] once both loops have run. *)
Definition discoverBackends (autoDetect : bool) (entry : list DirEntry)
  : Backends :=
  let backends := foldl (scanEntry autoDetect) ∅ entry in
  if autoDetect then
    match backends !! LLamaCPP with
    | Some _ => backends
    | None => (foldl scanVariants (backends, noneFound) entry).1
    end
  else backends.

Definition priorityList : list string :=
  [LLamaCPP; LlamaGGML; LLamaCPPFallback].

Definition toTheEnd : list string :=
  [LCHuggingFaceBackend; BertEmbeddingsBackend].

(** The ordered map of [elliotchance/orderedmap]: keys in insertion order;
    [Set] on a key already there replaces its value where it stands. *)
Module orderedmap.
Section ordered.
Context {V : Type}.
Definition t := list (string * V).
Definition NewOrderedMap : t := [].
Fixpoint Get (m : t) (k : string) : option V :=
  match m with
  | [] => None
  | kv :: m' => if bool_decide (kv.1 = k) then Some kv.2 else Get m' k
  end.
Definition Set_ (m : t) (k : string) (v : V) : t :=
  match Get m k with
  | Some _ => map (λ kv, if bool_decide (kv.1 = k) then (k, v) else kv) m
  | None => m ++ [(k, v)]
  end.
Definition Keys (m : t) : list string := m.*1.
End ordered.
Arguments t : clear implicits.
End orderedmap.

(** The three loops that order the backends. [visit] is the order in which
    [range backends] visits the map, which Go leaves unspecified. *)
Definition orderBackends (visit : list (string * list string))
    (backends : Backends) : list string :=
  let orderedBackends : orderedmap.t (list string) := orderedmap.NewOrderedMap in
  let orderedBackends :=
    foldl (λ om p, match backends !! p with
                   | Some v => orderedmap.Set_ om p v
                   | None => om
                   end) orderedBackends priorityList in
  let orderedBackends :=
    foldl (λ om kv, if bool_decide (kv.1 ∈ toTheEnd) then om
                    else match orderedmap.Get om kv.1 with
                         | Some _ => om
                         | None => orderedmap.Set_ om kv.1 kv.2
                         end) orderedBackends visit in
  let orderedBackends :=
    foldl (λ om t, match backends !! t with
                   | Some v => orderedmap.Set_ om t v
                   | None => om
                   end) orderedBackends toTheEnd in
  orderedmap.Keys orderedBackends.

(** ** The loader's world: options, handles, effects *)

(** The fields of [pb.ModelOptions] the loader reads or writes. *)
Record ModelOptions := {
  F16Memory : bool;
  LibrarySearchPath : string;
  Model : string;
  ModelFile : string
}.

(** The load options ([Options]). *)
Record Options := {
  backendString : string;
  model : string;
  threads : Z;
  assetDir : string;
  gRPCOptions : ModelOptions;
  externalBackends : gmap string string;
  grpcAttempts : Z;
  grpcAttemptsDelay : Z;
  singleActiveBackend : bool;
  parallelRequests : bool
}.

(** A spawned backend process: what it was started with. *)
Record Process := {
  procPath : string;
  procModel : string;
  procAddress : string;
  procArgs : list string
}.

(** A handle ([*Model], built by [NewModel]): [process] is nil for a backend
    reached at an address that the loader did not spawn. *)
Record Handle := NewModel {
  ID : string;
  address : string;
  process : option Process
}.

(** The RPC client of a handle ([m.GRPC(parallel, wd)]). *)
Record Client := {
  clientOf : Handle;
  clientParallel : bool
}.

Definition GRPC (m : Handle) (parallel : bool) : Client :=
  {| clientOf := m; clientParallel := parallel |}.

(** What the loader does to the outside, in the order it does it.
    [EvSleep d] is the call [time.Sleep(d)], [d] a [time.Duration]: a
    number of nanoseconds in 64 bits. *)
Inductive Event :=
| EvStartProcess (path modelArg serverAddress : string) (args : list string)
| EvHealthCheck (c : Client)
| EvSleep (d : Z)
| EvLoadModel (c : Client) (options : ModelOptions)
| EvDeleteProcess (modelName : string)
| EvStopGRPC (keptModel : string).

(** The loader's state: the process environment, the registry of handles
    ([ml.models]) and the effects so far. *)
Record State := {
  environ : gmap string string;
  models : gmap string Handle;
  trace : list Event
}.

Definition emit (ev : Event) (st : State) : State :=
  {| environ := environ st; models := models st; trace := trace st ++ [ev] |}.

Definition setModels (ms : gmap string Handle) (st : State) : State :=
  {| environ := environ st; models := ms; trace := trace st |}.

Inductive StatResult := StatOk | StatNotExist | StatFailure.

Inductive cpuid := AVX | AVX2.

(** The collaborators of the loader. A collaborator whose answer may change
    from call to call is given the effects that came before the call.
    [MapToLower] is [strings.Map(unicode.ToLower, s)]. *)
Record Sys := {
  autoDetect : bool;
  ModelPath : string;
  ReadDir : string → error + list DirEntry;
  Stat : string → StatResult;
  GPUs : error + list string;
  HasCPUCaps : cpuid → bool;
  rangeBackends : Backends → list (string * list string);
  rangeExternal : gmap string string → list (string * string);
  GetFreePort : list Event → error + Z;
  VerifyPath : string → string → option error;
  LoadLDSO : string → list string → string → list string * string;
  startProcessResult : list Event → Process → option error;
  HealthCheck : list Event → Client → bool * option error;
  LoadModelRPC : list Event → Client → ModelOptions → error + bool * string;
  stopResult : list Event → string → option error;
  MapToLower : string → string;
  defaultOptions : Options
}.

(** State and error passing: a computation either fails with an error or
    yields a value, and hands on the state in both cases. *)
Definition M (A : Type) : Type := State → (error + A) * State.

#[global] Instance M_ret : MRet M := λ A x st, (inr x, st).
#[global] Instance M_bind : MBind M := λ A B f m st,
  match m st with
  | (inl e, st') => (inl e, st')
  | (inr a, st') => f a st'
  end.

Definition throw {A} (e : error) : M A := λ st, (inl e, st).
Definition get : M State := λ st, (inr st, st).
Definition tell (ev : Event) : M unit := λ st, (inr tt, emit ev st).

(** [os.Getenv]: the empty string when the variable is unset. *)
Definition Getenv (env : gmap string string) (key : string) : string :=
  default "" (env !! key).

(** [os.Setenv]: refused for an empty key, a key holding [=] or a NUL byte,
    or a value holding a NUL byte. *)
Definition Setenv (key value : string) (st : State) : option error * State :=
  let nul := String "000"%char EmptyString in
  if String.eqb key "" || strings.Contains key "=" || strings.Contains key nul
     || strings.Contains value nul
  then (Some (errorString "setenv: invalid argument"), st)
  else (None, {| environ := <[key := value]> (environ st);
                 models := models st; trace := trace st |}).

(** [backendsInAssetDir]. *)
Definition backendsInAssetDir (sys : Sys) (assetDir : string)
  : error + list string :=
  match ReadDir sys (backendPath assetDir "") with
  | inl err => inl err
  | inr entry =>
      let backends := discoverBackends (autoDetect sys) entry in
      inr (orderBackends (rangeBackends sys backends) backends)
  end.

(** ** Variant selection: [selectGRPCProcess] *)

Definition statOk (r : StatResult) : bool :=
  match r with StatOk => true | _ => false end.

(** The variables of the loop over the GPUs. *)
Record GPUSelection := {
  grpcProcess : string;
  foundCUDA : bool;
  foundAMDGPU : bool;
  foundIntelGPU : bool
}.

(** The body of the loop over the GPUs. *)
Definition selectGPU (sys : Sys) (assetDir : string) (f16 : bool)
    (sel : GPUSelection) (gpu : string) : GPUSelection :=
  let sel :=
    if strings.Contains gpu "nvidia" then
      let p := backendPath assetDir LLamaCPPCUDA in
      if statOk (Stat sys p)
      then {| grpcProcess := p; foundCUDA := true;
              foundAMDGPU := foundAMDGPU sel;
              foundIntelGPU := foundIntelGPU sel |}
      else sel
    else sel in
  let sel :=
    if strings.Contains gpu "amd" then
      let p := backendPath assetDir LLamaCPPHipblas in
      if statOk (Stat sys p)
      then {| grpcProcess := p; foundCUDA := foundCUDA sel;
              foundAMDGPU := true;
              foundIntelGPU := foundIntelGPU sel |}
      else sel
    else sel in
  let sel :=
    if strings.Contains gpu "intel" then
      let backend := if negb f16 then LLamaCPPSycl32 else LLamaCPPSycl16 in
      let p := backendPath assetDir backend in
      if statOk (Stat sys p)
      then {| grpcProcess := p; foundCUDA := foundCUDA sel;
              foundAMDGPU := foundAMDGPU sel;
              foundIntelGPU := true |}
      else sel
    else sel in
  sel.

Definition selectGRPCProcess (sys : Sys) (env : gmap string string)
    (backend assetDir : string) (f16 : bool) : string :=
  let sel := {| grpcProcess := ""; foundCUDA := false;
                foundAMDGPU := false; foundIntelGPU := false |} in
  if negb (String.eqb backend LLamaCPP) then ""
  else if negb (String.eqb (Getenv env "LLAMACPP_GRPC_SERVERS") "")
  then backendPath assetDir LLamaCPPGRPC
  else
    let sel :=
      match GPUs sys with
      | inr gpus => foldl (selectGPU sys assetDir f16) sel gpus
      | inl _ => sel
      end in
    if foundCUDA sel || foundAMDGPU sel || foundIntelGPU sel
    then grpcProcess sel
    else if HasCPUCaps sys AVX2 then
      let p := backendPath assetDir LLamaCPPAVX2 in
      if statOk (Stat sys p) then p else grpcProcess sel
    else if HasCPUCaps sys AVX then
      let p := backendPath assetDir LLamaCPPAVX in
      if statOk (Stat sys p) then p else grpcProcess sel
    else
      let p := backendPath assetDir LLamaCPPFallback in
      if statOk (Stat sys p) then p else grpcProcess sel.

(** ** Spawning, readiness and model loading: [grpcModel] *)

Definition getFreeAddress (sys : Sys) : M string := λ st,
  match GetFreePort sys (trace st) with
  | inl err =>
      (inl (errorString ("failed allocating free ports: " +:+ Error err)), st)
  | inr port => (inr ("127.0.0.1:" +:+ pretty port), st)
  end.

(** Modelled from the spec: [ml.startProcess], which is not part of the
    sources at hand. It spawns the executable with the model and the
    address it has to bind, and a failure to spawn is an error (spec 4.3). *)
Definition startProcess (sys : Sys) (grpcProcess id serverAddress : string)
    (args : list string) : M Process := λ st,
  let p := {| procPath := grpcProcess; procModel := id;
              procAddress := serverAddress; procArgs := args |} in
  let st' := emit (EvStartProcess grpcProcess id serverAddress args) st in
  match startProcessResult sys (trace st) p with
  | Some err => (inl err, st')
  | None => (inr p, st')
  end.

(** Modelled from the spec: [ml.deleteProcess], which is not part of the
    sources at hand. The registry's delete path stops the process of the
    model and removes its handle (spec 4.4, [delete(name)]). *)
Definition deleteProcess (s : string) (st : State) : State :=
  emit (EvDeleteProcess s) (setModels (delete s (models st)) st).

(** The cache locations of the model hubs default to the model path. *)
Definition setCacheEnv (sys : Sys) (st : State) : State :=
  foldl (λ st env,
           if String.eqb (Getenv (environ st) env) ""
           then (Setenv env (ModelPath sys) st).2
           else st)
        st ["HF_HOME"; "TRANSFORMERS_CACHE"; "HUGGINGFACE_HUB_CACHE"].

Definition isNotExist (r : StatResult) : bool :=
  match r with StatNotExist => true | _ => false end.

(** The executable of a backend of the asset directory: its own path, or
    with auto-detection the path [selectGRPCProcess] picks, if it picks
    one. *)
Definition resolveProcess (sys : Sys) (env : gmap string string)
    (backend : string) (o : Options) : string :=
  let grpcProcess := backendPath (assetDir o) backend in
  if autoDetect sys then
    let selectedProcess :=
      selectGRPCProcess sys env backend (assetDir o)
                        (F16Memory (gRPCOptions o)) in
    if negb (String.eqb selectedProcess "") then selectedProcess
    else grpcProcess
  else grpcProcess.

(** The first part of [grpcModel]: the handle of an external backend, or
    of a process spawned for a backend of the asset directory. *)
Definition launch (sys : Sys) (backend : string) (o : Options)
    (modelName : string) : M Handle :=
  let freeAddress : M string := λ st,
    match getFreeAddress sys st with
    | (inl err, st') =>
        (inl (errorString ("failed allocating free ports: " +:+ Error err)),
         st')
    | r => r
    end in
  match externalBackends o !! backend with
  | Some uri =>
      if statOk (Stat sys uri) then
        serverAddress ← freeAddress;
        process ← startProcess sys uri (model o) serverAddress [];
        mret (NewModel modelName serverAddress (Some process))
      else mret (NewModel modelName uri None)
  | None =>
      let grpcProcess := backendPath (assetDir o) backend in
      match VerifyPath sys grpcProcess (assetDir o) with
      | Some err =>
          throw (errorString ("refering to a backend not in asset dir: "
                              +:+ Error err))
      | None =>
          st ← get;
          let grpcProcess := resolveProcess sys (environ st) backend o in
          if isNotExist (Stat sys grpcProcess) then
            throw (errorString ("backend not found: " +:+ grpcProcess))
          else
            serverAddress ← freeAddress;
            let '(args, grpcProcess) :=
              LoadLDSO sys (assetDir o) [] grpcProcess in
            process ← startProcess sys grpcProcess (model o) serverAddress args;
            mret (NewModel modelName serverAddress (Some process))
      end
  end.

(** A 64-bit signed integer: the value an [int64] holds after an
    operation whose exact result is [z]. *)
Definition wrap64 (z : Z) : Z :=
  ((z + 2 ^ 63) mod 2 ^ 64 - 2 ^ 63)%Z.

(** [time.Second], in nanoseconds. *)
Definition Second : Z := 1000000000.

(** [time.Duration(o.grpcAttemptsDelay) * time.Second]: the product is
    taken in [int64] and wraps around. *)
Definition sleepDuration (delay : Z) : Z :=
  wrap64 (delay * Second).

(** The readiness loop, [attempts] iterations left. *)
Fixpoint waitReady (sys : Sys) (client : Handle) (o : Options)
    (attempts : nat) (st : State) : bool * State :=
  match attempts with
  | O => (false, st)
  | S attempts' =>
      let c := GRPC client (parallelRequests o) in
      let '(alive, _) := HealthCheck sys (trace st) c in
      let st := emit (EvHealthCheck c) st in
      if alive then (true, st)
      else waitReady sys client o attempts'
                     (emit (EvSleep (sleepDuration (grpcAttemptsDelay o))) st)
  end.

(** The load-model call on the client of the handle. *)
Definition callLoadModel (sys : Sys) (client : Handle) (o : Options)
    (options : ModelOptions) : State → (error + bool * string) * State :=
  λ st,
    let c := GRPC client (parallelRequests o) in
    (LoadModelRPC sys (trace st) c options, emit (EvLoadModel c options) st).

(** [ml.grpcModel(backend, o)], applied to the model name and file. *)
Definition grpcModel (sys : Sys) (backend : string) (o : Options)
    (modelName modelFile : string) : M Handle := λ st,
  let st := setCacheEnv sys st in
  match launch sys backend o modelName st with
  | (inl err, st) => (inl err, st)
  | (inr client, st) =>
      let '(ready, st) :=
        waitReady sys client o (Z.to_nat (grpcAttempts o)) st in
      if negb ready then
        (inl (errorString "grpc service not ready"),
         deleteProcess (model o) st)
      else
        let options :=
          {| F16Memory := F16Memory (gRPCOptions o);
             LibrarySearchPath := LibrarySearchPath (gRPCOptions o);
             Model := modelName; ModelFile := modelFile |} in
        match callLoadModel sys client o options st with
        | (inl err, st) =>
            (inl (wrapError ("could not load model: " +:+ Error err) err),
             deleteProcess (model o) st)
        | (inr (success, message), st) =>
            if negb success then
              (inl (errorString ("could not load model (no success): "
                                 +:+ message)),
               deleteProcess (model o) st)
            else (inr client, st)
        end
  end.

(** ** The registry and the option setters *)

(** Modelled from the spec: [ml.CheckIsLoaded], which is not part of the
    sources at hand. It is the lookup of the registry, [checkLoaded(name)]
    of spec 4.4: idempotent and without side effects. *)
Definition CheckIsLoaded (st : State) (s : string) : option Handle :=
  models st !! s.

(** Modelled from the spec: [ml.LoadModel], which is not part of the
    sources at hand. A model already registered is returned as it is,
    without spawning again (spec 4.4); otherwise the loader runs on the
    model name and its file under the model path, and its handle is
    registered when the load has completed (spec 3, process handle). *)
Definition LoadModel (sys : Sys) (modelName : string)
    (loader : string → string → M Handle) : M Handle := λ st,
  match CheckIsLoaded st modelName with
  | Some m => (inr m, st)
  | None =>
      let modelFile := filepath.Join [ModelPath sys; modelName] in
      match loader modelName modelFile st with
      | (inl err, st) => (inl err, st)
      | (inr m, st) => (inr m, setModels (<[modelName := m]> (models st)) st)
      end
  end.

(** Modelled from the spec: [ml.StopGRPC(allExcept(name))], which is not
    part of the sources at hand. Every handle but the one of [name] is
    stopped and removed, and the failures to stop are returned as one
    error (spec 4.4, [stopAllExcept]). *)
Definition StopGRPC_allExcept (sys : Sys) (name : string) (st : State)
  : option error * State :=
  (stopResult sys (trace st) name,
   emit (EvStopGRPC name)
        (setModels (filter (λ kv, kv.1 = name) (models st)) st)).

(** Modelled from the spec: the option setters and [NewOptions], which are
    not part of the sources at hand. Each setter writes the field of the
    load options it is named after (spec 3, load options), and
    [NewOptions] applies them in order to the defaults. *)
Definition Option_ := Options → Options.

Definition WithBackendString (backend : string) : Option_ := λ o,
  {| backendString := backend; model := model o; threads := threads o;
     assetDir := assetDir o; gRPCOptions := gRPCOptions o;
     externalBackends := externalBackends o;
     grpcAttempts := grpcAttempts o;
     grpcAttemptsDelay := grpcAttemptsDelay o;
     singleActiveBackend := singleActiveBackend o;
     parallelRequests := parallelRequests o |}.

Definition WithModel (modelFile : string) : Option_ := λ o,
  {| backendString := backendString o; model := modelFile;
     threads := threads o;
     assetDir := assetDir o; gRPCOptions := gRPCOptions o;
     externalBackends := externalBackends o;
     grpcAttempts := grpcAttempts o;
     grpcAttemptsDelay := grpcAttemptsDelay o;
     singleActiveBackend := singleActiveBackend o;
     parallelRequests := parallelRequests o |}.

Definition WithLoadGRPCLoadModelOpts (opts : ModelOptions) : Option_ := λ o,
  {| backendString := backendString o; model := model o;
     threads := threads o;
     assetDir := assetDir o; gRPCOptions := opts;
     externalBackends := externalBackends o;
     grpcAttempts := grpcAttempts o;
     grpcAttemptsDelay := grpcAttemptsDelay o;
     singleActiveBackend := singleActiveBackend o;
     parallelRequests := parallelRequests o |}.

Definition WithThreads (n : Z) : Option_ := λ o,
  {| backendString := backendString o; model := model o; threads := n;
     assetDir := assetDir o; gRPCOptions := gRPCOptions o;
     externalBackends := externalBackends o;
     grpcAttempts := grpcAttempts o;
     grpcAttemptsDelay := grpcAttemptsDelay o;
     singleActiveBackend := singleActiveBackend o;
     parallelRequests := parallelRequests o |}.

Definition WithAssetDir (dir : string) : Option_ := λ o,
  {| backendString := backendString o; model := model o;
     threads := threads o;
     assetDir := dir; gRPCOptions := gRPCOptions o;
     externalBackends := externalBackends o;
     grpcAttempts := grpcAttempts o;
     grpcAttemptsDelay := grpcAttemptsDelay o;
     singleActiveBackend := singleActiveBackend o;
     parallelRequests := parallelRequests o |}.

Definition WithExternalBackend (name uri : string) : Option_ := λ o,
  {| backendString := backendString o; model := model o;
     threads := threads o;
     assetDir := assetDir o; gRPCOptions := gRPCOptions o;
     externalBackends := <[name := uri]> (externalBackends o);
     grpcAttempts := grpcAttempts o;
     grpcAttemptsDelay := grpcAttemptsDelay o;
     singleActiveBackend := singleActiveBackend o;
     parallelRequests := parallelRequests o |}.

Definition WithGRPCAttempts (attempts : Z) : Option_ := λ o,
  {| backendString := backendString o; model := model o;
     threads := threads o;
     assetDir := assetDir o; gRPCOptions := gRPCOptions o;
     externalBackends := externalBackends o;
     grpcAttempts := attempts;
     grpcAttemptsDelay := grpcAttemptsDelay o;
     singleActiveBackend := singleActiveBackend o;
     parallelRequests := parallelRequests o |}.

Definition WithGRPCAttemptsDelay (delay : Z) : Option_ := λ o,
  {| backendString := backendString o; model := model o;
     threads := threads o;
     assetDir := assetDir o; gRPCOptions := gRPCOptions o;
     externalBackends := externalBackends o;
     grpcAttempts := grpcAttempts o;
     grpcAttemptsDelay := delay;
     singleActiveBackend := singleActiveBackend o;
     parallelRequests := parallelRequests o |}.

Definition WithSingleActiveBackend : Option_ := λ o,
  {| backendString := backendString o; model := model o;
     threads := threads o;
     assetDir := assetDir o; gRPCOptions := gRPCOptions o;
     externalBackends := externalBackends o;
     grpcAttempts := grpcAttempts o;
     grpcAttemptsDelay := grpcAttemptsDelay o;
     singleActiveBackend := true;
     parallelRequests := parallelRequests o |}.

Definition NewOptions (sys : Sys) (opts : list Option_) : Options :=
  foldl (λ o opt, opt o) (defaultOptions sys) opts.

(** ** Loading with a named backend: [BackendLoader] *)

(** [o.gRPCOptions.LibrarySearchPath = path]. *)
Definition setLibrarySearchPath (path : string) (o : Options) : Options :=
  WithLoadGRPCLoadModelOpts
    {| F16Memory := F16Memory (gRPCOptions o);
       LibrarySearchPath := path;
       Model := Model (gRPCOptions o);
       ModelFile := ModelFile (gRPCOptions o) |} o.

(** The name the loader works with: lower case, aliases resolved. *)
Definition resolveBackend (sys : Sys) (backendString : string) : string :=
  let backend := strings.ToLower (MapToLower sys) backendString in
  match Aliases !! backend with
  | Some realBackend => realBackend
  | None => backend
  end.

(** What [BackendLoader] returns: the client and the error, either of which
    may be nil, and the [gRPCOptions] the options point to, which the
    caller shares and which the loader writes for [piper]. *)
Record Loaded := {
  loadedClient : option Client;
  loadedErr : option error;
  loadedOptions : ModelOptions
}.

Definition BackendLoader (sys : Sys) (opts : list Option_) (st : State)
  : Loaded * State :=
  let o := NewOptions sys opts in
  let backend := resolveBackend sys (backendString o) in
  let st :=
    if singleActiveBackend o
    then (StopGRPC_allExcept sys (model o) st).2
    else st in
  let o :=
    if String.eqb backend PiperBackend
    then setLibrarySearchPath
           (filepath.Join [assetDir o; "backend-assets"; "espeak-ng-data"]) o
    else o in
  let backendToConsume :=
    if String.eqb backend PiperBackend then PiperBackend else backend in
  match LoadModel sys (model o) (grpcModel sys backendToConsume o) st with
  | (inl err, st) =>
      ({| loadedClient := None; loadedErr := Some err;
          loadedOptions := gRPCOptions o |}, st)
  | (inr m, st) =>
      ({| loadedClient := Some (GRPC m (parallelRequests o));
          loadedErr := None; loadedOptions := gRPCOptions o |}, st)
  end.

(** ** Loading with the first backend that works: [GreedyLoader] *)

(** How a call ends: it returns its two results, or it panics. *)
Inductive Outcome :=
| Return (client : option Client) (err : option error)
| Panic.

(** The choice of the variant for the second attempt on llama-cpp: [None]
    stands for the [continue] of the source, which gives the attempt up. *)
Definition backendToUse (sys : Sys) (assetDir : string) : option string :=
  if HasCPUCaps sys AVX2 then
    if statOk (Stat sys (backendPath assetDir LLamaCPPAVX2))
    then Some LLamaCPPAVX2 else Some ""
  else if HasCPUCaps sys AVX then
    if statOk (Stat sys (backendPath assetDir LLamaCPPAVX2))
    then Some LLamaCPPAVX else Some ""
  else
    if statOk (Stat sys (backendPath assetDir LLamaCPPFallback))
    then Some LLamaCPPFallback else None.

(** The options of one attempt of the greedy loader. *)
Definition attemptOptions (sys : Sys) (o : Options) (gopts : ModelOptions)
    (key : string) : list Option_ :=
  [ WithBackendString key; WithModel (model o);
    WithLoadGRPCLoadModelOpts gopts; WithThreads (threads o);
    WithAssetDir (assetDir o) ]
  ++ map (λ kv, WithExternalBackend kv.1 kv.2)
         (rangeExternal sys (externalBackends o)).

(** The loop over the candidates and the return after it. [err] is the
    error joined so far, [gopts] the [gRPCOptions] shared by the attempts. *)
Fixpoint greedyLoop (sys : Sys) (o : Options) (autoLoadBackends : list string)
    (err : option error) (gopts : ModelOptions) (st : State)
  : Outcome * State :=
  match autoLoadBackends with
  | [] =>
      match err with
      | Some e =>
          (Return None
             (Some (errorString
                ("could not load model - all backends returned error: "
                 +:+ Error e))), st)
      | None => (Panic, st)
      end
  | key :: rest =>
      let options := attemptOptions sys o gopts key in
      let '(r, st) := BackendLoader sys options st in
      let gopts := loadedOptions r in
      match loadedErr r, loadedClient r with
      | None, Some c => (Return (Some c) None, st)
      | modelerr, _ =>
          let err :=
            match modelerr with
            | Some e =>
                errors_Join
                  [err; Some (wrapError ("[" +:+ key +:+ "]: " +:+ Error e) e)]
            | None =>
                errors_Join
                  [err; Some (errorString ("backend " +:+ key +:+
                                           " returned no usable model"))]
            end in
          if autoDetect sys && String.eqb key LLamaCPP
             && bool_decide (err ≠ None)
          then
            match backendToUse sys (assetDir o) with
            | None => greedyLoop sys o rest err gopts st
            | Some variant =>
                let options := options ++ [WithBackendString variant] in
                let '(r, st) := BackendLoader sys options st in
                let gopts := loadedOptions r in
                match loadedErr r, loadedClient r with
                | None, Some c => (Return (Some c) None, st)
                | Some e, _ =>
                    let err :=
                      errors_Join
                        [err;
                         Some (wrapError ("[" +:+ key +:+ "]: " +:+ Error e) e)]
                    in
                    greedyLoop sys o rest err gopts st
                | None, None => (Panic, st)
                end
            end
          else greedyLoop sys o rest err gopts st
      end
  end.

Definition GreedyLoader (sys : Sys) (opts : list Option_) (st : State)
  : Outcome * State :=
  let o := NewOptions sys opts in
  match CheckIsLoaded st (model o) with
  | Some m => (Return (Some (GRPC m (parallelRequests o))) None, st)
  | None =>
      let st :=
        if singleActiveBackend o
        then (StopGRPC_allExcept sys (model o) st).2
        else st in
      match backendsInAssetDir sys (assetDir o) with
      | inl err => (Return None (Some err), st)
      | inr autoLoadBackends =>
          let autoLoadBackends :=
            autoLoadBackends ++ (rangeExternal sys (externalBackends o)).*2 in
          greedyLoop sys o autoLoadBackends None (gRPCOptions o) st
      end
  end.

(** ** The order of the candidates, on keys alone *)

(** A key is put at the end of a list of keys unless it is there: what
    [Set] does to the keys of the ordered map. *)
Definition pushNew (ks : list string) (k : string) : list string :=
  if bool_decide (k ∈ ks) then ks else ks ++ [k].

(** The body of the loop over [backends], on the keys. *)
Definition visitStep (ks : list string) (k : string) : list string :=
  if bool_decide (k ∈ toTheEnd) then ks else pushNew ks k.

(** The body of the loops over [priorityList] and [toTheEnd], on the keys. *)
Definition presentStep (backends : Backends) (ks : list string) (k : string)
  : list string :=
  if bool_decide (is_Some (backends !! k)) then pushNew ks k else ks.

(** ** The variants folded into llama-cpp *)

(** The variant names in the order in which the second loop tests an
    entry name for them. *)
Definition variantTests : list string :=
  [ LLamaCPPAVX2; LLamaCPPAVX; LLamaCPPFallback; LLamaCPPGRPC;
    LLamaCPPCUDA; LLamaCPPHipblas; LLamaCPPSycl16; LLamaCPPSycl32 ].

(** The variant names in the order the specification gives for the member
    list: CUDA, HIP, SYCL-16, SYCL-32, AVX2, AVX, fallback, remote GRPC. *)
Definition specVariantOrder : list string :=
  [ LLamaCPPCUDA; LLamaCPPHipblas; LLamaCPPSycl16; LLamaCPPSycl32;
    LLamaCPPAVX2; LLamaCPPAVX; LLamaCPPFallback; LLamaCPPGRPC ].

(** The variant names an entry name contains, in the order of the tests. *)
Definition hits (name : string) : list string :=
  filter (λ v, strings.Contains name v = true) variantTests.

(** The first occurrences of the elements of a list, in their order. *)
Definition firstOccurrences (l : list string) : list string :=
  foldl pushNew [] l.

(** The flag of the second loop that stands for a variant name. *)
Definition flagOf (f : Found) (v : string) : bool :=
  if String.eqb v LLamaCPPAVX2 then foundLCPPAVX2 f
  else if String.eqb v LLamaCPPAVX then foundLCPPAVX f
  else if String.eqb v LLamaCPPFallback then foundLCPPFallback f
  else if String.eqb v LLamaCPPGRPC then foundLCPPGRPC f
  else if String.eqb v LLamaCPPCUDA then foundLCPPCuda f
  else if String.eqb v LLamaCPPHipblas then foundLCPPHipblas f
  else if String.eqb v LLamaCPPSycl16 then foundSycl16 f
  else if String.eqb v LLamaCPPSycl32 then foundSycl32 f
  else false.

(** The member variants of llama-cpp in the map of the discovered
    backends; a missing key reads as the nil slice. *)
Definition llamaVariants (autoDetect : bool) (entry : list DirEntry)
  : list string :=
  default [] (discoverBackends autoDetect entry !! LLamaCPP).

(** What holds between the tests of the second loop: [l] is the member
    list built so far, stored under llama-cpp once it is not empty, and a
    flag is set exactly when its variant is in the list. *)
Definition variantsInv (acc : Backends * Found) (l : list string) : Prop :=
  acc.1 !! LLamaCPP = match l with [] => None | _ => Some l end
  ∧ ∀ v, v ∈ variantTests → flagOf acc.2 v = bool_decide (v ∈ l).

(** ** Variant selection, said without the loop *)

(** A variant is installed when [os.Stat] finds its file. *)
Definition installed (sys : Sys) (assetDir v : string) : bool :=
  statOk (Stat sys (backendPath assetDir v)).

(** The variants the vendor tests pick for one GPU, in the order of the
    tests: nvidia, amd, intel. *)
Definition gpuVariants (f16 : bool) (gpu : string) : list string :=
  (if strings.Contains gpu "nvidia" then [LLamaCPPCUDA] else [])
  ++ (if strings.Contains gpu "amd" then [LLamaCPPHipblas] else [])
  ++ (if strings.Contains gpu "intel"
      then [if negb f16 then LLamaCPPSycl32 else LLamaCPPSycl16] else []).

(** The vendor matches that resolve to an installed file, in the order in
    which the loop over the GPUs meets them. *)
Definition gpuMatches (sys : Sys) (assetDir : string) (f16 : bool)
  : list string :=
  match GPUs sys with
  | inr gpus => filter (λ v, installed sys assetDir v = true)
                       (mjoin (gpuVariants f16 <$> gpus))
  | inl _ => []
  end.

(** The variant the CPU features stand for. *)
Definition cpuVariant (sys : Sys) : string :=
  if HasCPUCaps sys AVX2 then LLamaCPPAVX2
  else if HasCPUCaps sys AVX then LLamaCPPAVX
  else LLamaCPPFallback.

(** What holds between the GPUs of the loop: the path is the one of the
    last match, and a flag is set once there is a match. *)
Definition gpuInv (assetDir : string) (sel : GPUSelection)
    (ms : list string) : Prop :=
  grpcProcess sel = from_option (backendPath assetDir) "" (last ms)
  ∧ foundCUDA sel || foundAMDGPU sel || foundIntelGPU sel
    = bool_decide (ms ≠ []).

(** A plain file name: one path element that is neither empty nor a dot
    name. *)
Definition plainName (v : string) : Prop :=
  filepath.split v = [v] ∧ v ≠ "" ∧ v ≠ "." ∧ v ≠ "..".

(** The last element of a path. *)
Definition lastElem (path : string) : option string :=
  last (filepath.split path).

(** ** Reading the effects *)

(** The effects of [n] failed rounds of the readiness loop, [delay] the
    configured delay in seconds. *)
Definition readinessTrace (c : Client) (delay : Z) (n : nat) : list Event :=
  mjoin (replicate n [EvHealthCheck c; EvSleep (sleepDuration delay)]).

(** The time waited in a sequence of effects, in nanoseconds:
    [time.Sleep] returns at once for a duration that is negative or
    zero. *)
Definition slept (tr : list Event) : Z :=
  foldr (λ ev acc, match ev with
                   | EvSleep d => (Z.max 0 d + acc)%Z
                   | _ => acc
                   end)
        0%Z tr.

(** The executables that were started in a sequence of effects. *)
Definition startedPaths (tr : list Event) : list string :=
  omap (λ ev, match ev with
              | EvStartProcess path _ _ _ => Some path
              | _ => None
              end) tr.

(** The options [grpcModel] sends with the load-model call. *)
Definition loadOptions (o : Options) (modelName modelFile : string)
  : ModelOptions :=
  {| F16Memory := F16Memory (gRPCOptions o);
     LibrarySearchPath := LibrarySearchPath (gRPCOptions o);
     Model := modelName; ModelFile := modelFile |}.

(** ** The second attempt on llama-cpp, as the specification words it *)

(** The variant of the second attempt in the words of the specification:
    the first of AVX2, AVX and fallback whose file is on disk, and none
    when no file of the three is there. *)
Definition specRetryVariant (sys : Sys) (assetDir : string) : option string :=
  head (filter (λ v, installed sys assetDir v = true)
               [LLamaCPPAVX2; LLamaCPPAVX; LLamaCPPFallback]).

(** The effects [grpcModel] may have once the handle is there: health
    checks, sleeps, the load-model call, and the delete path for the model
    of the options. *)
Definition afterLaunch (o : Options) (ev : Event) : bool :=
  match ev with
  | EvHealthCheck _ | EvSleep _ | EvLoadModel _ _ => true
  | EvDeleteProcess m => String.eqb m (model o)
  | EvStartProcess _ _ _ _ | EvStopGRPC _ => false
  end.

(** ** What is listed *)

(** [ListAvailableBackends]. *)
Definition ListAvailableBackends (sys : Sys) (assetdir : string)
  : error + list string :=
  backendsInAssetDir sys assetdir.

(** The tests of the first loop on one directory entry, taken together:
    the entry is not an excluded backend, not a directory, not a log file
    and, with auto-detection, not a llama.cpp variant other than the
    fallback. *)
Definition listed (autoDetect : bool) (e : DirEntry) : bool :=
  negb (bool_decide (Name e ∈ excludeBackends))
  && negb (IsDir e)
  && negb (strings.HasSuffix (Name e) ".log")
  && negb (strings.Contains (Name e) LLamaCPP
           && negb (strings.Contains (Name e) LLamaCPPFallback)
           && autoDetect).

(** ** A world to run the loader in *)

(** What the backend processes of a sample world do: whether they can be
    spawned, whether they answer the health check, and what the load-model
    call answers. *)
Record Behaviour := {
  spawns : bool;
  answers : bool;
  loads : error + bool * string
}.

(** A sample world: the entries of the backend directory, the files on
    disk, the GPUs, the CPU features and the behaviour of the backends.
    Maps are visited in the order of [map_to_list], ports are handed out
    from 50000 on, and the defaults of the options are those of an empty
    [Options] with 20 attempts 2 seconds apart. The backend names asked
    for in this world are of ASCII bytes, for which [strings.ToLower] never
    consults [MapToLower]; it is left as the identity. *)
Definition sampleSys (ad : bool) (entry : list DirEntry) (files : list string)
    (gpus : list string) (avx2 avx : bool) (b : Behaviour) : Sys :=
  {| autoDetect := ad;
     ModelPath := "/models";
     ReadDir := λ _, inr entry;
     Stat := λ p, if bool_decide (p ∈ files) then StatOk else StatNotExist;
     GPUs := inr gpus;
     HasCPUCaps := λ c, match c with AVX2 => avx2 | AVX => avx end;
     rangeBackends := map_to_list;
     rangeExternal := map_to_list;
     GetFreePort := λ tr, inr (50000 + Z.of_nat (length tr))%Z;
     VerifyPath := λ _ _, None;
     LoadLDSO := λ _ args p, (args, p);
     startProcessResult := λ _ p,
       if spawns b then None
       else Some (errorString ("fork/exec " +:+ procPath p));
     HealthCheck := λ _ _,
       if answers b then (true, None)
       else (false, Some (errorString "connection refused"));
     LoadModelRPC := λ _ _ _, loads b;
     stopResult := λ _ _, None;
     MapToLower := λ s, s;
     defaultOptions :=
       {| backendString := ""; model := ""; threads := 0; assetDir := "";
          gRPCOptions := {| F16Memory := false; LibrarySearchPath := "";
                            Model := ""; ModelFile := "" |};
          externalBackends := ∅; grpcAttempts := 20; grpcAttemptsDelay := 2;
          singleActiveBackend := false; parallelRequests := false |} |}.

Definition healthy : Behaviour :=
  {| spawns := true; answers := true; loads := inr (true, "") |}.

(** Backends that are spawned and never answer the health check. *)
Definition silent : Behaviour :=
  {| spawns := true; answers := false; loads := inr (true, "") |}.

(** Backends that cannot be spawned. *)
Definition broken : Behaviour :=
  {| spawns := false; answers := false; loads := inr (true, "") |}.

(** Backends that answer and then refuse the model. *)
Definition refusing : Behaviour :=
  {| spawns := true; answers := true;
     loads := inr (false, "unsupported model") |}.

Definition file (name : string) : DirEntry :=
  {| Name := name; IsDir := false |}.

Definition emptyState : State :=
  {| environ := ∅; models := ∅; trace := [] |}.

(** ** Starting up: [Startup] and [startWatcher] (package [startup]) *)

Module config.

(** The fields of [config.ApplicationConfig] that decide what [Startup]
    does. *)
Record ApplicationConfig := {
  ModelPath : string;
  ImageDir : string;
  AudioDir : string;
  UploadDir : string;
  ConfigFile : string;
  PreloadJSONModels : string;
  PreloadModelsFromPath : string;
  AssetsDestination : string;
  LibPath : string;
  WatchDog : bool;
  LoadToMemory : list string;
  DynamicConfigsDir : string
}.

(** The fields of [config.BackendConfig] that [Startup] reads. *)
Record BackendConfig := {
  Model : string;
  Backend : string
}.

End config.

Record ModelMemoryInfo := {
  VRAM : N;
  RAM : N
}.

(** One VRAM estimate of the GGUF parser ([item.VRAMs]). *)
Record VRAMEstimate := {
  UMA : N;
  NonUMA : N
}.

(** What [Startup] does to the outside, apart from what the model loader
    does: the calls it makes for their effect, in the order it makes them.
    A goroutine it starts is recorded where it is started. *)
Inductive Step :=
| StepGetNvidiaGpuInfo
| StepMkdirAll (path : string) (perm : N)
| StepInstallModels (modelPath : string)
| StepLoadBackendConfigsFromPath (path : string)
| StepLoadMultipleBackendConfigsSingleFile (file : string)
| StepPreload (modelPath : string)
| StepApplyGalleryFromString (modelPath s : string)
| StepApplyGalleryFromFile (modelPath s : string)
| StepExtractFiles (dst : string)
| StepLoadExternal (libPath : string)
| StepGoStopAllGRPC
| StepSetWatchDog
| StepGoWatchDogRun
| StepGoWatchDogShutdown
| StepLoadBackendConfigFileByName (m modelPath : string)
| StepGetModelGGufData (modelPath : string)
| StepWatch (dir : string).

(** The collaborators of [Startup]: the ones of the model loader, the
    vendor names of the cards [xsysinfo.GPUs] returns (with or without an
    error, and taken to carry their device information), [os.MkdirAll],
    the two gallery calls whose error ends the start, the configuration of
    a model by name, the GGUF data (the VRAM estimates of each item of the
    estimate), the load options [backend.ModelOptions] builds for a
    configuration, and the quoting of [%q]. A collaborator whose answer
    may change from call to call is given the steps that came before the
    call. A call whose error is logged and otherwise ignored has no
    entry. *)
Record Host := {
  loaderSys : Sys;
  GPUVendors : list string;
  MkdirAll : list Step → string → option error;
  ApplyGalleryFromString : list Step → string → string → option error;
  ApplyGalleryFromFile : list Step → string → string → option error;
  LoadBackendConfigFileByName :
    list Step → string → error + config.BackendConfig;
  GetModelGGufData : list Step → error + list (list VRAMEstimate);
  backend_ModelOptions : config.BackendConfig → list Option_;
  Quote : string → string
}.

(** The state of a start: the state of the model loader, the steps so far
    and the local [localAIModelMemoryMap]. *)
Record Run := {
  loader : State;
  steps : list Step;
  localAIModelMemoryMap : gmap string (list ModelMemoryInfo)
}.

(** What [Startup] returns: the two loaders and the options, which are nil
    together or not at all, and the error; or it panics. *)
Inductive StartupOutcome :=
| StartupReturn (loaders : bool) (err : option error)
| StartupPanic.

(** A start either ends with what it returns or goes on with a value. *)
Definition Starting (A : Type) : Type :=
  Run → (StartupOutcome + A) * Run.

#[global] Instance Starting_ret : MRet Starting := λ A x r, (inr x, r).
#[global] Instance Starting_bind : MBind Starting := λ A B f m r,
  match m r with
  | (inl out, r') => (inl out, r')
  | (inr a, r') => f a r'
  end.

Definition returns {A} (out : StartupOutcome) : Starting A := λ r, (inl out, r).

Definition step (s : Step) : Starting unit := λ r,
  (inr tt, {| loader := loader r; steps := steps r ++ [s];
              localAIModelMemoryMap := localAIModelMemoryMap r |}).

Definition when (b : bool) (c : Starting unit) : Starting unit :=
  if b then c else mret tt.

(** The steps made so far. *)
Definition history : Starting (list Step) := λ r, (inr (steps r), r).

(** Modelled from the spec: [model.NewModelLoader], which is not part of
    the sources at hand. The loader it builds has the model path it is
    given and an empty registry (spec 3, process registry). *)
Definition NewModelLoader (sys : Sys) (modelPath : string) : Sys :=
  {| autoDetect := autoDetect sys;
     ModelPath := modelPath;
     ReadDir := ReadDir sys;
     Stat := Stat sys;
     GPUs := GPUs sys;
     HasCPUCaps := HasCPUCaps sys;
     rangeBackends := rangeBackends sys;
     rangeExternal := rangeExternal sys;
     GetFreePort := GetFreePort sys;
     VerifyPath := VerifyPath sys;
     LoadLDSO := LoadLDSO sys;
     startProcessResult := startProcessResult sys;
     HealthCheck := HealthCheck sys;
     LoadModelRPC := LoadModelRPC sys;
     stopResult := stopResult sys;
     MapToLower := MapToLower sys;
     defaultOptions := defaultOptions sys |}.

(** The directory permissions [0750] and [0700]. *)
Definition perm0750 : N := 488.
Definition perm0700 : N := 448.

(** [os.MkdirAll(dir, 0750)] and the error [Startup] makes of its failure;
    [what] is the name of the option. *)
Definition mkdir (h : Host) (what dir : string) : Starting unit :=
  before ← history;
  _ ← step (StepMkdirAll dir perm0750);
  match MkdirAll h before dir with
  | Some err =>
      returns (StartupReturn false
                 (Some (errorString ("unable to create " +:+ what +:+ ": "
                                     +:+ Quote h (Error err)))))
  | None => mret tt
  end.

(** The probe of the GPUs: the information of the NVIDIA driver is asked
    for when the vendor name of some card holds "nvidia" in any case of
    its letters. *)
Definition probeGPUs (h : Host) : Starting unit :=
  let isNvidiaGpu :=
    existsb (λ vendor,
               strings.Contains
                 (strings.ToLower (MapToLower (loaderSys h)) vendor) "nvidia")
            (GPUVendors h) in
  when isNvidiaGpu (step StepGetNvidiaGpuInfo).

(** "Make sure directories exists". *)
Definition makeDirectories (h : Host) (options : config.ApplicationConfig)
  : Starting unit :=
  _ ← (if String.eqb (config.ModelPath options) ""
       then returns (StartupReturn false
                       (Some (errorString "options.ModelPath cannot be empty")))
       else mret tt);
  _ ← mkdir h "ModelPath" (config.ModelPath options);
  _ ← when (negb (String.eqb (config.ImageDir options) ""))
           (mkdir h "ImageDir" (config.ImageDir options));
  _ ← when (negb (String.eqb (config.AudioDir options) ""))
           (mkdir h "AudioDir" (config.AudioDir options));
  when (negb (String.eqb (config.UploadDir options) ""))
       (mkdir h "UploadDir" (config.UploadDir options)).

(** A gallery call, whose error ends the start. *)
Definition applyGallery (s : Step) (call : list Step → option error)
  : Starting unit :=
  before ← history;
  _ ← step s;
  match call before with
  | Some err => returns (StartupReturn false (Some err))
  | None => mret tt
  end.

(** From [InstallModels] to the galleries: the models and their
    configurations. The errors of the first four calls are logged. *)
Definition loadConfigurations (h : Host)
    (options : config.ApplicationConfig) : Starting unit :=
  _ ← step (StepInstallModels (config.ModelPath options));
  _ ← step (StepLoadBackendConfigsFromPath (config.ModelPath options));
  _ ← when (negb (String.eqb (config.ConfigFile options) ""))
           (step (StepLoadMultipleBackendConfigsSingleFile
                    (config.ConfigFile options)));
  _ ← step (StepPreload (config.ModelPath options));
  _ ← when (negb (String.eqb (config.PreloadJSONModels options) ""))
           (applyGallery
              (StepApplyGalleryFromString (config.ModelPath options)
                 (config.PreloadJSONModels options))
              (λ before,
                 ApplyGalleryFromString h before (config.ModelPath options)
                   (config.PreloadJSONModels options)));
  when (negb (String.eqb (config.PreloadModelsFromPath options) ""))
       (applyGallery
          (StepApplyGalleryFromFile (config.ModelPath options)
             (config.PreloadModelsFromPath options))
          (λ before,
             ApplyGalleryFromFile h before (config.ModelPath options)
               (config.PreloadModelsFromPath options))).

(** The backend assets, the external libraries, the goroutine that stops
    the backends when the context is cancelled, and the watchdog. The
    goroutines are recorded where they are started; what they do once the
    context is cancelled is not part of the start. *)
Definition prepareBackends (options : config.ApplicationConfig) : Starting unit :=
  _ ← when (negb (String.eqb (config.AssetsDestination options) ""))
           (step (StepExtractFiles (config.AssetsDestination options)));
  _ ← when (negb (String.eqb (config.LibPath options) ""))
           (step (StepLoadExternal (config.LibPath options)));
  _ ← step StepGoStopAllGRPC;
  when (config.WatchDog options)
       (_ ← step StepSetWatchDog;
        _ ← step StepGoWatchDogRun;
        step StepGoWatchDogShutdown).

(** The memory information of the devices: one entry for each VRAM
    estimate of each item, in their order. *)
Definition ggufVRAMDeviceInfo (items : list (list VRAMEstimate))
  : list ModelMemoryInfo :=
  mjoin (map (map (λ vram, {| VRAM := NonUMA vram; RAM := UMA vram |}))
             items).

Definition setMemory (m : string) (info : list ModelMemoryInfo) : Starting unit :=
  λ r, (inr tt, {| loader := loader r; steps := steps r;
                   localAIModelMemoryMap :=
                     <[m := info]> (localAIModelMemoryMap r) |}).

(** The two loads of the model loader, run on the state of the loader;
    what is handed on is [backendErr]. *)
Definition runBackendLoader (ml : Sys) (o : list Option_)
  : Starting (option error) := λ r,
  let '(res, st) := BackendLoader ml o (loader r) in
  (inr (loadedErr res),
   {| loader := st; steps := steps r;
      localAIModelMemoryMap := localAIModelMemoryMap r |}).

Definition runGreedyLoader (ml : Sys) (o : list Option_)
  : Starting (option error) := λ r,
  let '(out, st) := GreedyLoader ml o (loader r) in
  let r' := {| loader := st; steps := steps r;
               localAIModelMemoryMap := localAIModelMemoryMap r |} in
  match out with
  | Return _ backendErr => (inr backendErr, r')
  | Panic => (inl StartupPanic, r')
  end.

(** The loop over [options.LoadToMemory]. In the source [err] is, at the
    [return] that follows a failed load, the error of [GetModelGGufData],
    which is nil there: [backendErr] is not what is returned. *)
Fixpoint loadToMemory (h : Host) (ml : Sys)
    (options : config.ApplicationConfig) (ms : list string) : Starting unit :=
  match ms with
  | [] => mret tt
  | m :: ms' =>
      before ← history;
      _ ← step (StepLoadBackendConfigFileByName m (config.ModelPath options));
      match LoadBackendConfigFileByName h before m with
      | inl err => returns (StartupReturn false (Some err))
      | inr cfg =>
          before ← history;
          _ ← step (StepGetModelGGufData (config.ModelPath options));
          match GetModelGGufData h before with
          | inl _ => loadToMemory h ml options ms'
          | inr items =>
              let err : option error := None in
              _ ← setMemory (config.Model cfg) (ggufVRAMDeviceInfo items);
              let o := backend_ModelOptions h cfg in
              backendErr ←
                (if negb (String.eqb (config.Backend cfg) "")
                 then runBackendLoader ml
                        (o ++ [WithBackendString (config.Backend cfg)])
                 else runGreedyLoader ml o);
              match backendErr with
              | Some _ => returns (StartupReturn false err)
              | None => loadToMemory h ml options ms'
              end
          end
      end
  end.

(** [startWatcher]. *)
Definition startWatcher (h : Host) (options : config.ApplicationConfig)
  : Starting unit :=
  if String.eqb (config.DynamicConfigsDir options) "" then mret tt
  else
    match Stat (loaderSys h) (config.DynamicConfigsDir options) with
    | StatOk => step (StepWatch (config.DynamicConfigsDir options))
    | StatNotExist =>
        _ ← step (StepMkdirAll (config.DynamicConfigsDir options) perm0700);
        step (StepWatch (config.DynamicConfigsDir options))
    | StatFailure => mret tt
    end.

(** [Startup], run in the environment of the process. It is taken that
    the context is not cancelled while the start runs, and that the
    watchdog, once started, leaves the backends alone until the start is
    over. *)
Definition Startup (h : Host) (options : config.ApplicationConfig)
    (env : gmap string string) : StartupOutcome * Run :=
  let ml := NewModelLoader (loaderSys h) (config.ModelPath options) in
  let body : Starting unit :=
    _ ← probeGPUs h;
    _ ← makeDirectories h options;
    _ ← loadConfigurations h options;
    _ ← prepareBackends options;
    _ ← loadToMemory h ml options (config.LoadToMemory options);
    startWatcher h options in
  match body {| loader := {| environ := env; models := ∅; trace := [] |};
                steps := []; localAIModelMemoryMap := ∅ |} with
  | (inl out, r) => (out, r)
  | (inr _, r) => (StartupReturn true None, r)
  end.

(** ** Reading a start *)

(** What a part of the start does, for every state it is run in: the
    steps it adds satisfy [P]; what it returns with, if it does, satisfies
    [Q]; and the value it goes on with, if it does, satisfies [V]. *)
Definition phaseSpec {A} (c : Starting A) (P : Step → Prop)
    (Q : StartupOutcome → Prop) (V : A → Prop) : Prop :=
  ∀ r, ∃ new, steps (c r).2 = steps r ++ new
              ∧ Forall P new
              ∧ (∀ out, (c r).1 = inl out → Q out)
              ∧ (∀ a, (c r).1 = inr a → V a).

(** The directories [Startup] makes sure of, each with the name of its
    option, in the order of the source: the model path, and those of the
    images, the audio and the uploads that are set. *)
Definition startupDirectories (options : config.ApplicationConfig)
  : list (string * string) :=
  ("ModelPath", config.ModelPath options)
  :: filter (λ nd, nd.2 ≠ "")
            [("ImageDir", config.ImageDir options);
             ("AudioDir", config.AudioDir options);
             ("UploadDir", config.UploadDir options)].

(** The errors [Startup] returns: the one of an empty model path, the one
    of a directory that cannot be made, the ones of the two gallery
    calls, and the one of the configuration of a model to load. *)
Definition startupError (h : Host) (options : config.ApplicationConfig)
    (e : error) : Prop :=
  e = errorString "options.ModelPath cannot be empty"
  ∨ (∃ what dir before err,
       (what, dir) ∈ startupDirectories options
       ∧ MkdirAll h before dir = Some err
       ∧ e = errorString ("unable to create " +:+ what +:+ ": "
                          +:+ Quote h (Error err)))
  ∨ (∃ before,
       ApplyGalleryFromString h before (config.ModelPath options)
         (config.PreloadJSONModels options) = Some e)
  ∨ (∃ before,
       ApplyGalleryFromFile h before (config.ModelPath options)
         (config.PreloadModelsFromPath options) = Some e)
  ∨ ∃ before m, m ∈ config.LoadToMemory options
                ∧ LoadBackendConfigFileByName h before m = inl e.

(** A model of [LoadToMemory] whose load fails in the model loader, in
    some state of the loader: through [BackendLoader] when its
    configuration names a backend, through [GreedyLoader] otherwise. *)
Definition failedLoad (h : Host) (options : config.ApplicationConfig)
  : Prop :=
  ∃ before m cfg st,
    m ∈ config.LoadToMemory options
    ∧ LoadBackendConfigFileByName h before m = inr cfg
    ∧ ((config.Backend cfg ≠ ""
        ∧ ∃ e, loadedErr
                 (BackendLoader
                    (NewModelLoader (loaderSys h) (config.ModelPath options))
                    (backend_ModelOptions h cfg
                     ++ [WithBackendString (config.Backend cfg)]) st).1
               = Some e)
       ∨ (config.Backend cfg = ""
          ∧ ∃ c e, (GreedyLoader
                      (NewModelLoader (loaderSys h)
                                      (config.ModelPath options))
                      (backend_ModelOptions h cfg) st).1
                   = Return c (Some e))).

(** What [Startup] may return with before its end. *)
Definition earlyReturn (h : Host) (options : config.ApplicationConfig)
    (out : StartupOutcome) : Prop :=
  match out with
  | StartupReturn loaders (Some e) => loaders = false ∧ startupError h options e
  | StartupReturn loaders None => loaders = false ∧ failedLoad h options
  | StartupPanic => True
  end.

(** A step that is not the start of the watcher. *)
Definition notWatch (s : Step) : Prop := ∀ dir, s ≠ StepWatch dir.

(** The steps of [startWatcher]: none without a directory of dynamic
    configurations or when it cannot be looked at; else the watcher, after
    the directory was made if it was not there. *)
Definition watcherSteps (h : Host) (options : config.ApplicationConfig)
  : list Step :=
  if String.eqb (config.DynamicConfigsDir options) "" then []
  else match Stat (loaderSys h) (config.DynamicConfigsDir options) with
       | StatOk => [StepWatch (config.DynamicConfigsDir options)]
       | StatNotExist =>
           [StepMkdirAll (config.DynamicConfigsDir options) perm0700;
            StepWatch (config.DynamicConfigsDir options)]
       | StatFailure => []
       end.

(** The state a start begins in. *)
Definition initialRun (env : gmap string string) : Run :=
  {| loader := {| environ := env; models := ∅; trace := [] |};
     steps := []; localAIModelMemoryMap := ∅ |}.

(** The start up to the loop over [LoadToMemory]. *)
Definition preparation (h : Host) (options : config.ApplicationConfig)
  : Starting unit :=
  _ ← probeGPUs h;
  _ ← makeDirectories h options;
  _ ← loadConfigurations h options;
  prepareBackends options.

(** The steps of the probe of the GPUs. *)
Definition probeSteps (h : Host) : list Step :=
  if existsb (λ vendor,
                strings.Contains
                  (strings.ToLower (MapToLower (loaderSys h)) vendor)
                  "nvidia")
             (GPUVendors h)
  then [StepGetNvidiaGpuInfo] else [].

(** A part of the start that leaves the model loader and the memory map
    as they are. *)
Definition stepsOnly {A} (c : Starting A) : Prop :=
  ∀ r, loader (c r).2 = loader r
       ∧ localAIModelMemoryMap (c r).2 = localAIModelMemoryMap r.

(** A sample host: the directories can be made, the galleries apply, the
    models of [configs] have a configuration, the GGUF data is there when
    [gguf] is set, and the load options of a configuration are its model
    and the asset directory [/opt]. *)
Definition sampleHost (sys : Sys) (vendors : list string)
    (configs : list (string * config.BackendConfig)) (gguf : bool) : Host :=
  {| loaderSys := sys;
     GPUVendors := vendors;
     MkdirAll := λ _ _, None;
     ApplyGalleryFromString := λ _ _ _, None;
     ApplyGalleryFromFile := λ _ _ _, None;
     LoadBackendConfigFileByName := λ _ m,
       match list_to_map (M := gmap string config.BackendConfig) configs !! m
       with
       | Some cfg => inr cfg
       | None => inl (errorString ("no configuration for " +:+ m))
       end;
     GetModelGGufData := λ _,
       if gguf then inr [[ {| UMA := 1; NonUMA := 2 |} ]]
       else inl (errorString "not a GGUF file");
     backend_ModelOptions := λ cfg,
       [WithModel (config.Model cfg); WithAssetDir "/opt"];
     Quote := λ s, String "034"%char (s +:+ String "034"%char "") |}.

Definition sampleConfig (modelPath : string) (loadToMemory : list string)
    (dynamicConfigsDir : string) : config.ApplicationConfig :=
  {| config.ModelPath := modelPath; config.ImageDir := "/tmp/images";
     config.AudioDir := ""; config.UploadDir := "";
     config.ConfigFile := ""; config.PreloadJSONModels := "";
     config.PreloadModelsFromPath := ""; config.AssetsDestination := "/opt";
     config.LibPath := ""; config.WatchDog := false;
     config.LoadToMemory := loadToMemory;
     config.DynamicConfigsDir := dynamicConfigsDir |}.

(** * Properties *)

(** ** The candidate list *)

Lemma Get_is_Some {V} (m : orderedmap.t V) k :
  is_Some (orderedmap.Get m k) ↔ k ∈ orderedmap.Keys m.
Proof.
  unfold orderedmap.Keys. induction m as [|[k' v] m IH]; simpl.
  - split; [intros [? ?]; discriminate | intros H; inversion H].
  - case_bool_decide as Hk; simpl in *.
    + subst. split; [intros _; left | eauto].
    + rewrite IH. split; [by right | intros H].
      apply elem_of_cons in H as [->|H]; [done | exact H].
Qed.

Lemma Keys_Set {V} (m : orderedmap.t V) k v :
  orderedmap.Keys (orderedmap.Set_ m k v) = pushNew (orderedmap.Keys m) k.
Proof.
  unfold orderedmap.Set_, pushNew.
  destruct (orderedmap.Get m k) as [w|] eqn:Hget.
  - rewrite bool_decide_eq_true_2 by (apply Get_is_Some; eauto).
    unfold orderedmap.Keys. clear Hget.
    induction m as [|[k' v'] m IH]; [done|].
    rewrite map_cons, !fmap_cons, IH. f_equal.
    case_bool_decide; simpl in *; congruence.
  - rewrite bool_decide_eq_false_2.
    + unfold orderedmap.Keys. by rewrite fmap_app.
    + intros Hin. apply Get_is_Some in Hin as [? ?]. congruence.
Qed.

Lemma NoDup_pushNew ks k : NoDup ks → NoDup (pushNew ks k).
Proof.
  intros Hnd. unfold pushNew. case_bool_decide as Hk; [done|].
  apply NoDup_app. split_and!; [done | | apply NoDup_singleton].
  intros x Hx Hx'. apply list_elem_of_singleton in Hx'. by subst.
Qed.

Lemma elem_of_pushNew ks k x : x ∈ pushNew ks k ↔ x ∈ ks ∨ x = k.
Proof.
  unfold pushNew. case_bool_decide as Hk.
  - split; [by left | intros [H| ->]; done].
  - rewrite elem_of_app, list_elem_of_singleton. done.
Qed.

(** On fresh, distinct keys the loops over [priorityList] and [toTheEnd]
    append the keys that [backends] holds. *)
Lemma foldl_presentStep (backends : Backends) (l ks : list string) :
  NoDup l → (∀ x, x ∈ l → x ∉ ks) →
  foldl (presentStep backends) ks l
  = ks ++ filter (λ k, is_Some (backends !! k)) l.
Proof.
  revert ks. induction l as [|p l IH]; intros ks Hnd Hfresh; cbn [foldl].
  - by rewrite app_nil_r.
  - apply NoDup_cons in Hnd as [Hp Hnd]. unfold presentStep at 2.
    case_bool_decide as HP.
    + rewrite filter_cons_True by done.
      unfold pushNew. rewrite bool_decide_eq_false_2
        by (apply Hfresh; left).
      rewrite IH; [by rewrite <- app_assoc | done |].
      intros x Hx. rewrite elem_of_app, list_elem_of_singleton.
      intros [Hin| ->]; [|done]. eapply Hfresh; [by right | done].
    + rewrite filter_cons_False by done.
      apply IH; [done|]. intros x Hx. apply Hfresh. by right.
Qed.

(** The second loop only adds at the end, keys it visits that are not
    deferred and were not there. *)
Lemma foldl_visit (visit : list string) (ks : list string) :
  ∃ mid,
    foldl visitStep ks visit = ks ++ mid
    ∧ NoDup mid
    ∧ (∀ k, k ∈ mid ↔ (k ∈ visit ∧ (k ∉ toTheEnd) ∧ (k ∉ ks))).
Proof.
  revert ks. induction visit as [|k visit IH]; intros ks.
  - exists []. rewrite app_nil_r. split_and!; [done | constructor |].
    intros k. rewrite !elem_of_nil. tauto.
  - cbn [foldl].
    destruct (decide (k ∈ toTheEnd ∨ k ∈ ks)) as [Hskip|Hnew].
    + assert (visitStep ks k = ks) as ->.
      { unfold visitStep, pushNew. destruct Hskip.
        - by rewrite bool_decide_eq_true_2.
        - case_bool_decide; [done|]. by rewrite bool_decide_eq_true_2. }
      destruct (IH ks) as (mid & -> & Hnd & Hmid). exists mid.
      split_and!; [done..|]. intros x. rewrite Hmid, elem_of_cons.
      split; [tauto|]. intros [[->|Hx] [H1 H2]]; tauto.
    + assert (visitStep ks k = ks ++ [k]) as ->.
      { unfold visitStep, pushNew.
        rewrite !bool_decide_eq_false_2 by tauto. done. }
      destruct (IH (ks ++ [k])) as (mid & -> & Hnd & Hmid).
      exists (k :: mid). rewrite <- app_assoc. split_and!; [done | |].
      * apply NoDup_cons. split; [|done]. rewrite Hmid, elem_of_app.
        intros (_ & _ & Hk). apply Hk. right. by left.
      * intros x. rewrite !elem_of_cons, Hmid, elem_of_app,
          list_elem_of_singleton.
        destruct (decide (x = k)) as [->|Hne]; [tauto|]. tauto.
Qed.


Lemma foldl_Keys {V A} (f : orderedmap.t V → A → orderedmap.t V)
    (g : list string → A → list string) (l : list A) (om : orderedmap.t V) :
  (∀ om x, orderedmap.Keys (f om x) = g (orderedmap.Keys om) x) →
  orderedmap.Keys (foldl f om l) = foldl g (orderedmap.Keys om) l.
Proof.
  intros Hstep. revert om. induction l as [|x l IH]; intros om; [done|].
  cbn [foldl]. by rewrite IH, Hstep.
Qed.

(** The candidate list is computed on the keys alone. *)
Lemma orderBackends_keys visit (backends : Backends) :
  orderBackends visit backends
  = foldl (presentStep backends)
          (foldl visitStep (foldl (presentStep backends) [] priorityList)
                 visit.*1)
          toTheEnd.
Proof.
  unfold orderBackends.
  rewrite (foldl_Keys _ (presentStep backends)).
  2:{ intros om t. unfold presentStep. destruct (backends !! t) eqn:Ht.
      - rewrite bool_decide_eq_true_2 by eauto. apply Keys_Set.
      - rewrite bool_decide_eq_false_2; [done|]. by intros [? ?]. }
  f_equal.
  rewrite (foldl_Keys _ (λ ks kv, visitStep ks kv.1)).
  2:{ intros om kv. unfold visitStep. case_bool_decide; [done|].
      destruct (orderedmap.Get om kv.1) eqn:Hget; [|apply Keys_Set].
      unfold pushNew. rewrite bool_decide_eq_true_2; [done|].
      apply Get_is_Some. eauto. }
  rewrite (foldl_Keys _ (presentStep backends)).
  2:{ intros om t. unfold presentStep. destruct (backends !! t) eqn:Ht.
      - rewrite bool_decide_eq_true_2 by eauto. apply Keys_Set.
      - rewrite bool_decide_eq_false_2; [done|]. by intros [? ?]. }
  change (orderedmap.Keys orderedmap.NewOrderedMap) with (@nil string).
  generalize (foldl (presentStep backends) [] priorityList).
  induction visit as [|kv visit IH]; intros ks; [done|].
  rewrite fmap_cons. cbn [foldl]. apply IH.
Qed.

(** *** What is discovered *)

Lemma scanEntry_lookup ad (backends : Backends) e k :
  is_Some (scanEntry ad backends e !! k) →
  is_Some (backends !! k) ∨ (k = Name e ∧ (k ∉ excludeBackends)).
Proof.
  unfold scanEntry. case_bool_decide as Hex; [by left|].
  repeat (match goal with |- context [if ?b then _ else _] =>
            destruct b end; [by left|]).
  destruct (decide (k = Name e)) as [->|Hne]; [by right|].
  rewrite lookup_insert_ne by done. by left.
Qed.

Lemma foldl_scanEntry_lookup ad entry (backends : Backends) k :
  is_Some (foldl (scanEntry ad) backends entry !! k) →
  is_Some (backends !! k) ∨ (k ∉ excludeBackends).
Proof.
  revert backends. induction entry as [|e entry IH]; intros backends;
    cbn [foldl]; [by left|].
  intros H. apply IH in H as [H|H]; [|by right].
  apply scanEntry_lookup in H as [H|[_ H]]; [by left | by right].
Qed.

Lemma foldVariant_lookup name v get set (acc : Backends * Found) k :
  k ≠ LLamaCPP →
  (foldVariant name v get set acc).1 !! k = acc.1 !! k.
Proof.
  intros Hk. unfold foldVariant, appendVariant.
  destruct (_ && _); [|done]. cbn [fst]. by rewrite lookup_insert_ne.
Qed.

Lemma scanVariants_lookup (acc : Backends * Found) e k :
  k ≠ LLamaCPP → (scanVariants acc e).1 !! k = acc.1 !! k.
Proof.
  intros Hk. unfold scanVariants. by rewrite !foldVariant_lookup.
Qed.

Lemma foldl_scanVariants_lookup entry (acc : Backends * Found) k :
  k ≠ LLamaCPP → (foldl scanVariants acc entry).1 !! k = acc.1 !! k.
Proof.
  intros Hk. revert acc. induction entry as [|e entry IH]; intros acc;
    cbn [foldl]; [done|].
  by rewrite IH, scanVariants_lookup.
Qed.

(** The backend kept out of automatic loading is never discovered. *)
Lemma discoverBackends_excluded ad entry k :
  k ∈ excludeBackends → discoverBackends ad entry !! k = None.
Proof.
  intros Hk. apply eq_None_not_Some. intros Hsome.
  assert (is_Some (foldl (scanEntry ad) ∅ entry !! k)) as H.
  { unfold discoverBackends in Hsome. destruct ad; [|done].
    destruct (foldl (scanEntry true) ∅ entry !! LLamaCPP); [done|].
    rewrite foldl_scanVariants_lookup in Hsome; [done|].
    intros ->. revert Hk. unfold excludeBackends.
    rewrite list_elem_of_singleton. discriminate. }
  apply foldl_scanEntry_lookup in H as [H|H]; [|done].
  rewrite lookup_empty in H. by destruct H.
Qed.

(** *** The order of the candidates *)

Lemma priorityList_toTheEnd_disjoint k :
  k ∈ priorityList → k ∉ toTheEnd.
Proof.
  unfold priorityList, toTheEnd.
  rewrite !elem_of_cons, !elem_of_nil.
  intros [->|[->|[->|[]]]] [H|[H|[]]]; discriminate.
Qed.

Lemma NoDup_priorityList : NoDup priorityList.
Proof.
  unfold priorityList. repeat constructor;
    rewrite ?elem_of_cons, ?elem_of_nil;
    intros H; repeat destruct H as [H|H]; try discriminate; done.
Qed.

Lemma NoDup_toTheEnd : NoDup toTheEnd.
Proof.
  unfold toTheEnd. repeat constructor;
    rewrite ?elem_of_cons, ?elem_of_nil;
    intros H; repeat destruct H as [H|H]; try discriminate; done.
Qed.

(** The shape of the ordered keys, for any map and any order in which its
    keys are visited. *)
Lemma orderBackends_shape (visit : list (string * list string))
    (backends : Backends) :
  visit ≡ₚ map_to_list backends →
  ∃ mid,
    orderBackends visit backends
    = filter (λ k, is_Some (backends !! k)) priorityList
      ++ mid ++ filter (λ k, is_Some (backends !! k)) toTheEnd
    ∧ NoDup (orderBackends visit backends)
    ∧ (∀ k, k ∈ orderBackends visit backends ↔ is_Some (backends !! k))
    ∧ (∀ k, k ∈ mid → (k ∉ priorityList) ∧ (k ∉ toTheEnd)).
Proof.
  intros Hperm.
  assert (∀ k, k ∈ visit.*1 ↔ is_Some (backends !! k)) as Hvisit.
  { intros k. rewrite list_elem_of_fmap. split.
    - intros ([k' v] & -> & Hin). rewrite Hperm in Hin.
      apply elem_of_map_to_list in Hin. eauto.
    - intros [v Hv]. exists (k, v). split; [done|].
      rewrite Hperm. by apply elem_of_map_to_list. }
  rewrite orderBackends_keys.
  rewrite (foldl_presentStep backends priorityList [])
    by (apply NoDup_priorityList || (intros ? _; apply not_elem_of_nil)).
  rewrite app_nil_l.
  set (pre := filter (λ k, is_Some (backends !! k)) priorityList).
  destruct (foldl_visit visit.*1 pre) as (mid & -> & Hndmid & Hmid).
  assert (∀ k, k ∈ pre ↔ (k ∈ priorityList ∧ is_Some (backends !! k)))
    as Hpre.
  { intros k. unfold pre. rewrite list_elem_of_filter. tauto. }
  rewrite foldl_presentStep; [|apply NoDup_toTheEnd|].
  2:{ intros x Hx. rewrite elem_of_app, Hpre, Hmid.
      intros [[Hp _]|(_ & Hne & _)]; [|done].
      by apply priorityList_toTheEnd_disjoint in Hp. }
  set (post := filter (λ k, is_Some (backends !! k)) toTheEnd).
  assert (∀ k, k ∈ post ↔ (k ∈ toTheEnd ∧ is_Some (backends !! k)))
    as Hpost.
  { intros k. unfold post. rewrite list_elem_of_filter. tauto. }
  exists mid. rewrite <- app_assoc. split_and!.
  - done.
  - apply NoDup_app. split_and!.
    + apply NoDup_filter, NoDup_priorityList.
    + intros x Hx. rewrite elem_of_app, Hmid, Hpost.
      intros [(_ & _ & Hn)|[He _]]; [done|].
      apply Hpre in Hx as [Hp _].
      by apply priorityList_toTheEnd_disjoint in Hp.
    + apply NoDup_app. split_and!; [done | | apply NoDup_filter, NoDup_toTheEnd].
      intros x Hx. rewrite Hpost. apply Hmid in Hx as (_ & Hn & _). tauto.
  - intros k. rewrite !elem_of_app, Hpre, Hmid, Hpost, Hvisit. split.
    + intros [[_ H]|[[H _]|[_ H]]]; done.
    + intros Hk. destruct (decide (k ∈ priorityList)); [by left|].
      right. destruct (decide (k ∈ toTheEnd)); [by right|].
      left. split_and!; [done..|]. rewrite Hpre. tauto.
  - intros k Hk. apply Hmid in Hk as (Hv & Hne & Hnp). split; [|done].
    intros Hp. apply Hnp, Hpre. split; [done|]. by apply Hvisit.
Qed.

Example backendsInAssetDir_sample :
  backendsInAssetDir
    (sampleSys false
       [file "bert-embeddings"; file "huggingface"; file "llama-cpp";
        file "local-store"; file "piper"; file "whisper"]
       [] [] false false healthy) "/usr/share/local-ai"
  = inr ["llama-cpp"; "whisper"; "piper"; "huggingface"; "bert-embeddings"].
Proof. vm_compute. reflexivity. Qed.

(** ** The variants of llama-cpp: C6 *)

(** With auto-detection no file is keyed as llama-cpp by the first loop:
    its name holds llama-cpp and not llama-cpp-fallback. *)
Lemma foldl_scanEntry_no_LLamaCPP entry (backends : Backends) :
  backends !! LLamaCPP = None →
  foldl (scanEntry true) backends entry !! LLamaCPP = None.
Proof.
  revert backends. induction entry as [|e entry IH]; intros backends Hb;
    cbn [foldl]; [done|].
  apply IH. unfold scanEntry.
  repeat (match goal with |- context [if ?b then _ else _] =>
            destruct b eqn:? end; [done|]).
  destruct (decide (Name e = LLamaCPP)) as [Heq|Hne].
  - rewrite Heq in *. vm_compute in Heqb2. discriminate.
  - by rewrite lookup_insert_ne.
Qed.

Lemma foldVariant_inv name v get set acc l :
  v ∈ variantTests →
  (∀ f, get f = flagOf f v) →
  (∀ f w, w ∈ variantTests →
          flagOf (set f) w = if bool_decide (w = v) then true
                             else flagOf f w) →
  variantsInv acc l →
  variantsInv (foldVariant name v get set acc)
              (if strings.Contains name v then pushNew l v else l).
Proof.
  intros Hv Hget Hset [Hmap Hflags]. unfold foldVariant, pushNew.
  rewrite Hget, Hflags by done.
  destruct (strings.Contains name v); cbn [andb]; [|by split].
  case_bool_decide as Hin; cbn [negb]; [by split|].
  split; cbn [fst snd].
  - unfold appendVariant. rewrite lookup_insert_eq, Hmap.
    by destruct l.
  - intros w Hw. rewrite Hset, Hflags by done.
    case_bool_decide as Hwv.
    + subst. symmetry. apply bool_decide_eq_true_2.
      rewrite elem_of_app. right. by left.
    + apply bool_decide_ext. rewrite elem_of_app, list_elem_of_singleton.
      tauto.
Qed.

Ltac variant_flag :=
  first
    [ intros ?; reflexivity
    | let f := fresh "f" in let w := fresh "w" in let Hw := fresh "Hw" in
      intros f w Hw; unfold variantTests in Hw;
      repeat (apply elem_of_cons in Hw as [->|Hw]; [vm_compute; reflexivity|]);
      by apply elem_of_nil in Hw
    | unfold variantTests; rewrite !elem_of_cons; tauto ].

Lemma foldl_filter_pushNew (P : string → bool) (xs l : list string) :
  foldl (λ l v, if P v then pushNew l v else l) l xs
  = foldl pushNew l (filter (λ v, P v = true) xs).
Proof.
  revert l. induction xs as [|x xs IH]; intros l; [done|].
  cbn [foldl]. rewrite IH. destruct (P x) eqn:HP.
  - by rewrite filter_cons_True.
  - rewrite filter_cons_False; [done|]. by rewrite HP.
Qed.

(** One entry of the second loop adds the variants its name contains, in
    the order of the tests, unless they are in the list. *)
Lemma scanVariants_inv acc e l :
  variantsInv acc l →
  variantsInv (scanVariants acc e) (foldl pushNew l (hits (Name e))).
Proof.
  intros Hinv. unfold hits.
  rewrite <- (foldl_filter_pushNew (strings.Contains (Name e))).
  unfold scanVariants, variantTests. cbn [foldl].
  do 8 (apply foldVariant_inv; [variant_flag..|]).
  exact Hinv.
Qed.

Lemma foldl_scanVariants_inv entry acc l :
  variantsInv acc l →
  variantsInv (foldl scanVariants acc entry)
              (foldl pushNew l (mjoin (hits ∘ Name <$> entry))).
Proof.
  revert acc l. induction entry as [|e entry IH]; intros acc l Hinv;
    [done|].
  rewrite fmap_cons. cbn [foldl mjoin list_join]. rewrite foldl_app.
  apply IH. by apply scanVariants_inv.
Qed.

Lemma NoDup_foldl_pushNew xs l : NoDup l → NoDup (foldl pushNew l xs).
Proof.
  revert l. induction xs as [|x xs IH]; intros l Hl; [done|].
  cbn [foldl]. by apply IH, NoDup_pushNew.
Qed.

Lemma elem_of_foldl_pushNew xs l x :
  x ∈ foldl pushNew l xs ↔ x ∈ l ∨ x ∈ xs.
Proof.
  revert l. induction xs as [|y xs IH]; intros l; cbn [foldl].
  - rewrite elem_of_nil. tauto.
  - rewrite IH, elem_of_pushNew, elem_of_cons. tauto.
Qed.

(** C6, as the code has it. With auto-detection the first loop never keys a
    file as llama-cpp, and the member list of llama-cpp holds every variant
    name that the name of some directory entry contains, each once, in the
    order of its first match: the entries in the order of the directory
    and, within an entry, the tests in the order AVX2, AVX, fallback, GRPC,
    CUDA, HIP, SYCL-16, SYCL-32. The key llama-cpp exists exactly when
    that list is not empty. *)
Theorem llamaVariants_first_match_order (entry : list DirEntry) :
  foldl (scanEntry true) ∅ entry !! LLamaCPP = None
  ∧ llamaVariants true entry
    = firstOccurrences (mjoin (hits ∘ Name <$> entry))
  ∧ NoDup (llamaVariants true entry)
  ∧ (∀ v, v ∈ llamaVariants true entry
          ↔ v ∈ variantTests
            ∧ ∃ e, e ∈ entry ∧ strings.Contains (Name e) v = true)
  ∧ (is_Some (discoverBackends true entry !! LLamaCPP)
     ↔ llamaVariants true entry ≠ []).
Proof.
  assert (foldl (scanEntry true) ∅ entry !! LLamaCPP = None) as Hnone
    by (apply foldl_scanEntry_no_LLamaCPP, lookup_empty).
  assert (variantsInv (foldl scanVariants
                         (foldl (scanEntry true) ∅ entry, noneFound) entry)
                      (firstOccurrences (mjoin (hits ∘ Name <$> entry))))
    as [Hmap _].
  { apply foldl_scanVariants_inv. split; [done|].
    intros v Hv. unfold variantTests in Hv.
    repeat (apply elem_of_cons in Hv as [->|Hv]; [reflexivity|]).
    by apply elem_of_nil in Hv. }
  assert (llamaVariants true entry
          = firstOccurrences (mjoin (hits ∘ Name <$> entry))) as Heq.
  { unfold llamaVariants, discoverBackends. rewrite Hnone, Hmap.
    by destruct (firstOccurrences _). }
  split_and!; [done | done | | |].
  - rewrite Heq. apply NoDup_foldl_pushNew. constructor.
  - intros v. rewrite Heq. unfold firstOccurrences.
    rewrite elem_of_foldl_pushNew, elem_of_nil, list_elem_of_join.
    split.
    + intros [[]|(l & Hv & Hl)].
      apply list_elem_of_fmap in Hl as (e & -> & He).
      apply list_elem_of_filter in Hv as [Hc Hv]. eauto.
    + intros (Hv & e & He & Hc). right. exists (hits (Name e)). split.
      * by apply list_elem_of_filter.
      * apply list_elem_of_fmap. by exists e.
  - rewrite Heq. unfold discoverBackends. rewrite Hnone, Hmap.
    destruct (firstOccurrences _); split; try done; try by intros [? ?].
    all: eauto.
Qed.

(** C6, as the specification has it: the member list would be in the order
    CUDA, HIP, SYCL-16, SYCL-32, AVX2, AVX, fallback, GRPC. A directory
    with the AVX2 and the CUDA build refutes it: AVX2 is found first, AVX
    with it, for the one name holds the other, and CUDA last. *)
Lemma llamaVariants_not_in_spec_order :
  llamaVariants true [file "llama-cpp-avx2"; file "llama-cpp-cuda"]
  = [LLamaCPPAVX2; LLamaCPPAVX; LLamaCPPCUDA]
  ∧ llamaVariants true [file "llama-cpp-avx2"; file "llama-cpp-cuda"]
    ≠ filter (λ v, v ∈ llamaVariants true
                         [file "llama-cpp-avx2"; file "llama-cpp-cuda"])
             specVariantOrder.
Proof. split; [vm_compute; reflexivity | vm_compute; discriminate]. Qed.

(** ** Paths: the last element of a backend path is the backend name *)

Lemma split_nonempty s : filepath.split s ≠ [].
Proof.
  destruct s as [|c s]; cbn; [done|].
  destruct (Ascii.eqb c "/"); [done|]. by destruct (filepath.split s).
Qed.

Lemma split_app_sep s t :
  filepath.split (s +:+ String "/" t) = filepath.split s ++ filepath.split t.
Proof.
  induction s as [|c s IH]; [done|].
  change (filepath.split (String c s +:+ String "/" t))
    with (if Ascii.eqb c "/"
          then "" :: filepath.split (s +:+ String "/" t)
          else match filepath.split (s +:+ String "/" t) with
               | x :: xs => String c x :: xs
               | [] => [String c ""]
               end).
  rewrite IH. cbn [filepath.split].
  destruct (Ascii.eqb c "/"); [done|].
  pose proof (split_nonempty s). by destruct (filepath.split s).
Qed.

Lemma append_assoc (s t u : string) : (s +:+ t) +:+ u = s +:+ t +:+ u.
Proof.
  induction s as [|c s IH]; [done|].
  change (String c ((s +:+ t) +:+ u) = String c (s +:+ t +:+ u)).
  by rewrite IH.
Qed.

Lemma concat_snoc sep xs v :
  String.concat sep (xs ++ [v])
  = match xs with
    | [] => v
    | _ => String.concat sep xs +:+ sep +:+ v
    end.
Proof.
  induction xs as [|x xs IH]; [done|].
  cbn [app String.concat]. destruct xs as [|y xs]; [done|].
  cbn [app] in *. rewrite IH. cbn [String.concat].
  by rewrite !append_assoc.
Qed.

Lemma lastElem_concat xs v :
  plainName v → lastElem (String.concat "/" (xs ++ [v])) = Some v.
Proof.
  intros (Hv & _). unfold lastElem. rewrite concat_snoc.
  destruct xs as [|x xs]; [by rewrite Hv|].
  change ("/" +:+ v) with (String "/" v).
  by rewrite split_app_sep, Hv, last_snoc.
Qed.

Lemma cleanStep_plain rooted stack v :
  plainName v → filepath.cleanStep rooted stack v = v :: stack.
Proof.
  intros (_ & H1 & H2 & H3). unfold filepath.cleanStep.
  apply String.eqb_neq in H1, H2, H3. by rewrite H1, H2, H3.
Qed.

Lemma lastElem_Clean path v :
  plainName v → lastElem path = Some v → lastElem (filepath.Clean path) = Some v.
Proof.
  intros Hv Hlast. unfold lastElem in Hlast.
  apply last_Some in Hlast as [cs Hcs].
  unfold filepath.Clean. rewrite Hcs, foldl_app. cbn [foldl].
  rewrite cleanStep_plain by done. cbn [rev].
  set (xs := rev _).
  pose proof (lastElem_concat xs v Hv) as Hbody.
  destruct (String.prefix "/" path).
  - unfold lastElem in *.
    change ("/" +:+ String.concat "/" (xs ++ [v]))
      with ("" +:+ String "/" (String.concat "/" (xs ++ [v]))).
    rewrite split_app_sep. apply last_Some in Hbody as [ys ->].
    by rewrite app_assoc, last_snoc.
  - destruct (String.eqb_spec (String.concat "/" (xs ++ [v])) ""); [|done].
    rewrite e in Hbody. cbn in Hbody. destruct Hv as (_ & Hne & _). congruence.
Qed.

(** The name of a backend is the last element of its path. *)
Lemma lastElem_backendPath assetDir v :
  plainName v → lastElem (backendPath assetDir v) = Some v.
Proof.
  intros Hv. unfold backendPath, filepath.Join.
  assert (filter (λ e, e ≠ "") [assetDir; "backend-assets"; "grpc"; v]
          = (if decide (assetDir ≠ "") then [assetDir] else [])
            ++ ["backend-assets"; "grpc"] ++ [v]) as ->.
  { destruct Hv as (_ & Hne & _).
    rewrite filter_cons. case_decide.
    all: rewrite filter_cons_True by done.
    all: rewrite filter_cons_True by done.
    all: by rewrite filter_cons_True. }
  rewrite app_assoc.
  pose proof (lastElem_concat
                ((if decide (assetDir ≠ "") then [assetDir] else [])
                 ++ ["backend-assets"; "grpc"]) v Hv) as Hl.
  destruct (_ ++ [v]) eqn:Heq.
  - by destruct (decide _).
  - by apply lastElem_Clean.
Qed.

Lemma backendPath_inj assetDir v w :
  plainName v → plainName w →
  backendPath assetDir v = backendPath assetDir w → v = w.
Proof.
  intros Hv Hw Heq.
  pose proof (lastElem_backendPath assetDir v Hv) as H1.
  pose proof (lastElem_backendPath assetDir w Hw) as H2.
  rewrite Heq in H1. congruence.
Qed.

Ltac plain_name := split_and!; [reflexivity | discriminate..].

(** ** Variant selection: C2 *)

Lemma gpuInv_test sys assetDir (c : bool) v sel sel' ms :
  grpcProcess sel' = backendPath assetDir v →
  foundCUDA sel' || foundAMDGPU sel' || foundIntelGPU sel' = true →
  gpuInv assetDir sel ms →
  gpuInv assetDir
    (if c then if statOk (Stat sys (backendPath assetDir v)) then sel'
               else sel
     else sel)
    (ms ++ filter (λ v, installed sys assetDir v = true)
                  (if c then [v] else [])).
Proof.
  intros Hp Hf Hinv. destruct c; [|by rewrite filter_nil, app_nil_r].
  rewrite filter_cons, filter_nil. case_decide as Hd; unfold installed in Hd.
  - rewrite Hd. split.
    + by rewrite last_snoc.
    + rewrite Hf. symmetry. apply bool_decide_eq_true_2. by destruct ms.
  - apply not_true_is_false in Hd. rewrite Hd. by rewrite app_nil_r.
Qed.

Lemma selectGPU_inv sys assetDir f16 sel ms gpu :
  gpuInv assetDir sel ms →
  gpuInv assetDir (selectGPU sys assetDir f16 sel gpu)
         (ms ++ filter (λ v, installed sys assetDir v = true)
                       (gpuVariants f16 gpu)).
Proof.
  intros Hinv. unfold selectGPU, gpuVariants. cbv zeta.
  rewrite !filter_app, !app_assoc.
  apply gpuInv_test; [reflexivity | cbn; apply orb_true_r |].
  apply gpuInv_test;
    [reflexivity | cbn; by rewrite orb_true_r |].
  by apply gpuInv_test.
Qed.

Lemma foldl_selectGPU_inv sys assetDir f16 gpus sel ms :
  gpuInv assetDir sel ms →
  gpuInv assetDir (foldl (selectGPU sys assetDir f16) sel gpus)
         (ms ++ filter (λ v, installed sys assetDir v = true)
                       (mjoin (gpuVariants f16 <$> gpus))).
Proof.
  revert sel ms. induction gpus as [|gpu gpus IH]; intros sel ms Hinv.
  - cbn. by rewrite app_nil_r.
  - rewrite fmap_cons. cbn [foldl mjoin list_join].
    rewrite filter_app, app_assoc. by apply IH, selectGPU_inv.
Qed.

(** [selectGRPCProcess] without its loop: the override first, then the last
    GPU match that is installed, then the variant of the CPU features if it
    is installed; the empty string otherwise. *)
Lemma selectGRPCProcess_eq sys env assetDir f16 :
  selectGRPCProcess sys env LLamaCPP assetDir f16
  = if negb (String.eqb (Getenv env "LLAMACPP_GRPC_SERVERS") "")
    then backendPath assetDir LLamaCPPGRPC
    else match last (gpuMatches sys assetDir f16) with
         | Some v => backendPath assetDir v
         | None => if installed sys assetDir (cpuVariant sys)
                   then backendPath assetDir (cpuVariant sys) else ""
         end.
Proof.
  unfold selectGRPCProcess. rewrite String.eqb_refl. cbn [negb].
  destruct (negb _); [done|].
  set (sel0 := {| grpcProcess := ""; foundCUDA := false;
                  foundAMDGPU := false; foundIntelGPU := false |}).
  assert (gpuInv assetDir sel0 []) as Hinv0 by done.
  assert (gpuInv assetDir
            match GPUs sys with
            | inr gpus => foldl (selectGPU sys assetDir f16) sel0 gpus
            | inl _ => sel0
            end (gpuMatches sys assetDir f16)) as [Hp Hf].
  { unfold gpuMatches. destruct (GPUs sys) as [?|gpus]; [done|].
    by apply (foldl_selectGPU_inv _ _ _ _ _ []). }
  rewrite Hf, Hp. destruct (last (gpuMatches sys assetDir f16)) as [v|] eqn:Hl.
  - rewrite bool_decide_eq_true_2; [done|]. intros Hnil.
    by rewrite Hnil in Hl.
  - apply last_None in Hl. rewrite Hl. cbn.
    unfold cpuVariant, installed.
    destruct (HasCPUCaps sys AVX2); [done|].
    by destruct (HasCPUCaps sys AVX).
Qed.

Lemma gpuVariants_names f16 gpu v :
  v ∈ gpuVariants f16 gpu →
  v ∈ [LLamaCPPCUDA; LLamaCPPHipblas; LLamaCPPSycl16; LLamaCPPSycl32].
Proof.
  unfold gpuVariants. rewrite !elem_of_app.
  destruct (strings.Contains gpu "nvidia"), (strings.Contains gpu "amd"),
    (strings.Contains gpu "intel"), f16; cbn [negb];
    rewrite ?list_elem_of_singleton, ?elem_of_nil, !elem_of_cons;
    intros [?|[?|?]]; tauto.
Qed.

Lemma filter_ext_elem {A} (P Q : A → Prop) `{!∀ x, Decision (P x)}
    `{!∀ x, Decision (Q x)} (l : list A) :
  (∀ x, x ∈ l → (P x ↔ Q x)) → filter P l = filter Q l.
Proof.
  induction l as [|x l IH]; intros Hl; [done|].
  rewrite !filter_cons, IH by (intros y Hy; apply Hl; by right).
  assert (P x ↔ Q x) as Hx by (apply Hl; by left).
  destruct (decide (P x)), (decide (Q x)); tauto.
Qed.

Lemma gpuMatches_elem sys assetDir f16 v :
  v ∈ gpuMatches sys assetDir f16 →
  installed sys assetDir v = true
  ∧ ∃ gpus gpu, GPUs sys = inr gpus ∧ gpu ∈ gpus ∧ v ∈ gpuVariants f16 gpu.
Proof.
  unfold gpuMatches. destruct (GPUs sys) as [?|gpus]; [by intros ?%elem_of_nil|].
  rewrite list_elem_of_filter, list_elem_of_join.
  intros (Hi & l & Hv & Hl). split; [done|].
  apply list_elem_of_fmap in Hl as (gpu & -> & Hgpu). eauto.
Qed.

(** C2, as the code has it. For a backend other than llama-cpp the result
    is empty. For llama-cpp the result is fixed by the override variable,
    the GPUs, the CPU features and the variant files on disk. With the
    override variable set the remote GRPC variant is returned, whatever the
    GPUs. With it unset, as soon as a vendor match of some GPU resolves to
    an installed file, the result is the path of such a match, the last
    one that the loop meets: one of the CUDA, HIP and SYCL variants, and
    not the path of the AVX2, AVX or fallback variant, whether these are
    installed or not. *)
Theorem selectGRPCProcess_gpu_first (sys : Sys) (env : gmap string string)
    (assetDir : string) (f16 : bool) :
  (∀ backend, backend ≠ LLamaCPP →
     selectGRPCProcess sys env backend assetDir f16 = "")
  ∧ (∀ sys' env' backend,
       Getenv env' "LLAMACPP_GRPC_SERVERS" = Getenv env "LLAMACPP_GRPC_SERVERS" →
       GPUs sys' = GPUs sys →
       (∀ c, HasCPUCaps sys' c = HasCPUCaps sys c) →
       (∀ v, v ∈ variantTests →
             installed sys' assetDir v = installed sys assetDir v) →
       selectGRPCProcess sys' env' backend assetDir f16
       = selectGRPCProcess sys env backend assetDir f16)
  ∧ (Getenv env "LLAMACPP_GRPC_SERVERS" ≠ "" →
     selectGRPCProcess sys env LLamaCPP assetDir f16
     = backendPath assetDir LLamaCPPGRPC)
  ∧ (Getenv env "LLAMACPP_GRPC_SERVERS" = "" →
     gpuMatches sys assetDir f16 ≠ [] →
     ∃ v, last (gpuMatches sys assetDir f16) = Some v
          ∧ selectGRPCProcess sys env LLamaCPP assetDir f16
            = backendPath assetDir v
          ∧ v ∈ [LLamaCPPCUDA; LLamaCPPHipblas; LLamaCPPSycl16; LLamaCPPSycl32]
          ∧ installed sys assetDir v = true
          ∧ (∃ gpus gpu, GPUs sys = inr gpus ∧ gpu ∈ gpus
                         ∧ v ∈ gpuVariants f16 gpu)
          ∧ selectGRPCProcess sys env LLamaCPP assetDir f16
            ∉ [backendPath assetDir LLamaCPPAVX2;
               backendPath assetDir LLamaCPPAVX;
               backendPath assetDir LLamaCPPFallback]).
Proof.
  assert (∀ backend, backend ≠ LLamaCPP →
            ∀ sys env, selectGRPCProcess sys env backend assetDir f16 = "")
    as Hother.
  { intros backend Hne sys0 env0. unfold selectGRPCProcess.
    apply String.eqb_neq in Hne. by rewrite Hne. }
  split_and!.
  - intros backend Hne. by apply Hother.
  - intros sys' env' backend Henv Hgpus Hcaps Hinst.
    destruct (decide (backend = LLamaCPP)) as [->|Hne];
      [|by rewrite !Hother].
    rewrite !selectGRPCProcess_eq, Henv.
    assert (gpuMatches sys' assetDir f16 = gpuMatches sys assetDir f16) as ->.
    { unfold gpuMatches. rewrite Hgpus.
      destruct (GPUs sys) as [?|gpus]; [done|].
      apply filter_ext_elem. intros v Hv. rewrite Hinst; [done|].
      apply list_elem_of_join in Hv as (l & Hv & Hl).
      apply list_elem_of_fmap in Hl as (gpu & -> & _).
      apply gpuVariants_names in Hv. unfold variantTests.
      revert Hv. rewrite !elem_of_cons. tauto. }
    assert (cpuVariant sys' = cpuVariant sys) as ->
      by (unfold cpuVariant; by rewrite !Hcaps).
    rewrite Hinst; [done|]. unfold cpuVariant, variantTests.
    destruct (HasCPUCaps sys AVX2), (HasCPUCaps sys AVX);
      rewrite !elem_of_cons; tauto.
  - intros Hset. rewrite selectGRPCProcess_eq.
    apply String.eqb_neq in Hset. by rewrite Hset.
  - intros Hunset Hmatch. rewrite selectGRPCProcess_eq, Hunset.
    cbn [String.eqb negb].
    destruct (last (gpuMatches sys assetDir f16)) as [v|] eqn:Hlast;
      [|by apply last_None in Hlast].
    exists v.
    assert (v ∈ gpuMatches sys assetDir f16) as Hin.
    { apply last_Some in Hlast as [l ->]. rewrite elem_of_app. right.
      by left. }
    apply gpuMatches_elem in Hin as (Hi & gpus & gpu & Hg & Hgpu & Hv).
    pose proof (gpuVariants_names _ _ _ Hv) as Hname.
    split_and!; [done | done | done | done | eauto |].
    rewrite !elem_of_cons, elem_of_nil.
    revert Hname. rewrite !elem_of_cons, elem_of_nil.
    intros [->|[->|[->|[->|[]]]]] [H|[H|[H|[]]]];
      apply backendPath_inj in H; try discriminate; plain_name.
Qed.

Lemma selectGRPCProcess_gpu_first_witness :
  ∃ v, last (gpuMatches
               (sampleSys true []
                  ["/opt/backend-assets/grpc/llama-cpp-cuda";
                   "/opt/backend-assets/grpc/llama-cpp-avx2"]
                  ["card #0 -> driver: 'nvidia' vendor: 'NVIDIA Corporation'"]
                  true true healthy) "/opt" false) = Some v
       ∧ selectGRPCProcess
           (sampleSys true []
              ["/opt/backend-assets/grpc/llama-cpp-cuda";
               "/opt/backend-assets/grpc/llama-cpp-avx2"]
              ["card #0 -> driver: 'nvidia' vendor: 'NVIDIA Corporation'"]
              true true healthy) ∅ LLamaCPP "/opt" false
         = backendPath "/opt" v
       ∧ v ∈ [LLamaCPPCUDA; LLamaCPPHipblas; LLamaCPPSycl16; LLamaCPPSycl32].
Proof.
  destruct (selectGRPCProcess_gpu_first
              (sampleSys true []
                 ["/opt/backend-assets/grpc/llama-cpp-cuda";
                  "/opt/backend-assets/grpc/llama-cpp-avx2"]
                 ["card #0 -> driver: 'nvidia' vendor: 'NVIDIA Corporation'"]
                 true true healthy) ∅ "/opt" false)
    as (_ & _ & _ & H).
  destruct H as (v & H1 & H2 & H3 & _).
  - reflexivity.
  - vm_compute. discriminate.
  - exists v. split_and!; assumption.
Defined.

(** C2, as the specification has it: a GPU match that resolves to an
    installed file would always be the result. With the override variable
    set it is not: the NVIDIA GPU matches, the CUDA build is installed, and
    the remote GRPC variant is returned. *)
Lemma selectGRPCProcess_override_beats_gpu :
  gpuMatches
    (sampleSys true [] ["/opt/backend-assets/grpc/llama-cpp-cuda"]
       ["card #0 -> driver: 'nvidia' vendor: 'NVIDIA Corporation'"]
       true true healthy) "/opt" false
  = [LLamaCPPCUDA]
  ∧ selectGRPCProcess
      (sampleSys true [] ["/opt/backend-assets/grpc/llama-cpp-cuda"]
         ["card #0 -> driver: 'nvidia' vendor: 'NVIDIA Corporation'"]
         true true healthy)
      {["LLAMACPP_GRPC_SERVERS" := "10.0.0.2:50052"]} LLamaCPP "/opt" false
    = "/opt/backend-assets/grpc/llama-cpp-grpc"
  ∧ selectGRPCProcess
      (sampleSys true [] ["/opt/backend-assets/grpc/llama-cpp-cuda"]
         ["card #0 -> driver: 'nvidia' vendor: 'NVIDIA Corporation'"]
         true true healthy)
      {["LLAMACPP_GRPC_SERVERS" := "10.0.0.2:50052"]} LLamaCPP "/opt" false
    ≠ backendPath "/opt" LLamaCPPCUDA.
Proof.
  split_and!; [vm_compute; reflexivity .. | vm_compute; discriminate].
Qed.

(** ** Spawning and loading: C9, C3, C7 *)

Lemma Setenv_trace key value st :
  trace (Setenv key value st).2 = trace st
  ∧ models (Setenv key value st).2 = models st.
Proof. unfold Setenv. by destruct (_ || _). Qed.

(** Setting the cache locations touches the environment only. *)
Lemma setCacheEnv_trace sys st :
  trace (setCacheEnv sys st) = trace st
  ∧ models (setCacheEnv sys st) = models st.
Proof.
  unfold setCacheEnv. generalize ["HF_HOME"; "TRANSFORMERS_CACHE";
                                  "HUGGINGFACE_HUB_CACHE"].
  intros l. revert st. induction l as [|k l IH]; intros st; [done|].
  cbn [foldl]. destruct (IH (if String.eqb (Getenv (environ st) k) ""
                               then (Setenv k (ModelPath sys) st).2 else st))
    as [-> ->].
  destruct (String.eqb _ _); [apply Setenv_trace | done].
Qed.

(** C9. For a backend that is not an external one, [grpcModel] checks the
    path of the backend against the asset directory and, when the check
    fails, returns an error that wraps the one of the check: nothing is
    spawned and the path is not altered. When the check passes and the
    executable it resolves to does not exist, it returns the error "backend
    not found" at once: no process is spawned and no health check is
    tried. In both cases the registry and the effects are as before. *)
Theorem grpcModel_path_checks (sys : Sys) (backend : string) (o : Options)
    (modelName modelFile : string) (st : State) :
  externalBackends o !! backend = None →
  (∀ err,
     VerifyPath sys (backendPath (assetDir o) backend) (assetDir o)
     = Some err →
     grpcModel sys backend o modelName modelFile st
     = (inl (errorString ("refering to a backend not in asset dir: "
                          +:+ Error err)),
        setCacheEnv sys st))
  ∧ (VerifyPath sys (backendPath (assetDir o) backend) (assetDir o) = None →
     Stat sys (resolveProcess sys (environ (setCacheEnv sys st)) backend o)
     = StatNotExist →
     grpcModel sys backend o modelName modelFile st
     = (inl (errorString
               ("backend not found: "
                +:+ resolveProcess sys (environ (setCacheEnv sys st))
                                   backend o)),
        setCacheEnv sys st))
  ∧ trace (setCacheEnv sys st) = trace st
  ∧ models (setCacheEnv sys st) = models st.
Proof.
  intros Hext. split_and!; [| |apply setCacheEnv_trace..].
  - intros err Hverify. unfold grpcModel, launch. by rewrite Hext, Hverify.
  - intros Hverify Hstat. unfold grpcModel, launch.
    rewrite Hext, Hverify. unfold mbind, M_bind, get. by rewrite Hstat.
Qed.

Lemma grpcModel_path_checks_witness :
  grpcModel (sampleSys false [] [] [] false false healthy) "whisper"
    (defaultOptions (sampleSys false [] [] [] false false healthy))
    "ggml-base.bin" "/models/ggml-base.bin" emptyState
  = (inl (errorString "backend not found: backend-assets/grpc/whisper"),
     setCacheEnv (sampleSys false [] [] [] false false healthy) emptyState).
Proof.
  destruct (grpcModel_path_checks
              (sampleSys false [] [] [] false false healthy) "whisper"
              (defaultOptions (sampleSys false [] [] [] false false healthy))
              "ggml-base.bin" "/models/ggml-base.bin" emptyState)
    as (_ & H & _).
  - reflexivity.
  - apply H; reflexivity.
Defined.

Lemma readinessTrace_S c delay n :
  readinessTrace c delay (S n)
  = [EvHealthCheck c; EvSleep (sleepDuration delay)]
    ++ readinessTrace c delay n.
Proof. done. Qed.

Lemma slept_readinessTrace c delay n :
  slept (readinessTrace c delay n)
  = (Z.of_nat n * Z.max 0 (sleepDuration delay))%Z.
Proof.
  induction n as [|n IH]; [done|].
  rewrite readinessTrace_S. cbn [app slept foldr].
  fold (slept (readinessTrace c delay n)).
  rewrite IH. lia.
Qed.

(** A delay that [time.Duration] holds in nanoseconds is slept as it is. *)
Lemma sleepDuration_seconds delay :
  (0 ≤ delay ≤ 9223372036)%Z →
  sleepDuration delay = (delay * Second)%Z
  ∧ Z.max 0 (sleepDuration delay) = (delay * Second)%Z.
Proof.
  intros Hd. unfold sleepDuration, wrap64, Second.
  rewrite Z.mod_small by lia. lia.
Qed.

(** The readiness loop when no attempt is answered: every attempt is made
    and followed by the sleep. *)
Lemma waitReady_never sys client o n st :
  (∀ k, k < n →
        (HealthCheck sys
           (trace st ++ readinessTrace (GRPC client (parallelRequests o))
                                       (grpcAttemptsDelay o) k)
           (GRPC client (parallelRequests o))).1 = false) →
  waitReady sys client o n st
  = (false,
     {| environ := environ st; models := models st;
        trace := trace st
                 ++ readinessTrace (GRPC client (parallelRequests o))
                                   (grpcAttemptsDelay o) n |}).
Proof.
  revert st. induction n as [|n IH]; intros st Hdead.
  - cbn. rewrite app_nil_r. by destruct st.
  - cbn [waitReady].
    pose proof (Hdead 0 ltac:(lia)) as H0. cbn in H0.
    rewrite app_nil_r in H0.
    destruct (HealthCheck sys (trace st) _) as [alive err].
    cbn in H0. subst alive. rewrite IH.
    + f_equal. cbn. by rewrite <- !app_assoc.
    + intros k Hk. specialize (Hdead (S k) ltac:(lia)).
      rewrite readinessTrace_S in Hdead. cbn [emit trace].
      by rewrite <- !app_assoc.
Qed.

(** C3, amended. Once a handle is there, if the health check is not
    answered in any of the attempts, the readiness loop makes every one of
    its attempts, [grpcAttempts] of them, and sleeps after each; then the
    handle of the model is removed through [deleteProcess] and the error
    "grpc service not ready" is returned. The load-model call is not made.
    For a delay from 0 to 9223372036 seconds, which [time.Duration] holds in
    nanoseconds, each sleep is the delay and the loop waits attempts times
    delay in all. *)
Theorem grpcModel_not_ready (sys : Sys) (backend : string) (o : Options)
    (modelName modelFile : string) (st st1 : State) (client : Handle) :
  launch sys backend o modelName (setCacheEnv sys st) = (inr client, st1) →
  (∀ k, k < Z.to_nat (grpcAttempts o) →
        (HealthCheck sys
           (trace st1 ++ readinessTrace (GRPC client (parallelRequests o))
                                        (grpcAttemptsDelay o) k)
           (GRPC client (parallelRequests o))).1 = false) →
  ∃ st2,
    grpcModel sys backend o modelName modelFile st
    = (inl (errorString "grpc service not ready"), st2)
    ∧ trace st2
      = trace st1
        ++ readinessTrace (GRPC client (parallelRequests o))
                          (grpcAttemptsDelay o) (Z.to_nat (grpcAttempts o))
        ++ [EvDeleteProcess (model o)]
    ∧ models st2 = delete (model o) (models st1)
    ∧ slept (readinessTrace (GRPC client (parallelRequests o))
                            (grpcAttemptsDelay o)
                            (Z.to_nat (grpcAttempts o)))
      = (Z.of_nat (Z.to_nat (grpcAttempts o))
         * Z.max 0 (sleepDuration (grpcAttemptsDelay o)))%Z
    ∧ ((0 ≤ grpcAttemptsDelay o ≤ 9223372036)%Z →
       sleepDuration (grpcAttemptsDelay o)
       = (grpcAttemptsDelay o * Second)%Z
       ∧ slept (readinessTrace (GRPC client (parallelRequests o))
                               (grpcAttemptsDelay o)
                               (Z.to_nat (grpcAttempts o)))
         = (Z.of_nat (Z.to_nat (grpcAttempts o))
            * (grpcAttemptsDelay o * Second))%Z
       ∧ ((0 ≤ grpcAttempts o)%Z →
          slept (readinessTrace (GRPC client (parallelRequests o))
                                (grpcAttemptsDelay o)
                                (Z.to_nat (grpcAttempts o)))
          = (grpcAttempts o * grpcAttemptsDelay o * Second)%Z)).
Proof.
  intros Hlaunch Hdead. unfold grpcModel. rewrite Hlaunch.
  rewrite waitReady_never by done. cbn [negb].
  eexists. split_and!; [reflexivity | | done | |].
  - cbn. by rewrite <- app_assoc.
  - apply slept_readinessTrace.
  - intros Hd. destruct (sleepDuration_seconds _ Hd) as [Hs Hmax].
    rewrite slept_readinessTrace, Hmax. split_and!; [done | done |].
    intros Hpos. rewrite Z2Nat.id by done. lia.
Qed.

Lemma grpcModel_not_ready_witness :
  ∃ st2,
    grpcModel
      (sampleSys false [] ["/opt/backend-assets/grpc/whisper"] [] false false
                 silent)
      "whisper"
      (NewOptions
         (sampleSys false [] ["/opt/backend-assets/grpc/whisper"] [] false
                    false silent)
         [WithModel "base.bin"; WithAssetDir "/opt"; WithGRPCAttempts 3;
          WithGRPCAttemptsDelay 2])
      "base.bin" "/models/base.bin" emptyState
    = (inl (errorString "grpc service not ready"), st2)
    ∧ startedPaths (trace st2) = ["/opt/backend-assets/grpc/whisper"]
    ∧ slept (trace st2) = (6 * Second)%Z
    ∧ models st2 !! "base.bin" = None.
Proof.
  destruct (grpcModel_not_ready
              (sampleSys false [] ["/opt/backend-assets/grpc/whisper"] []
                         false false silent)
              "whisper"
              (NewOptions
                 (sampleSys false [] ["/opt/backend-assets/grpc/whisper"] []
                            false false silent)
                 [WithModel "base.bin"; WithAssetDir "/opt";
                  WithGRPCAttempts 3; WithGRPCAttemptsDelay 2])
              "base.bin" "/models/base.bin" emptyState
              (launch
                 (sampleSys false [] ["/opt/backend-assets/grpc/whisper"] []
                            false false silent)
                 "whisper"
                 (NewOptions
                    (sampleSys false [] ["/opt/backend-assets/grpc/whisper"]
                               [] false false silent)
                    [WithModel "base.bin"; WithAssetDir "/opt";
                     WithGRPCAttempts 3; WithGRPCAttemptsDelay 2])
                 "base.bin"
                 (setCacheEnv
                    (sampleSys false [] ["/opt/backend-assets/grpc/whisper"]
                               [] false false silent) emptyState)).2
              (NewModel "base.bin" "127.0.0.1:50000"
                 (Some {| procPath := "/opt/backend-assets/grpc/whisper";
                          procModel := "base.bin";
                          procAddress := "127.0.0.1:50000";
                          procArgs := [] |})))
    as (st2 & Hres & Htrace & Hmodels & _).
  - vm_compute. reflexivity.
  - intros k _. reflexivity.
  - exists st2. split_and!.
    + exact Hres.
    + rewrite Htrace. vm_compute. reflexivity.
    + rewrite Htrace. vm_compute. reflexivity.
    + rewrite Hmodels. apply lookup_delete_eq.
Defined.

(** C3, as the specification has it: the loop would wait attempts times
    delay for every delay. For a delay of 9223372037 seconds the product
    with [time.Second] does not fit 64 bits and wraps to a negative
    duration, for which [time.Sleep] returns at once: with three attempts
    that are not answered the loop waits no time at all. *)
Lemma grpcModel_not_ready_overflow :
  sleepDuration 9223372037 = (-9223372036709551616)%Z
  ∧ ∃ st2,
      grpcModel
        (sampleSys false [] ["/opt/backend-assets/grpc/whisper"] [] false
                   false silent)
        "whisper"
        (NewOptions
           (sampleSys false [] ["/opt/backend-assets/grpc/whisper"] [] false
                      false silent)
           [WithModel "base.bin"; WithAssetDir "/opt"; WithGRPCAttempts 3;
            WithGRPCAttemptsDelay 9223372037])
        "base.bin" "/models/base.bin" emptyState
      = (inl (errorString "grpc service not ready"), st2)
      ∧ slept (trace st2) = 0%Z
      ∧ (slept (trace st2) < 3 * 9223372037 * Second)%Z.
Proof.
  split; [vm_compute; reflexivity|].
  eexists. split; [vm_compute; reflexivity|].
  split; [vm_compute; reflexivity | vm_compute; reflexivity].
Qed.

(** C7. Once the backend is ready, the load-model call decides: an error of
    the call and an answer without success both remove the handle of the
    model through [deleteProcess] and return an error, and only an answer
    with success returns the handle. *)
Theorem grpcModel_load_result (sys : Sys) (backend : string) (o : Options)
    (modelName modelFile : string) (st st1 st2 : State) (client : Handle) :
  launch sys backend o modelName (setCacheEnv sys st) = (inr client, st1) →
  waitReady sys client o (Z.to_nat (grpcAttempts o)) st1 = (true, st2) →
  let c := GRPC client (parallelRequests o) in
  let options := loadOptions o modelName modelFile in
  let st3 := emit (EvLoadModel c options) st2 in
  (∀ err, LoadModelRPC sys (trace st2) c options = inl err →
     grpcModel sys backend o modelName modelFile st
     = (inl (wrapError ("could not load model: " +:+ Error err) err),
        deleteProcess (model o) st3))
  ∧ (∀ message, LoadModelRPC sys (trace st2) c options = inr (false, message) →
     grpcModel sys backend o modelName modelFile st
     = (inl (errorString ("could not load model (no success): " +:+ message)),
        deleteProcess (model o) st3))
  ∧ (∀ message, LoadModelRPC sys (trace st2) c options = inr (true, message) →
     grpcModel sys backend o modelName modelFile st = (inr client, st3))
  ∧ (∀ h st', grpcModel sys backend o modelName modelFile st = (inr h, st') →
     h = client ∧ st' = st3
     ∧ ∃ message, LoadModelRPC sys (trace st2) c options = inr (true, message))
  ∧ models (deleteProcess (model o) st3) !! model o = None
  ∧ trace (deleteProcess (model o) st3)
    = trace st2 ++ [EvLoadModel c options; EvDeleteProcess (model o)].
Proof.
  intros Hlaunch Hready c options st3.
  assert (∀ r, LoadModelRPC sys (trace st2) c options = r →
            grpcModel sys backend o modelName modelFile st
            = match r with
              | inl err =>
                  (inl (wrapError ("could not load model: " +:+ Error err)
                                  err),
                   deleteProcess (model o) st3)
              | inr (false, message) =>
                  (inl (errorString ("could not load model (no success): "
                                     +:+ message)),
                   deleteProcess (model o) st3)
              | inr (true, _) => (inr client, st3)
              end) as Hcases.
  { intros r Hr. unfold grpcModel. rewrite Hlaunch, Hready. cbn [negb].
    unfold callLoadModel. fold c. fold (loadOptions o modelName modelFile).
    fold options. rewrite Hr. by destruct r as [err|[[] message]]. }
  split_and!.
  - intros err Hr. by rewrite (Hcases _ Hr).
  - intros message Hr. by rewrite (Hcases _ Hr).
  - intros message Hr. by rewrite (Hcases _ Hr).
  - intros h st'. rewrite (Hcases _ eq_refl).
    destruct (LoadModelRPC sys (trace st2) c options)
      as [err|[[] message]]; [done| |done].
    intros [= <- <-]. eauto.
  - cbn. apply lookup_delete_eq.
  - cbn. by rewrite <- app_assoc.
Qed.

Lemma grpcModel_load_result_witness :
  grpcModel
    (sampleSys false [] ["/opt/backend-assets/grpc/whisper"] [] false false
               refusing)
    "whisper"
    (NewOptions
       (sampleSys false [] ["/opt/backend-assets/grpc/whisper"] [] false
                  false refusing)
       [WithModel "base.bin"; WithAssetDir "/opt"])
    "base.bin" "/models/base.bin" emptyState
  = (inl (errorString "could not load model (no success): unsupported model"),
     deleteProcess "base.bin"
       (emit (EvLoadModel
                (GRPC (NewModel "base.bin" "127.0.0.1:50000"
                         (Some {| procPath := "/opt/backend-assets/grpc/whisper";
                                  procModel := "base.bin";
                                  procAddress := "127.0.0.1:50000";
                                  procArgs := [] |})) false)
                {| F16Memory := false; LibrarySearchPath := "";
                   Model := "base.bin"; ModelFile := "/models/base.bin" |})
          (waitReady
             (sampleSys false [] ["/opt/backend-assets/grpc/whisper"] []
                        false false refusing)
             (NewModel "base.bin" "127.0.0.1:50000"
                (Some {| procPath := "/opt/backend-assets/grpc/whisper";
                         procModel := "base.bin";
                         procAddress := "127.0.0.1:50000";
                         procArgs := [] |}))
             (NewOptions
                (sampleSys false [] ["/opt/backend-assets/grpc/whisper"] []
                           false false refusing)
                [WithModel "base.bin"; WithAssetDir "/opt"])
             20
             (launch
                (sampleSys false [] ["/opt/backend-assets/grpc/whisper"] []
                           false false refusing)
                "whisper"
                (NewOptions
                   (sampleSys false [] ["/opt/backend-assets/grpc/whisper"]
                              [] false false refusing)
                   [WithModel "base.bin"; WithAssetDir "/opt"])
                "base.bin"
                (setCacheEnv
                   (sampleSys false [] ["/opt/backend-assets/grpc/whisper"]
                              [] false false refusing) emptyState)).2).2)).
Proof.
  eapply (grpcModel_load_result
            (sampleSys false [] ["/opt/backend-assets/grpc/whisper"] []
                       false false refusing)
            "whisper"
            (NewOptions
               (sampleSys false [] ["/opt/backend-assets/grpc/whisper"] []
                          false false refusing)
               [WithModel "base.bin"; WithAssetDir "/opt"])
            "base.bin" "/models/base.bin" emptyState).
  - vm_compute. reflexivity.
  - vm_compute. reflexivity.
  - reflexivity.
Defined.

(** ** The loaders: C8, C10, C4, C5 *)

(** C8. A model that is registered is returned by [GreedyLoader] at once,
    as the client of the handle the registry has: the state is as before,
    so that nothing is spawned, and nothing is stopped even when only one
    backend may be active. *)
Theorem GreedyLoader_already_loaded (sys : Sys) (opts : list Option_)
    (st : State) (m : Handle) :
  models st !! model (NewOptions sys opts) = Some m →
  GreedyLoader sys opts st
  = (Return (Some (GRPC m (parallelRequests (NewOptions sys opts)))) None, st).
Proof.
  intros Hm. unfold GreedyLoader, CheckIsLoaded. by rewrite Hm.
Qed.

Lemma GreedyLoader_already_loaded_witness :
  GreedyLoader (sampleSys true [file "whisper"] [] [] false false broken)
    [WithModel "base.bin"; WithAssetDir "/opt"; WithSingleActiveBackend]
    {| environ := ∅;
       models := {[ "base.bin" := NewModel "base.bin" "127.0.0.1:50000" None;
                    "other.bin" := NewModel "other.bin" "127.0.0.1:50001" None ]};
       trace := [] |}
  = (Return (Some (GRPC (NewModel "base.bin" "127.0.0.1:50000" None) false))
            None,
     {| environ := ∅;
        models := {[ "base.bin" := NewModel "base.bin" "127.0.0.1:50000" None;
                     "other.bin" := NewModel "other.bin" "127.0.0.1:50001" None ]};
        trace := [] |}).
Proof.
  apply (GreedyLoader_already_loaded
           (sampleSys true [file "whisper"] [] [] false false broken)
           [WithModel "base.bin"; WithAssetDir "/opt"; WithSingleActiveBackend]).
  vm_compute. reflexivity.
Defined.

Lemma NewOptions_snoc sys opts opt :
  NewOptions sys (opts ++ [opt]) = opt (NewOptions sys opts).
Proof. unfold NewOptions. by rewrite foldl_app. Qed.

Lemma lowerASCII_idemp s :
  strings.lowerASCII (strings.lowerASCII s) = strings.lowerASCII s.
Proof.
  induction s as [|c s IH]; [done|]. cbn [strings.lowerASCII]. rewrite IH.
  f_equal. unfold strings.lowerByte.
  destruct c as [[] [] [] [] [] [] [] []]; reflexivity.
Qed.

Lemma lowerASCII_isASCII s :
  strings.isASCII s = true → strings.isASCII (strings.lowerASCII s) = true.
Proof.
  induction s as [|c s IH]; [done|]. cbn [strings.isASCII strings.lowerASCII].
  intros [Hc Hs]%andb_true_iff. rewrite IH by done. rewrite andb_true_r.
  revert Hc. unfold strings.lowerByte.
  destruct c as [[] [] [] [] [] [] [] []]; by vm_compute.
Qed.

(** On a string of ASCII bytes, lower-casing twice is lower-casing once. *)
Lemma ToLower_idemp f s :
  strings.isASCII s = true →
  strings.ToLower f (strings.ToLower f s) = strings.ToLower f s
  ∧ strings.isASCII (strings.ToLower f s) = true.
Proof.
  intros Hs. unfold strings.ToLower. rewrite Hs.
  by rewrite lowerASCII_isASCII, lowerASCII_idemp.
Qed.

(** The loader of a backend reads the options but for the backend name in
    them: the name it works with is the one it is called with. *)
Lemma waitReady_ext sys client o1 o2 n st :
  parallelRequests o1 = parallelRequests o2 →
  grpcAttemptsDelay o1 = grpcAttemptsDelay o2 →
  waitReady sys client o1 n st = waitReady sys client o2 n st.
Proof.
  intros Hp Hd. revert st. induction n as [|n IH]; intros st; [done|].
  cbn [waitReady]. rewrite Hp, Hd.
  destruct (HealthCheck sys (trace st) (GRPC client (parallelRequests o2)))
    as [[] ?]; [done|]. apply IH.
Qed.

Lemma launch_ext sys backend o1 o2 modelName st :
  model o1 = model o2 → assetDir o1 = assetDir o2 →
  gRPCOptions o1 = gRPCOptions o2 →
  externalBackends o1 = externalBackends o2 →
  launch sys backend o1 modelName st = launch sys backend o2 modelName st.
Proof.
  intros Hm Ha Hg He. unfold launch, resolveProcess.
  by rewrite Hm, Ha, Hg, He.
Qed.

Lemma grpcModel_ext sys backend o1 o2 modelName modelFile st :
  model o1 = model o2 → assetDir o1 = assetDir o2 →
  gRPCOptions o1 = gRPCOptions o2 →
  externalBackends o1 = externalBackends o2 →
  grpcAttempts o1 = grpcAttempts o2 →
  grpcAttemptsDelay o1 = grpcAttemptsDelay o2 →
  parallelRequests o1 = parallelRequests o2 →
  grpcModel sys backend o1 modelName modelFile st
  = grpcModel sys backend o2 modelName modelFile st.
Proof.
  intros Hm Ha Hg He Hn Hd Hp. unfold grpcModel, callLoadModel.
  rewrite (launch_ext sys backend o1 o2) by done.
  destruct (launch sys backend o2 modelName (setCacheEnv sys st))
    as [[err|client] st1]; [done|].
  rewrite (waitReady_ext sys client o1 o2) by done.
  by rewrite Hm, Hg, Hn, Hp.
Qed.

(** The loader works with the resolved name alone. *)
Lemma BackendLoader_resolved sys opts st s1 s2 :
  resolveBackend sys s1 = resolveBackend sys s2 →
  BackendLoader sys (opts ++ [WithBackendString s1]) st
  = BackendLoader sys (opts ++ [WithBackendString s2]) st.
Proof.
  intros Hres. unfold BackendLoader. rewrite !NewOptions_snoc.
  cbn [WithBackendString backendString model singleActiveBackend].
  rewrite Hres.
  set (o := NewOptions sys opts).
  set (st0 := if singleActiveBackend o
              then (StopGRPC_allExcept sys (model o) st).2 else st).
  destruct (resolveBackend sys s2 =? PiperBackend)%string;
    unfold LoadModel, setLibrarySearchPath;
    cbn [WithBackendString WithLoadGRPCLoadModelOpts backendString model
         threads assetDir gRPCOptions externalBackends grpcAttempts
         grpcAttemptsDelay singleActiveBackend parallelRequests];
    (destruct (CheckIsLoaded st0 (model o)); [done|]);
    match goal with
    | |- context [grpcModel sys ?b ?o1 ?n ?f ?s] =>
        match goal with
        | |- _ = match (let (_, _) := grpcModel sys b ?o2 n f s in _) with _ => _ end =>
            rewrite (grpcModel_ext sys b o1 o2 n f s) by done
        | |- _ = (let (_, _) := (let (_, _) := grpcModel sys b ?o2 n f s in _) in _) =>
            rewrite (grpcModel_ext sys b o1 o2 n f s) by done
        end
    end; done.
Qed.

(** ** The greedy loader *)

(** [BackendLoader] returns a client or an error, never both and never
    neither. *)
Lemma BackendLoader_result sys opts st :
  (∃ c, loadedClient (BackendLoader sys opts st).1 = Some c
        ∧ loadedErr (BackendLoader sys opts st).1 = None)
  ∨ (∃ e, loadedClient (BackendLoader sys opts st).1 = None
          ∧ loadedErr (BackendLoader sys opts st).1 = Some e).
Proof.
  unfold BackendLoader.
  match goal with
  | |- context [LoadModel ?s ?m ?l ?st0] =>
      destruct (LoadModel s m l st0) as [[e|h] st1]
  end; cbn; eauto.
Qed.

Lemma errors_Join_snoc err e :
  errors_Join [err; Some e]
  = Some (joinError (match err with Some e0 => [e0; e] | None => [e] end)).
Proof. by destruct err. Qed.

(** C4. The specification has [GreedyLoader] return one error when all the
    candidates fail, and never a nil error with a nil client, also when the
    list of candidates is empty. The code does not return then: for a model
    that is not registered, with an empty backend directory and no external
    backend, the loop is not entered, the joined error is nil, and the
    [err.Error()] of the final return panics. *)
Theorem GreedyLoader_no_candidates_panics (sys : Sys) (opts : list Option_)
    (st : State) :
  CheckIsLoaded st (model (NewOptions sys opts)) = None →
  backendsInAssetDir sys (assetDir (NewOptions sys opts)) = inr [] →
  rangeExternal sys (externalBackends (NewOptions sys opts)) = [] →
  (GreedyLoader sys opts st).1 = Panic.
Proof.
  intros Hloaded Hdir Hext. unfold GreedyLoader.
  rewrite Hloaded, Hdir, Hext. reflexivity.
Qed.

Lemma GreedyLoader_no_candidates_panics_witness :
  (GreedyLoader (sampleSys true [] [] [] false false healthy)
     [WithModel "ggml.bin"; WithAssetDir "/opt"] emptyState).1 = Panic.
Proof.
  apply (GreedyLoader_no_candidates_panics
           (sampleSys true [] [] [] false false healthy)
           [WithModel "ggml.bin"; WithAssetDir "/opt"] emptyState);
    vm_compute; reflexivity.
Defined.

(** When the file the code looks for is on disk, the variant of the second
    attempt is the one the CPU features stand for. *)
Lemma backendToUse_cpuVariant sys assetDir :
  installed sys assetDir (cpuVariant sys) = true →
  (HasCPUCaps sys AVX2 = false → HasCPUCaps sys AVX = true →
   installed sys assetDir LLamaCPPAVX2 = true) →
  backendToUse sys assetDir = Some (cpuVariant sys).
Proof.
  unfold backendToUse, cpuVariant, installed. intros Hv Havx.
  destruct (HasCPUCaps sys AVX2); [by rewrite Hv|].
  destruct (HasCPUCaps sys AVX); [by rewrite Havx|].
  by rewrite Hv.
Qed.

Lemma backendToUse_skip sys assetDir :
  HasCPUCaps sys AVX2 = false → HasCPUCaps sys AVX = false →
  installed sys assetDir LLamaCPPFallback = false →
  backendToUse sys assetDir = None.
Proof.
  unfold backendToUse, installed. by intros -> -> ->.
Qed.

(** C5, amended. With auto-detection, a failed attempt on llama-cpp is
    followed by one more attempt, made with the variant the CPU features
    stand for: AVX2 on a CPU with AVX2, else AVX on a CPU with AVX, else the
    fallback; this when the file of the variant is on disk (on a CPU with
    AVX alone the code looks for the file of AVX2, so that both are taken
    to be there). A second attempt that loads ends the loader with its
    client; one that fails has its error joined to the errors so far, and
    the loop goes on with the next candidate. On a CPU with neither feature
    and without the file of the fallback there is no second attempt: the
    loop goes on with the next candidate, and the error of the first
    attempt is all that was joined. *)
Theorem greedyLoop_llama_retry (sys : Sys) (o : Options) (rest : list string)
    (err : option error) (gopts : ModelOptions) (st st1 : State)
    (r1 : Loaded) (e1 : error) :
  autoDetect sys = true →
  BackendLoader sys (attemptOptions sys o gopts LLamaCPP) st = (r1, st1) →
  loadedErr r1 = Some e1 →
  let err1 :=
    errors_Join
      [err; Some (wrapError ("[" +:+ LLamaCPP +:+ "]: " +:+ Error e1) e1)] in
  (installed sys (assetDir o) (cpuVariant sys) = true →
   (HasCPUCaps sys AVX2 = false → HasCPUCaps sys AVX = true →
    installed sys (assetDir o) LLamaCPPAVX2 = true) →
   ∀ r2 st2,
     BackendLoader sys
       (attemptOptions sys o gopts LLamaCPP
        ++ [WithBackendString (cpuVariant sys)]) st1 = (r2, st2) →
     (∀ c, loadedErr r2 = None → loadedClient r2 = Some c →
           greedyLoop sys o (LLamaCPP :: rest) err gopts st
           = (Return (Some c) None, st2))
     ∧ (∀ e2, loadedErr r2 = Some e2 →
           greedyLoop sys o (LLamaCPP :: rest) err gopts st
           = greedyLoop sys o rest
               (errors_Join
                  [err1;
                   Some (wrapError ("[" +:+ LLamaCPP +:+ "]: " +:+ Error e2)
                                   e2)])
               (loadedOptions r2) st2))
  ∧ (HasCPUCaps sys AVX2 = false → HasCPUCaps sys AVX = false →
     installed sys (assetDir o) LLamaCPPFallback = false →
     greedyLoop sys o (LLamaCPP :: rest) err gopts st
     = greedyLoop sys o rest err1 (loadedOptions r1) st1).
Proof.
  intros Had HB1 He1 err1.
  assert (Hstep : greedyLoop sys o (LLamaCPP :: rest) err gopts st
     = match backendToUse sys (assetDir o) with
       | None => greedyLoop sys o rest err1 (loadedOptions r1) st1
       | Some variant =>
           let '(r, st') :=
             BackendLoader sys
               (attemptOptions sys o gopts LLamaCPP
                ++ [WithBackendString variant]) st1 in
           match loadedErr r, loadedClient r with
           | None, Some c => (Return (Some c) None, st')
           | Some e, _ =>
               greedyLoop sys o rest
                 (errors_Join
                    [err1;
                     Some (wrapError ("[" +:+ LLamaCPP +:+ "]: " +:+ Error e)
                                     e)])
                 (loadedOptions r) st'
           | None, None => (Panic, st')
           end
       end).
  { assert (Hne : err1 ≠ None) by (unfold err1; by destruct err).
    cbn [greedyLoop]. rewrite HB1, He1, Had. cbn beta iota. fold err1.
    by rewrite (bool_decide_eq_true_2 _ Hne). }
  split.
  - intros Hv Havx r2 st2 HB2.
    rewrite Hstep, (backendToUse_cpuVariant _ _ Hv Havx), HB2. split.
    + by intros c -> ->.
    + by intros e2 ->.
  - intros H2 H1 Hf. by rewrite Hstep, (backendToUse_skip _ _ H2 H1 Hf).
Qed.

Lemma greedyLoop_llama_retry_witness :
  ∃ err' gopts' st',
    greedyLoop
      (sampleSys true [file "llama-cpp-fallback"]
                 ["/opt/backend-assets/grpc/llama-cpp-fallback"] []
                 false false broken)
      (NewOptions
         (sampleSys true [file "llama-cpp-fallback"]
                    ["/opt/backend-assets/grpc/llama-cpp-fallback"] []
                    false false broken)
         [WithModel "ggml.bin"; WithAssetDir "/opt"])
      [LLamaCPP; WhisperBackend] None
      {| F16Memory := false; LibrarySearchPath := "";
         Model := ""; ModelFile := "" |}
      emptyState
    = greedyLoop
        (sampleSys true [file "llama-cpp-fallback"]
                   ["/opt/backend-assets/grpc/llama-cpp-fallback"] []
                   false false broken)
        (NewOptions
           (sampleSys true [file "llama-cpp-fallback"]
                      ["/opt/backend-assets/grpc/llama-cpp-fallback"] []
                      false false broken)
           [WithModel "ggml.bin"; WithAssetDir "/opt"])
        [WhisperBackend] err' gopts' st'
    ∧ startedPaths (trace st')
      = ["/opt/backend-assets/grpc/llama-cpp-fallback";
         "/opt/backend-assets/grpc/llama-cpp-fallback"].
Proof.
  set (sys := sampleSys true [file "llama-cpp-fallback"]
                ["/opt/backend-assets/grpc/llama-cpp-fallback"] []
                false false broken).
  set (o := NewOptions sys [WithModel "ggml.bin"; WithAssetDir "/opt"]).
  set (g := {| F16Memory := false; LibrarySearchPath := "";
               Model := ""; ModelFile := "" |}).
  destruct (greedyLoop_llama_retry sys o [WhisperBackend] None g emptyState
              (BackendLoader sys (attemptOptions sys o g LLamaCPP) emptyState).2
              (BackendLoader sys (attemptOptions sys o g LLamaCPP) emptyState).1
              (errorString
                 "fork/exec /opt/backend-assets/grpc/llama-cpp-fallback"))
    as [Hretry _].
  - reflexivity.
  - by destruct (BackendLoader sys (attemptOptions sys o g LLamaCPP)
                               emptyState).
  - vm_compute. reflexivity.
  - edestruct Hretry as [_ Hfail];
      [ vm_compute; reflexivity
      | intros _ Habs; vm_compute in Habs; discriminate
      | apply surjective_pairing
      | ].
    eexists _, _, _. split.
    + apply Hfail. vm_compute. reflexivity.
    + vm_compute. reflexivity.
Defined.

(** C5, as the specification has it: the variant is not the first of AVX2,
    AVX and fallback that is on disk. On a CPU without AVX and AVX2, with
    the files of AVX2 and of the fallback on disk and backends that cannot
    be spawned, the first on disk is AVX2, the second attempt is made with
    the fallback, and the file of AVX2 is never started. *)
Lemma greedyLoop_retry_not_first_on_disk :
  specRetryVariant
    (sampleSys true [file "llama-cpp-avx2"; file "llama-cpp-fallback"]
       ["/opt/backend-assets/grpc/llama-cpp-avx2";
        "/opt/backend-assets/grpc/llama-cpp-fallback"] [] false false broken)
    "/opt" = Some LLamaCPPAVX2
  ∧ backendToUse
      (sampleSys true [file "llama-cpp-avx2"; file "llama-cpp-fallback"]
         ["/opt/backend-assets/grpc/llama-cpp-avx2";
          "/opt/backend-assets/grpc/llama-cpp-fallback"] [] false false broken)
      "/opt" = Some LLamaCPPFallback
  ∧ startedPaths
      (trace
         (GreedyLoader
            (sampleSys true [file "llama-cpp-avx2"; file "llama-cpp-fallback"]
               ["/opt/backend-assets/grpc/llama-cpp-avx2";
                "/opt/backend-assets/grpc/llama-cpp-fallback"] []
               false false broken)
            [WithModel "ggml.bin"; WithAssetDir "/opt"] emptyState).2)
    = ["/opt/backend-assets/grpc/llama-cpp-fallback";
       "/opt/backend-assets/grpc/llama-cpp-fallback";
       "/opt/backend-assets/grpc/llama-cpp-fallback"].
Proof. repeat split; vm_compute; reflexivity. Qed.

(** ** More on the greedy loader: how it ends *)

Lemma errors_Join_causes err msg cause :
  ∃ j, errors_Join [err; Some (wrapError msg cause)] = Some j
       ∧ causes j = from_option causes [] err ++ [wrapError msg cause].
Proof.
  destruct err as [e0|]; eexists; (split; [reflexivity|]); cbn;
    by rewrite ?app_nil_r.
Qed.

(** The loop ends in a client or in an error, and panics only when it has
    no candidate and no error to report. *)
Lemma greedyLoop_outcome sys o l err gopts st :
  match (greedyLoop sys o l err gopts st).1 with
  | Return (Some _) None => True
  | Return None (Some _) => True
  | Return _ _ => False
  | Panic => l = [] ∧ err = None
  end.
Proof.
  revert err gopts st. induction l as [|key rest IH]; intros err gopts st.
  { cbn. by destruct err. }
  assert (Hrest : ∀ err' g s, err' ≠ None →
            match (greedyLoop sys o rest err' g s).1 with
            | Return (Some _) None => True
            | Return None (Some _) => True
            | Return _ _ => False
            | Panic => key :: rest = [] ∧ err = None
            end).
  { intros err' g s Hne. specialize (IH err' g s).
    destruct (greedyLoop sys o rest err' g s).1 as [[c|] [e|]|]; try done.
    by destruct IH. }
  cbn [greedyLoop].
  pose proof (BackendLoader_result sys (attemptOptions sys o gopts key) st)
    as HB.
  destruct (BackendLoader sys (attemptOptions sys o gopts key) st)
    as [r st1]. cbn [fst] in HB.
  destruct HB as [(c & Hc & He)|(e & Hc & He)]; rewrite ?Hc, ?He;
    cbn beta iota; [done|].
  destruct (errors_Join_causes err ("[" +:+ key +:+ "]: " +:+ Error e) e)
    as (j & Hj & _). rewrite Hj.
  destruct (_ && _); [|by apply Hrest].
  destruct (backendToUse sys (assetDir o)) as [variant|]; [|by apply Hrest].
  pose proof (BackendLoader_result sys
                (attemptOptions sys o gopts key ++ [WithBackendString variant])
                st1) as HB.
  destruct (BackendLoader sys
              (attemptOptions sys o gopts key ++ [WithBackendString variant])
              st1) as [r2 st2]. cbn [fst] in HB.
  destruct HB as [(c2 & Hc2 & He2)|(e2 & Hc2 & He2)]; rewrite ?Hc2, ?He2;
    cbn beta iota; [done|].
  destruct (errors_Join_causes (Some j) ("[" +:+ key +:+ "]: " +:+ Error e2)
                               e2) as (j2 & Hj2 & _).
  rewrite Hj2. by apply Hrest.
Qed.

(** [GreedyLoader] never returns a nil client with a nil error, nor a
    client with an error; and it panics exactly when the model is not
    registered, the backend directory was read, and neither the directory
    nor the external backends give a candidate. *)
Theorem GreedyLoader_client_or_error (sys : Sys) (opts : list Option_)
    (st : State) :
  (GreedyLoader sys opts st).1 ≠ Return None None
  ∧ (∀ c e, (GreedyLoader sys opts st).1 ≠ Return (Some c) (Some e))
  ∧ ((GreedyLoader sys opts st).1 = Panic
     ↔ CheckIsLoaded st (model (NewOptions sys opts)) = None
       ∧ backendsInAssetDir sys (assetDir (NewOptions sys opts)) = inr []
       ∧ rangeExternal sys (externalBackends (NewOptions sys opts)) = []).
Proof.
  unfold GreedyLoader.
  destruct (CheckIsLoaded st (model (NewOptions sys opts))) as [m|];
    [split_and!; [done | done | split; [done | by intros [? _]]]|].
  destruct (backendsInAssetDir sys (assetDir (NewOptions sys opts)))
    as [err|l];
    [split_and!; [done | done | split; [done | by intros (_ & ? & _)]]|].
  match goal with
  | |- context [greedyLoop ?s ?o ?l ?e ?g ?st0] =>
      pose proof (greedyLoop_outcome s o l e g st0) as Hout;
      destruct (greedyLoop s o l e g st0).1 as [[c|] [e0|]|] eqn:Hres
  end; try done.
  1, 2: split_and!; [done | done |]; split; [done|];
    intros (_ & [= ->] & Hext); rewrite Hext in Hres;
    by destruct (singleActiveBackend _).
  split_and!; [done | done |]. split; [|done]. intros _.
  destruct Hout as [Hnil _]. apply app_eq_nil in Hnil as [-> Hext].
  split_and!; [done | done |]. by apply fmap_nil_inv in Hext.
Qed.

(** The error the loop ends in: what was joined before is kept, every
    candidate is named by a cause, and every cause is one of these. *)
Lemma greedyLoop_error sys o l err gopts st e st' :
  greedyLoop sys o l err gopts st = (Return None (Some e), st') →
  ∃ j,
    e = errorString
          ("could not load model - all backends returned error: "
           +:+ Error j)
    ∧ (∀ c, c ∈ from_option causes [] err → c ∈ causes j)
    ∧ (∀ key, key ∈ l →
         ∃ cause,
           wrapError ("[" +:+ key +:+ "]: " +:+ Error cause) cause
           ∈ causes j)
    ∧ (∀ c, c ∈ causes j →
         c ∈ from_option causes [] err
         ∨ ∃ key cause,
             key ∈ l
             ∧ c = wrapError ("[" +:+ key +:+ "]: " +:+ Error cause) cause).
Proof.
  revert err gopts st. induction l as [|key rest IH]; intros err gopts st.
  { cbn. destruct err as [e0|]; [|done]. intros [= <- <-]. exists e0.
    split_and!; [done | done | | by left]. by intros key ?%elem_of_nil. }
  cbn [greedyLoop].
  pose proof (BackendLoader_result sys (attemptOptions sys o gopts key) st)
    as HB.
  destruct (BackendLoader sys (attemptOptions sys o gopts key) st)
    as [r st1]. cbn [fst] in HB.
  destruct HB as [(c & Hc & He)|(e1 & Hc & He)]; rewrite ?Hc, ?He;
    cbn beta iota; [done|].
  destruct (errors_Join_causes err ("[" +:+ key +:+ "]: " +:+ Error e1) e1)
    as (j1 & Hj1 & Hc1). rewrite Hj1.
  assert (Hone : ∀ g s,
            greedyLoop sys o rest (Some j1) g s = (Return None (Some e), st') →
            ∃ j,
              e = errorString
                    ("could not load model - all backends returned error: "
                     +:+ Error j)
              ∧ (∀ c, c ∈ from_option causes [] err → c ∈ causes j)
              ∧ (∀ key0, key0 ∈ key :: rest →
                   ∃ cause,
                     wrapError ("[" +:+ key0 +:+ "]: " +:+ Error cause) cause
                     ∈ causes j)
              ∧ (∀ c, c ∈ causes j →
                   c ∈ from_option causes [] err
                   ∨ ∃ key0 cause,
                       key0 ∈ key :: rest
                       ∧ c = wrapError ("[" +:+ key0 +:+ "]: "
                                        +:+ Error cause) cause)).
  { intros g s Hres. apply IH in Hres as (j & -> & Hkeep & Hall & Honly).
    cbn [from_option] in Hkeep, Honly. rewrite Hc1 in Hkeep, Honly.
    exists j. split_and!; [done | | |].
    - intros c0 Hc0. apply Hkeep, elem_of_app. by left.
    - intros key0 [->|Hk]%elem_of_cons; [|by apply Hall].
      exists e1. apply Hkeep, elem_of_app. right. by left.
    - intros c0 Hc0. apply Honly in Hc0 as [Hc0|(key0 & cause & Hk & ->)].
      + apply elem_of_app in Hc0 as [Hc0|Hc0%list_elem_of_singleton];
          [by left|].
        right. exists key, e1. split; [by left | done].
      + right. exists key0, cause. split; [by right | done]. }
  destruct (_ && _); [|by apply Hone].
  destruct (backendToUse sys (assetDir o)) as [variant|]; [|by apply Hone].
  pose proof (BackendLoader_result sys
                (attemptOptions sys o gopts key ++ [WithBackendString variant])
                st1) as HB.
  destruct (BackendLoader sys
              (attemptOptions sys o gopts key ++ [WithBackendString variant])
              st1) as [r2 st2]. cbn [fst] in HB.
  destruct HB as [(c2 & Hc2 & He2)|(e2 & Hc2 & He2)]; rewrite ?Hc2, ?He2;
    cbn beta iota; [done|].
  destruct (errors_Join_causes (Some j1) ("[" +:+ key +:+ "]: " +:+ Error e2)
                               e2) as (j2 & Hj2 & Hcs2).
  rewrite Hj2. cbn [from_option] in Hcs2.
  intros Hres. apply IH in Hres as (j & -> & Hkeep & Hall & Honly).
  cbn [from_option] in Hkeep, Honly. rewrite Hcs2, Hc1 in Hkeep, Honly.
  exists j. split_and!; [done | | |].
  - intros c0 Hc0. apply Hkeep. rewrite !elem_of_app. by left; left.
  - intros key0 [->|Hk]%elem_of_cons; [|by apply Hall].
    exists e1. apply Hkeep. rewrite !elem_of_app. left; right. by left.
  - intros c0 Hc0. apply Honly in Hc0 as [Hc0|(key0 & cause & Hk & ->)].
    + rewrite !elem_of_app, !list_elem_of_singleton in Hc0.
      destruct Hc0 as [[Hc0| ->]| ->]; [by left | |];
        right; eexists key, _; (split; [by left | done]).
    + right. exists key0, cause. split; [by right | done].
Qed.

(** When every candidate has failed, the error [GreedyLoader] returns
    carries the joined error in its message: there is a cause for every
    candidate, of the directory and external alike, with the name of the
    candidate in square brackets before the message of its failure, and
    there is no other cause. *)
Theorem GreedyLoader_error_names_candidates (sys : Sys)
    (opts : list Option_) (st : State) (l : list string) (e : error) :
  backendsInAssetDir sys (assetDir (NewOptions sys opts)) = inr l →
  (GreedyLoader sys opts st).1 = Return None (Some e) →
  ∃ j,
    e = errorString
          ("could not load model - all backends returned error: "
           +:+ Error j)
    ∧ (∀ key,
         key ∈ l ++ (rangeExternal sys
                       (externalBackends (NewOptions sys opts))).*2 →
         ∃ cause,
           wrapError ("[" +:+ key +:+ "]: " +:+ Error cause) cause
           ∈ causes j)
    ∧ (∀ c, c ∈ causes j →
         ∃ key cause,
           key ∈ l ++ (rangeExternal sys
                         (externalBackends (NewOptions sys opts))).*2
           ∧ c = wrapError ("[" +:+ key +:+ "]: " +:+ Error cause) cause).
Proof.
  intros Hdir. unfold GreedyLoader. rewrite Hdir.
  destruct (CheckIsLoaded st (model (NewOptions sys opts))); [done|].
  match goal with
  | |- context [greedyLoop ?s ?o ?l ?e ?g ?st0] =>
      destruct (greedyLoop s o l e g st0) as [out st'] eqn:Hres
  end.
  cbn [fst]. intros ->.
  apply greedyLoop_error in Hres as (j & -> & _ & Hall & Honly).
  exists j. split_and!; [done | done |].
  intros c Hc. apply Honly in Hc as [Hc|Hc]; [|done].
  by apply elem_of_nil in Hc.
Qed.

Lemma GreedyLoader_error_names_candidates_witness :
  ∃ j,
    errorString
      ("could not load model - all backends returned error: "
       +:+ "[whisper]: fork/exec /opt/backend-assets/grpc/whisper"
       +:+ String "010" "[/usr/bin/remote]: backend not found: /opt/backend-assets/grpc/usr/bin/remote")
    = errorString
        ("could not load model - all backends returned error: "
         +:+ Error j)
    ∧ (∀ key,
         key ∈ ["whisper"]
               ++ (rangeExternal
                     (sampleSys false [file "whisper"]
                        ["/opt/backend-assets/grpc/whisper"] [] false false
                        broken)
                     (externalBackends
                        (NewOptions
                           (sampleSys false [file "whisper"]
                              ["/opt/backend-assets/grpc/whisper"] [] false
                              false broken)
                           [WithModel "base.bin"; WithAssetDir "/opt";
                            WithExternalBackend "remote" "/usr/bin/remote"]))).*2 →
         ∃ cause,
           wrapError ("[" +:+ key +:+ "]: " +:+ Error cause) cause
           ∈ causes j)
    ∧ (∀ c, c ∈ causes j →
         ∃ key cause,
           key ∈ ["whisper"]
                 ++ (rangeExternal
                       (sampleSys false [file "whisper"]
                          ["/opt/backend-assets/grpc/whisper"] [] false false
                          broken)
                       (externalBackends
                          (NewOptions
                             (sampleSys false [file "whisper"]
                                ["/opt/backend-assets/grpc/whisper"] [] false
                                false broken)
                             [WithModel "base.bin"; WithAssetDir "/opt";
                              WithExternalBackend "remote" "/usr/bin/remote"]))).*2
           ∧ c = wrapError ("[" +:+ key +:+ "]: " +:+ Error cause) cause).
Proof.
  apply (GreedyLoader_error_names_candidates
           (sampleSys false [file "whisper"]
              ["/opt/backend-assets/grpc/whisper"] [] false false broken)
           [WithModel "base.bin"; WithAssetDir "/opt";
            WithExternalBackend "remote" "/usr/bin/remote"]
           emptyState);
    vm_compute; reflexivity.
Defined.

(** ** More on the selection of the variant *)

(** Without the override variable, whatever [selectGRPCProcess] returns
    other than the empty string is the path of a variant file that
    [os.Stat] has found: a CUDA, HIP or SYCL build, or the build of the CPU
    features; and this for llama-cpp alone. The remote GRPC variant is not
    among the results then. *)
Theorem selectGRPCProcess_installed_only (sys : Sys)
    (env : gmap string string) (backend assetDir : string) (f16 : bool) :
  Getenv env "LLAMACPP_GRPC_SERVERS" = "" →
  selectGRPCProcess sys env backend assetDir f16 ≠ "" →
  backend = LLamaCPP
  ∧ statOk (Stat sys (selectGRPCProcess sys env backend assetDir f16)) = true
  ∧ ∃ v, selectGRPCProcess sys env backend assetDir f16
         = backendPath assetDir v
         ∧ installed sys assetDir v = true
         ∧ v ∈ [LLamaCPPCUDA; LLamaCPPHipblas; LLamaCPPSycl16;
                LLamaCPPSycl32; cpuVariant sys].
Proof.
  intros Henv Hres.
  destruct (decide (backend = LLamaCPP)) as [->|Hne].
  2:{ exfalso. apply Hres. unfold selectGRPCProcess.
      apply String.eqb_neq in Hne. by rewrite Hne. }
  split; [done|]. rewrite selectGRPCProcess_eq in Hres |- *.
  rewrite Henv in Hres |- *. cbn [String.eqb negb] in Hres |- *.
  assert (∃ v, match last (gpuMatches sys assetDir f16) with
               | Some v => backendPath assetDir v
               | None => if installed sys assetDir (cpuVariant sys)
                         then backendPath assetDir (cpuVariant sys) else ""
               end = backendPath assetDir v
               ∧ installed sys assetDir v = true
               ∧ v ∈ [LLamaCPPCUDA; LLamaCPPHipblas; LLamaCPPSycl16;
                      LLamaCPPSycl32; cpuVariant sys])
    as (v & Heq & Hi & Hv).
  { destruct (last (gpuMatches sys assetDir f16)) as [v|] eqn:Hl.
    - exists v. apply last_Some_elem_of, gpuMatches_elem in Hl
        as (Hi & gpus & gpu & _ & _ & Hv).
      split_and!; [done | done |]. apply gpuVariants_names in Hv.
      apply list_elem_of_In. apply list_elem_of_In in Hv. cbn in *. tauto.
    - destruct (installed sys assetDir (cpuVariant sys)) eqn:Hi; [|done].
      exists (cpuVariant sys). split_and!; [done | done |].
      apply list_elem_of_In. cbn. tauto. }
  split; [|by exists v]. rewrite Heq. exact Hi.
Qed.

Lemma selectGRPCProcess_installed_only_witness :
  LLamaCPP = LLamaCPP
  ∧ statOk
      (Stat (sampleSys true [] ["/opt/backend-assets/grpc/llama-cpp-avx"]
               [] false true healthy)
         (selectGRPCProcess
            (sampleSys true [] ["/opt/backend-assets/grpc/llama-cpp-avx"]
               [] false true healthy) ∅ LLamaCPP "/opt" false)) = true
  ∧ ∃ v, selectGRPCProcess
           (sampleSys true [] ["/opt/backend-assets/grpc/llama-cpp-avx"]
              [] false true healthy) ∅ LLamaCPP "/opt" false
         = backendPath "/opt" v
         ∧ installed
             (sampleSys true [] ["/opt/backend-assets/grpc/llama-cpp-avx"]
                [] false true healthy) "/opt" v = true
         ∧ v ∈ [LLamaCPPCUDA; LLamaCPPHipblas; LLamaCPPSycl16;
                LLamaCPPSycl32;
                cpuVariant
                  (sampleSys true [] ["/opt/backend-assets/grpc/llama-cpp-avx"]
                     [] false true healthy)].
Proof.
  apply (selectGRPCProcess_installed_only
           (sampleSys true [] ["/opt/backend-assets/grpc/llama-cpp-avx"]
              [] false true healthy) ∅ LLamaCPP "/opt" false).
  - reflexivity.
  - vm_compute. discriminate.
Defined.

(** Without the override variable and without a GPU match that resolves to
    an installed file, the CPU features alone name the variant: AVX2, else
    AVX, else the fallback. If its file is not on disk the result is
    empty, whatever other CPU variants are on disk: there is no falling
    back from AVX2 to AVX or from AVX to the fallback. *)
Theorem selectGRPCProcess_cpu_choice (sys : Sys) (env : gmap string string)
    (assetDir : string) (f16 : bool) :
  Getenv env "LLAMACPP_GRPC_SERVERS" = "" →
  gpuMatches sys assetDir f16 = [] →
  (installed sys assetDir (cpuVariant sys) = true →
   selectGRPCProcess sys env LLamaCPP assetDir f16
   = backendPath assetDir (cpuVariant sys))
  ∧ (installed sys assetDir (cpuVariant sys) = false →
     selectGRPCProcess sys env LLamaCPP assetDir f16 = "")
  ∧ (∀ v, v ∈ [LLamaCPPAVX2; LLamaCPPAVX; LLamaCPPFallback] →
          v ≠ cpuVariant sys →
          selectGRPCProcess sys env LLamaCPP assetDir f16
          ≠ backendPath assetDir v).
Proof.
  intros Henv Hgpu. rewrite selectGRPCProcess_eq, Henv, Hgpu.
  cbn [String.eqb negb last].
  split_and!; try by intros ->.
  intros v Hv Hne.
  assert (backendPath assetDir v ≠ "") as Hnonempty.
  { intros Heq. pose proof (lastElem_backendPath assetDir v) as Hlast.
    rewrite Heq in Hlast.
    rewrite !elem_of_cons in Hv.
    destruct Hv as [->|[->|[->|[]%elem_of_nil]]];
      (specialize (Hlast ltac:(plain_name))); by vm_compute in Hlast. }
  destruct (installed sys assetDir (cpuVariant sys)); [|done].
  intros Heq. apply Hne. symmetry.
  assert (plainName (cpuVariant sys)) as Hcpu.
  { unfold cpuVariant.
    destruct (HasCPUCaps sys AVX2), (HasCPUCaps sys AVX); plain_name. }
  assert (plainName v) as Hpv.
  { rewrite !elem_of_cons in Hv.
    destruct Hv as [->|[->|[->|[]%elem_of_nil]]]; plain_name. }
  by apply (backendPath_inj assetDir).
Qed.

Lemma selectGRPCProcess_cpu_choice_witness :
  selectGRPCProcess
    (sampleSys true []
       ["/opt/backend-assets/grpc/llama-cpp-avx";
        "/opt/backend-assets/grpc/llama-cpp-fallback"] [] true true healthy)
    ∅ LLamaCPP "/opt" false = "".
Proof.
  destruct (selectGRPCProcess_cpu_choice
              (sampleSys true []
                 ["/opt/backend-assets/grpc/llama-cpp-avx";
                  "/opt/backend-assets/grpc/llama-cpp-fallback"] []
                 true true healthy) ∅ "/opt" false) as (_ & Hnone & _).
  - reflexivity.
  - reflexivity.
  - apply Hnone. reflexivity.
Defined.

(** ** More on [grpcModel]: the shape of its effects *)

(** [launch] starts at most one process, with the model of the options,
    and touches neither the registry nor the environment. *)
Lemma launch_effects sys backend o modelName st :
  ∃ starts,
    trace (launch sys backend o modelName st).2 = trace st ++ starts
    ∧ (starts = []
       ∨ ∃ p a args, starts = [EvStartProcess p (model o) a args])
    ∧ models (launch sys backend o modelName st).2 = models st
    ∧ environ (launch sys backend o modelName st).2 = environ st
    ∧ ∀ h, (launch sys backend o modelName st).1 = inr h → ID h = modelName.
Proof.
  unfold launch, getFreeAddress, startProcess, mbind, M_bind, mret, M_ret,
    throw, get.
  repeat case_match; simplify_eq/=;
    first [ exists []; rewrite app_nil_r; split_and!; eauto; by intros ? [= <-]
          | eexists [_]; split_and!; eauto 6; by intros ? [= <-] ].
Qed.

(** The readiness loop, whatever the backend answers: it stops at the first
    check that is answered, without a sleep after it, or makes all its
    rounds. *)
Lemma waitReady_shape sys client o n st :
  models (waitReady sys client o n st).2 = models st
  ∧ environ (waitReady sys client o n st).2 = environ st
  ∧ if (waitReady sys client o n st).1
    then ∃ k, k < n
         ∧ trace (waitReady sys client o n st).2
           = trace st
             ++ readinessTrace (GRPC client (parallelRequests o))
                               (grpcAttemptsDelay o) k
             ++ [EvHealthCheck (GRPC client (parallelRequests o))]
    else trace (waitReady sys client o n st).2
         = trace st
           ++ readinessTrace (GRPC client (parallelRequests o))
                             (grpcAttemptsDelay o) n.
Proof.
  revert st. induction n as [|n IH]; intros st.
  { cbn. by rewrite app_nil_r. }
  cbn [waitReady].
  destruct (HealthCheck sys (trace st) _) as [[] err].
  { cbn. split_and!; [done | done |]. exists 0. split; [lia | done]. }
  match goal with
  | |- context [waitReady sys client o n ?s] =>
      destruct (IH s) as (-> & -> & Hshape);
      destruct (waitReady sys client o n s) as [[] st2]
  end; (split_and!; [done | done |]); cbn [fst snd] in *.
  - destruct Hshape as (k & Hk & ->). exists (S k). split; [lia|].
    rewrite readinessTrace_S. cbn. by rewrite <- ?app_assoc.
  - rewrite Hshape, readinessTrace_S. cbn. by rewrite <- ?app_assoc.
Qed.

Lemma Forall_afterLaunch_readiness o c d n :
  Forall (λ ev, afterLaunch o ev = true) (readinessTrace c d n).
Proof.
  induction n as [|n IH]; [constructor|].
  rewrite readinessTrace_S. by repeat constructor.
Qed.

Lemma Setenv_environ key value st k :
  k ≠ key → environ (Setenv key value st).2 !! k = environ st !! k.
Proof.
  intros Hk. unfold Setenv. destruct (_ || _); [done|]. cbn.
  by rewrite lookup_insert_ne.
Qed.

(** One run of [grpcModel], whatever its collaborators do. *)
Lemma grpcModel_run sys backend o modelName modelFile st :
  ∃ starts rest,
    trace (grpcModel sys backend o modelName modelFile st).2
    = trace st ++ starts ++ rest
    ∧ (starts = []
       ∨ ∃ p a args, starts = [EvStartProcess p (model o) a args])
    ∧ trace (launch sys backend o modelName (setCacheEnv sys st)).2
      = trace st ++ starts
    ∧ environ (grpcModel sys backend o modelName modelFile st).2
      = environ (setCacheEnv sys st)
    ∧ match (grpcModel sys backend o modelName modelFile st).1 with
      | inr h =>
          ID h = modelName
          ∧ models (grpcModel sys backend o modelName modelFile st).2
            = models st
          ∧ ∃ n, n < Z.to_nat (grpcAttempts o)
              ∧ rest
                = readinessTrace (GRPC h (parallelRequests o))
                                 (grpcAttemptsDelay o) n
                  ++ [EvHealthCheck (GRPC h (parallelRequests o));
                      EvLoadModel (GRPC h (parallelRequests o))
                                  (loadOptions o modelName modelFile)]
      | inl _ =>
          (rest = []
           ∧ models (grpcModel sys backend o modelName modelFile st).2
             = models st)
          ∨ (models (grpcModel sys backend o modelName modelFile st).2
             = delete (model o) (models st)
             ∧ ∃ h,
                 rest
                 = readinessTrace (GRPC h (parallelRequests o))
                                  (grpcAttemptsDelay o)
                                  (Z.to_nat (grpcAttempts o))
                   ++ [EvDeleteProcess (model o)]
                 ∨ ∃ n, n < Z.to_nat (grpcAttempts o)
                     ∧ rest
                       = readinessTrace (GRPC h (parallelRequests o))
                                        (grpcAttemptsDelay o) n
                         ++ [EvHealthCheck (GRPC h (parallelRequests o));
                             EvLoadModel (GRPC h (parallelRequests o))
                                         (loadOptions o modelName modelFile);
                             EvDeleteProcess (model o)])
      end.
Proof.
  unfold grpcModel.
  destruct (setCacheEnv_trace sys st) as [Htr Hms].
  destruct (launch_effects sys backend o modelName (setCacheEnv sys st))
    as (starts & Hstarts & Hone & Hmodels & Henv & Hid).
  rewrite Htr in Hstarts. rewrite Hms in Hmodels.
  destruct (launch sys backend o modelName (setCacheEnv sys st))
    as [[err|client] st1]; cbn [fst snd] in *.
  { exists starts, []. rewrite app_nil_r.
    split; [|split; [|split; [|split]]]; [done..|by left]. }
  destruct (waitReady_shape sys client o (Z.to_nat (grpcAttempts o)) st1)
    as (Hwm & Hwe & Hshape).
  destruct (waitReady sys client o (Z.to_nat (grpcAttempts o)) st1)
    as [[] st2]; cbn [fst snd negb] in *.
  2:{ eexists starts, _. unfold deleteProcess.
      cbn [environ models trace emit setModels].
      split; [|split; [|split; [|split]]]; [| done | done | congruence |].
      - rewrite Hshape, Hstarts, <- !app_assoc. reflexivity.
      - right. split; [congruence|]. exists client. by left. }
  destruct Hshape as (n & Hn & Hshape).
  unfold callLoadModel.
  fold (loadOptions o modelName modelFile).
  destruct (LoadModelRPC sys (trace st2) _ _) as [err|[[] message]];
    cbn [fst snd negb]; unfold deleteProcess;
    cbn [environ models trace emit setModels];
    eexists starts, _;
    (split; [|split; [|split; [|split]]]; [| done | done | congruence |]);
    try (rewrite Hshape, Hstarts, <- !app_assoc; cbn; reflexivity).
  - right. split; [congruence|]. exists client. right.
    exists n. split; [done|]. by rewrite <- ?app_assoc.
  - split; [by apply Hid|]. split; [congruence|].
    exists n. split; [done|]. by rewrite <- ?app_assoc.
  - right. split; [congruence|]. exists client. right.
    exists n. split; [done|]. by rewrite <- ?app_assoc.
Qed.

Lemma startedPaths_app tr1 tr2 :
  startedPaths (tr1 ++ tr2) = startedPaths tr1 ++ startedPaths tr2.
Proof. unfold startedPaths. apply omap_app. Qed.

Lemma startedPaths_afterLaunch o rest :
  Forall (λ ev, afterLaunch o ev = true) rest → startedPaths rest = [].
Proof.
  induction 1 as [|ev rest Hev _ IH]; [done|].
  destruct ev; cbn in *; done.
Qed.

Lemma grpcModel_rest sys backend o modelName modelFile st :
  ∃ starts rest,
    trace (grpcModel sys backend o modelName modelFile st).2
    = trace st ++ starts ++ rest
    ∧ trace (launch sys backend o modelName (setCacheEnv sys st)).2
      = trace st ++ starts
    ∧ (starts = []
       ∨ ∃ p a args, starts = [EvStartProcess p (model o) a args])
    ∧ Forall (λ ev, afterLaunch o ev = true) rest
    ∧ (models (grpcModel sys backend o modelName modelFile st).2 = models st
       ∨ models (grpcModel sys backend o modelName modelFile st).2
         = delete (model o) (models st)).
Proof.
  destruct (grpcModel_run sys backend o modelName modelFile st)
    as (starts & rest & Htr & Hone & Hl & _ & Hres).
  exists starts, rest. split_and!; [done..| |].
  - destruct (grpcModel sys backend o modelName modelFile st).1 as [e|h].
    + destruct Hres as [[-> _]|(_ & h & [->|(n & _ & ->)])].
      * constructor.
      * apply Forall_app. split; [apply Forall_afterLaunch_readiness|].
        repeat constructor. cbn. apply String.eqb_refl.
      * apply Forall_app. split; [apply Forall_afterLaunch_readiness|].
        repeat constructor. cbn. apply String.eqb_refl.
    + destruct Hres as (_ & _ & n & _ & ->).
      apply Forall_app. split; [apply Forall_afterLaunch_readiness|].
      by repeat constructor.
  - destruct (grpcModel sys backend o modelName modelFile st).1 as [e|h].
    + destruct Hres as [[_ ->]|[-> _]]; [by left | by right].
    + destruct Hres as (_ & -> & _). by left.
Qed.

Lemma setCacheEnv_other sys st k :
  k ∉ ["HF_HOME"; "TRANSFORMERS_CACHE"; "HUGGINGFACE_HUB_CACHE"] →
  environ (setCacheEnv sys st) !! k = environ st !! k.
Proof.
  unfold setCacheEnv. generalize ["HF_HOME"; "TRANSFORMERS_CACHE";
                                  "HUGGINGFACE_HUB_CACHE"].
  intros l. revert st. induction l as [|x l IH]; intros st Hk; [done|].
  cbn [foldl]. apply not_elem_of_cons in Hk as [Hx Hl]. rewrite IH by done.
  destruct (String.eqb _ _); [by apply Setenv_environ | done].
Qed.

(** Whatever its collaborators do, [grpcModel] only adds to the effects:
    at most one start of a process, for the model of the options and
    before anything else, and after it nothing but health checks, sleeps,
    the load-model call and the delete path for that model. No other
    backend is stopped, no handle is added to the registry and at most the
    one of that model is removed, and no environment variable is changed
    but the three cache locations. *)
Theorem grpcModel_effects_shape (sys : Sys) (backend : string) (o : Options)
    (modelName modelFile : string) (st : State) :
  ∃ starts rest,
    trace (grpcModel sys backend o modelName modelFile st).2
    = trace st ++ starts ++ rest
    ∧ (starts = []
       ∨ ∃ p a args, starts = [EvStartProcess p (model o) a args])
    ∧ Forall (λ ev, afterLaunch o ev = true) rest
    ∧ (List.length (startedPaths (starts ++ rest)) ≤ 1)%nat
    ∧ (models (grpcModel sys backend o modelName modelFile st).2 = models st
       ∨ models (grpcModel sys backend o modelName modelFile st).2
         = delete (model o) (models st))
    ∧ (∀ k, k ∉ ["HF_HOME"; "TRANSFORMERS_CACHE"; "HUGGINGFACE_HUB_CACHE"] →
            environ (grpcModel sys backend o modelName modelFile st).2 !! k
            = environ st !! k).
Proof.
  destruct (grpcModel_rest sys backend o modelName modelFile st)
    as (starts & rest & Htr & _ & Hone & Hrest & Hmodels).
  exists starts, rest. split_and!; [done..| | done |].
  - rewrite startedPaths_app, (startedPaths_afterLaunch _ _ Hrest), app_nil_r.
    destruct Hone as [->|(p & a & args & ->)]; cbn; lia.
  - intros k Hk.
    destruct (grpcModel_run sys backend o modelName modelFile st)
      as (_ & _ & _ & _ & _ & -> & _).
    by apply setCacheEnv_other.
Qed.

Lemma slept_app tr1 tr2 :
  slept (tr1 ++ tr2) = (slept tr1 + slept tr2)%Z.
Proof.
  unfold slept. induction tr1 as [|ev tr1 IH]; cbn [app foldr]; [lia|].
  rewrite IH. destruct ev; lia.
Qed.

(** A call of [grpcModel] that returns a handle: the handle bears the name
    it was asked for; a health check was answered within the attempts, and
    there was one sleep after each check that failed before it, of the
    duration [time.Duration(delay) * time.Second] as 64 bits hold it, none
    after the check that was answered: the time waited is the number of
    failed checks times that duration, or no time when the duration is
    negative, and it is the number of failed checks times the delay for a
    delay from 0 to 9223372036 seconds. The load-model call came right
    after, once, with the options of the caller and the model name and
    file; nothing was deleted and the registry is as before. The number of
    attempts was positive. *)
Theorem grpcModel_success_shape (sys : Sys) (backend : string) (o : Options)
    (modelName modelFile : string) (st st' : State) (h : Handle) :
  grpcModel sys backend o modelName modelFile st = (inr h, st') →
  ID h = modelName
  ∧ models st' = models st
  ∧ (0 < grpcAttempts o)%Z
  ∧ ∃ starts n,
      (starts = []
       ∨ ∃ p a args, starts = [EvStartProcess p (model o) a args])
      ∧ n < Z.to_nat (grpcAttempts o)
      ∧ trace st'
        = trace st ++ starts
          ++ readinessTrace (GRPC h (parallelRequests o))
                            (grpcAttemptsDelay o) n
          ++ [EvHealthCheck (GRPC h (parallelRequests o));
              EvLoadModel (GRPC h (parallelRequests o))
                {| F16Memory := F16Memory (gRPCOptions o);
                   LibrarySearchPath := LibrarySearchPath (gRPCOptions o);
                   Model := modelName; ModelFile := modelFile |}]
      ∧ slept (starts
               ++ readinessTrace (GRPC h (parallelRequests o))
                                 (grpcAttemptsDelay o) n
               ++ [EvHealthCheck (GRPC h (parallelRequests o));
                   EvLoadModel (GRPC h (parallelRequests o))
                     {| F16Memory := F16Memory (gRPCOptions o);
                        LibrarySearchPath := LibrarySearchPath (gRPCOptions o);
                        Model := modelName; ModelFile := modelFile |}])
        = (Z.of_nat n * Z.max 0 (sleepDuration (grpcAttemptsDelay o)))%Z
      ∧ ((0 ≤ grpcAttemptsDelay o ≤ 9223372036)%Z →
         slept (starts
                ++ readinessTrace (GRPC h (parallelRequests o))
                                  (grpcAttemptsDelay o) n
                ++ [EvHealthCheck (GRPC h (parallelRequests o));
                    EvLoadModel (GRPC h (parallelRequests o))
                      {| F16Memory := F16Memory (gRPCOptions o);
                         LibrarySearchPath :=
                           LibrarySearchPath (gRPCOptions o);
                         Model := modelName; ModelFile := modelFile |}])
         = (Z.of_nat n * (grpcAttemptsDelay o * Second))%Z).
Proof.
  intros Hres.
  destruct (grpcModel_run sys backend o modelName modelFile st)
    as (starts & rest & Htr & Hone & _ & _ & Hshape).
  rewrite Hres in Htr, Hshape. cbn [fst snd] in *.
  destruct Hshape as (Hid & Hmodels & n & Hn & ->).
  split_and!; [done | done | lia |].
  exists starts, n.
  assert (slept (starts
                 ++ readinessTrace (GRPC h (parallelRequests o))
                                   (grpcAttemptsDelay o) n
                 ++ [EvHealthCheck (GRPC h (parallelRequests o));
                     EvLoadModel (GRPC h (parallelRequests o))
                       {| F16Memory := F16Memory (gRPCOptions o);
                          LibrarySearchPath :=
                            LibrarySearchPath (gRPCOptions o);
                          Model := modelName; ModelFile := modelFile |}])
          = (Z.of_nat n * Z.max 0 (sleepDuration (grpcAttemptsDelay o)))%Z)
    as Hslept.
  { rewrite !slept_app, slept_readinessTrace.
    destruct Hone as [->|(p & a & args & ->)]; cbn [slept foldr]; lia. }
  split_and!; [done | done | done | done |].
  intros Hd. rewrite Hslept.
  by destruct (sleepDuration_seconds _ Hd) as [_ ->].
Qed.

Lemma grpcModel_success_shape_witness :
  ∃ st' h,
    grpcModel
      (sampleSys false [] ["/opt/backend-assets/grpc/whisper"] [] false false
                 healthy)
      "whisper"
      (NewOptions
         (sampleSys false [] ["/opt/backend-assets/grpc/whisper"] [] false
                    false healthy)
         [WithModel "base.bin"; WithAssetDir "/opt"])
      "base.bin" "/models/base.bin" emptyState
    = (inr h, st')
    ∧ ID h = "base.bin" ∧ models st' = models emptyState.
Proof.
  eexists _, _. split; [vm_compute; reflexivity|].
  edestruct (grpcModel_success_shape
               (sampleSys false [] ["/opt/backend-assets/grpc/whisper"] []
                          false false healthy)
               "whisper"
               (NewOptions
                  (sampleSys false [] ["/opt/backend-assets/grpc/whisper"] []
                             false false healthy)
                  [WithModel "base.bin"; WithAssetDir "/opt"])
               "base.bin" "/models/base.bin" emptyState)
    as (Hid & Hmodels & _).
  - vm_compute. reflexivity.
  - split; [exact Hid | exact Hmodels].
Defined.

(** With a number of attempts of zero or less the readiness loop is not
    entered: a backend that was launched is handed to the delete path at
    once, without a single health check and without the load-model call,
    and the call fails with "grpc service not ready", whatever the backend
    would have answered. *)
Theorem grpcModel_no_attempts (sys : Sys) (backend : string) (o : Options)
    (modelName modelFile : string) (st st1 : State) (h : Handle) :
  (grpcAttempts o ≤ 0)%Z →
  launch sys backend o modelName (setCacheEnv sys st) = (inr h, st1) →
  grpcModel sys backend o modelName modelFile st
  = (inl (errorString "grpc service not ready"),
     deleteProcess (model o) st1)
  ∧ trace (grpcModel sys backend o modelName modelFile st).2
    = trace st1 ++ [EvDeleteProcess (model o)].
Proof.
  intros Hle Hlaunch. unfold grpcModel. rewrite Hlaunch.
  rewrite Z2Nat.nonpos by done. done.
Qed.

Lemma grpcModel_no_attempts_witness :
  grpcModel
    (sampleSys false [] ["/opt/backend-assets/grpc/whisper"] [] false false
               healthy)
    "whisper"
    (NewOptions
       (sampleSys false [] ["/opt/backend-assets/grpc/whisper"] [] false
                  false healthy)
       [WithModel "base.bin"; WithAssetDir "/opt"; WithGRPCAttempts 0])
    "base.bin" "/models/base.bin" emptyState
  = (inl (errorString "grpc service not ready"),
     deleteProcess "base.bin"
       (launch
          (sampleSys false [] ["/opt/backend-assets/grpc/whisper"] [] false
                     false healthy)
          "whisper"
          (NewOptions
             (sampleSys false [] ["/opt/backend-assets/grpc/whisper"] []
                        false false healthy)
             [WithModel "base.bin"; WithAssetDir "/opt"; WithGRPCAttempts 0])
          "base.bin"
          (setCacheEnv
             (sampleSys false [] ["/opt/backend-assets/grpc/whisper"] []
                        false false healthy) emptyState)).2).
Proof.
  eapply (grpcModel_no_attempts
            (sampleSys false [] ["/opt/backend-assets/grpc/whisper"] []
                       false false healthy)
            "whisper"
            (NewOptions
               (sampleSys false [] ["/opt/backend-assets/grpc/whisper"] []
                          false false healthy)
               [WithModel "base.bin"; WithAssetDir "/opt";
                WithGRPCAttempts 0])
            "base.bin" "/models/base.bin" emptyState).
  - vm_compute. discriminate.
  - vm_compute. reflexivity.
Defined.

(** A backend registered as external is reached through what it was
    registered with, and the asset directory is not looked at. If that is
    not a file on disk it is taken as an address: the handle points to it,
    has no process, and nothing is started. If it is a file, the one
    process that may be started is that file, without arguments. *)
Theorem grpcModel_external (sys : Sys) (backend uri : string) (o : Options)
    (modelName modelFile : string) (st : State) :
  externalBackends o !! backend = Some uri →
  ∃ new,
    trace (grpcModel sys backend o modelName modelFile st).2
    = trace st ++ new
    ∧ (startedPaths new = []
       ∨ startedPaths new = [uri] ∧ statOk (Stat sys uri) = true)
    ∧ (∀ p m a args, EvStartProcess p m a args ∈ new →
                     p = uri ∧ m = model o ∧ args = [])
    ∧ (statOk (Stat sys uri) = false →
       startedPaths new = []
       ∧ ∀ h, (grpcModel sys backend o modelName modelFile st).1 = inr h →
              h = NewModel modelName uri None).
Proof.
  intros Hext.
  destruct (grpcModel_rest sys backend o modelName modelFile st)
    as (starts & rest & Htr & Hl & _ & Hrest & _).
  pose proof (startedPaths_afterLaunch _ _ Hrest) as Hnone.
  destruct (setCacheEnv_trace sys st) as [Hct _].
  assert (starts = [] ∧ (statOk (Stat sys uri) = false →
                         launch sys backend o modelName (setCacheEnv sys st)
                         = (inr (NewModel modelName uri None),
                            setCacheEnv sys st))
          ∨ (∃ a, starts = [EvStartProcess uri (model o) a []])
            ∧ statOk (Stat sys uri) = true) as Hstarts.
  { revert Hl. unfold launch. rewrite Hext.
    unfold getFreeAddress, startProcess, mbind, M_bind, mret, M_ret.
    rewrite <- Hct.
    destruct (statOk (Stat sys uri)).
    - destruct (GetFreePort sys _) as [err|port]; cbn.
      + intros Hl. left. split; [|done].
        apply (app_inv_head (trace (setCacheEnv sys st))).
        by rewrite app_nil_r.
      + destruct (startProcessResult sys _ _); cbn; intros Hl;
          apply app_inv_head in Hl; subst starts; right; eauto.
    - cbn. intros Hl. left. split; [|done].
      apply (app_inv_head (trace (setCacheEnv sys st))).
      by rewrite app_nil_r. }
  exists (starts ++ rest). rewrite startedPaths_app, Hnone, app_nil_r.
  split_and!; [done | | |].
  - destruct Hstarts as [[-> _]|[(a & ->) Hfile]]; [by left | by right].
  - intros p m a args [Hin|Hin]%elem_of_app.
    + destruct Hstarts as [[-> _]|[(a' & ->) _]];
        [by apply elem_of_nil in Hin|].
      apply list_elem_of_singleton in Hin. by simplify_eq.
    + rewrite Forall_forall in Hrest. by apply Hrest in Hin.
  - intros Hno. destruct Hstarts as [[-> Hlaunch]|[_ Hfile]]; [|congruence].
    split; [done|]. specialize (Hlaunch Hno).
    unfold grpcModel, callLoadModel. rewrite Hlaunch.
    destruct (waitReady _ _ _ _ _) as [[] st2]; cbn [negb]; [|done].
    destruct (LoadModelRPC _ _ _ _) as [err|[[] msg]]; cbn [negb fst];
      try done.
    by intros h [= <-].
Qed.

Lemma grpcModel_external_witness :
  ∃ new,
    trace (grpcModel
             (sampleSys false [] [] [] false false healthy) "remote"
             (NewOptions (sampleSys false [] [] [] false false healthy)
                [WithModel "base.bin"; WithAssetDir "/opt";
                 WithExternalBackend "remote" "10.0.0.7:9000"])
             "base.bin" "/models/base.bin" emptyState).2
    = trace emptyState ++ new
    ∧ startedPaths new = [].
Proof.
  destruct (grpcModel_external
              (sampleSys false [] [] [] false false healthy) "remote"
              "10.0.0.7:9000"
              (NewOptions (sampleSys false [] [] [] false false healthy)
                 [WithModel "base.bin"; WithAssetDir "/opt";
                  WithExternalBackend "remote" "10.0.0.7:9000"])
              "base.bin" "/models/base.bin" emptyState)
    as (new & Htr & _ & _ & Haddr).
  - vm_compute. reflexivity.
  - exists new. split; [exact Htr|]. apply Haddr. vm_compute. reflexivity.
Defined.

(** ** The cache locations *)

Lemma Setenv_valid key value st :
  key ∈ ["HF_HOME"; "TRANSFORMERS_CACHE"; "HUGGINGFACE_HUB_CACHE"] →
  strings.Contains value (String "000"%char EmptyString) = false →
  environ (Setenv key value st).2 = <[key := value]> (environ st).
Proof.
  intros Hkey Hvalue. unfold Setenv. rewrite Hvalue.
  apply list_elem_of_In in Hkey. cbn in Hkey.
  destruct Hkey as [<-|[<-|[<-|[]]]]; reflexivity.
Qed.

Lemma Setenv_invalid key value st :
  strings.Contains value (String "000"%char EmptyString) = true →
  (Setenv key value st).2 = st.
Proof.
  intros Hvalue. unfold Setenv. rewrite Hvalue, !orb_true_r. done.
Qed.

(** One step of the loop over the cache locations. *)
Lemma setCacheEnv_step sys st x k :
  x ∈ ["HF_HOME"; "TRANSFORMERS_CACHE"; "HUGGINGFACE_HUB_CACHE"] →
  strings.Contains (ModelPath sys) (String "000"%char EmptyString) = false →
  Getenv (environ (if String.eqb (Getenv (environ st) x) ""
                   then (Setenv x (ModelPath sys) st).2 else st)) k
  = if decide (k = x)
    then (if String.eqb (Getenv (environ st) k) ""
          then ModelPath sys else Getenv (environ st) k)
    else Getenv (environ st) k.
Proof.
  intros Hx Hvalid. destruct (decide (k = x)) as [->|Hne].
  - destruct (String.eqb (Getenv (environ st) x) ""); [|done].
    unfold Getenv. rewrite Setenv_valid by done.
    by rewrite lookup_insert_eq.
  - destruct (String.eqb (Getenv (environ st) x) ""); [|done].
    unfold Getenv. rewrite Setenv_valid by done.
    by rewrite lookup_insert_ne.
Qed.

(** Each call of [grpcModel] first gives the three cache locations of the
    model hubs a value: a location that has a value which is not empty
    keeps it, and one that is unset or empty is set to the model path.
    Every other variable is as before. A model path that [os.Setenv]
    refuses, for a NUL byte in it, leaves the environment as it is. *)
Theorem grpcModel_cache_env (sys : Sys) (backend : string) (o : Options)
    (modelName modelFile : string) (st : State) (k : string) :
  (strings.Contains (ModelPath sys) (String "000"%char EmptyString) = false →
   Getenv (environ (grpcModel sys backend o modelName modelFile st).2) k
   = if bool_decide (k ∈ ["HF_HOME"; "TRANSFORMERS_CACHE";
                           "HUGGINGFACE_HUB_CACHE"])
        && String.eqb (Getenv (environ st) k) ""
     then ModelPath sys
     else Getenv (environ st) k)
  ∧ (strings.Contains (ModelPath sys) (String "000"%char EmptyString) = true →
     environ (grpcModel sys backend o modelName modelFile st).2
     = environ st).
Proof.
  destruct (grpcModel_run sys backend o modelName modelFile st)
    as (_ & _ & _ & _ & _ & -> & _).
  unfold setCacheEnv. cbn [foldl]. split.
  - intros Hvalid.
    rewrite !setCacheEnv_step by (done || apply list_elem_of_In; cbn; tauto).
    destruct (decide (k = "HF_HOME")) as [->|H1];
      [reflexivity|].
    destruct (decide (k = "TRANSFORMERS_CACHE")) as [->|H2];
      [reflexivity|].
    destruct (decide (k = "HUGGINGFACE_HUB_CACHE")) as [->|H3];
      [reflexivity|].
    rewrite bool_decide_eq_false_2; [done|].
    rewrite !elem_of_cons, elem_of_nil. tauto.
  - intros Hbad. rewrite !Setenv_invalid by done.
    by repeat destruct (String.eqb _ _).
Qed.

Lemma grpcModel_cache_env_witness :
  Getenv
    (environ
       (grpcModel (sampleSys false [] [] [] false false healthy) "whisper"
          (defaultOptions (sampleSys false [] [] [] false false healthy))
          "base.bin" "/models/base.bin"
          {| environ := {["HF_HOME" := "/cache/hf"]}; models := ∅;
             trace := [] |}).2) "HF_HOME"
  = "/cache/hf"
  ∧ Getenv
      (environ
         (grpcModel (sampleSys false [] [] [] false false healthy) "whisper"
            (defaultOptions (sampleSys false [] [] [] false false healthy))
            "base.bin" "/models/base.bin"
            {| environ := {["HF_HOME" := "/cache/hf"]}; models := ∅;
               trace := [] |}).2) "TRANSFORMERS_CACHE"
    = "/models".
Proof.
  split.
  - destruct (grpcModel_cache_env
                (sampleSys false [] [] [] false false healthy) "whisper"
                (defaultOptions (sampleSys false [] [] [] false false healthy))
                "base.bin" "/models/base.bin"
                {| environ := {["HF_HOME" := "/cache/hf"]}; models := ∅;
                   trace := [] |} "HF_HOME") as [Hset _].
    rewrite Hset by (vm_compute; reflexivity). vm_compute. reflexivity.
  - destruct (grpcModel_cache_env
                (sampleSys false [] [] [] false false healthy) "whisper"
                (defaultOptions (sampleSys false [] [] [] false false healthy))
                "base.bin" "/models/base.bin"
                {| environ := {["HF_HOME" := "/cache/hf"]}; models := ∅;
                   trace := [] |} "TRANSFORMERS_CACHE") as [Hset _].
    rewrite Hset by (vm_compute; reflexivity). vm_compute. reflexivity.
Defined.

(** ** Names and paths *)

Lemma Aliases_target k v :
  Aliases !! k = Some v →
  v ∈ [LLamaCPP; LocalStoreBackend; LCHuggingFaceBackend].
Proof.
  unfold Aliases. intros H%elem_of_list_to_map_2.
  apply list_elem_of_In in H. apply list_elem_of_In. cbn in *.
  destruct H as [[= _ <-]|[[= _ <-]|[[= _ <-]|[[= _ <-]|[]]]]]; tauto.
Qed.

(** The alias table has no chain of aliases: the name an alias stands for
    is not an alias, is in lower case, and resolves to itself. So the name
    [BackendLoader] works with, for a requested name of ASCII bytes or one
    whose lower case is an alias, is in lower case, is not an alias, and
    resolves to itself. (The lower case of any other name is that of
    package [unicode], a collaborator here.) *)
Theorem resolveBackend_idempotent (sys : Sys) (s : string) :
  (∀ k v, Aliases !! k = Some v →
          Aliases !! v = None ∧ resolveBackend sys v = v)
  ∧ (strings.isASCII s = true
     ∨ is_Some (Aliases !! strings.ToLower (MapToLower sys) s) →
     resolveBackend sys (resolveBackend sys s) = resolveBackend sys s
     ∧ Aliases !! resolveBackend sys s = None
     ∧ strings.ToLower (MapToLower sys) (resolveBackend sys s)
       = resolveBackend sys s).
Proof.
  assert (∀ k v, Aliases !! k = Some v →
                 Aliases !! v = None
                 ∧ strings.ToLower (MapToLower sys) v = v) as Htarget.
  { intros k v Hv. apply Aliases_target, list_elem_of_In in Hv. cbn in Hv.
    destruct Hv as [<-|[<-|[<-|[]]]]; by vm_compute. }
  assert (∀ v, Aliases !! v = None →
               strings.ToLower (MapToLower sys) v = v →
               resolveBackend sys v = v) as Hfix.
  { intros v Hnone Hlow. unfold resolveBackend. by rewrite Hlow, Hnone. }
  split.
  - intros k v Hv. destruct (Htarget k v Hv). split; [done|]. by apply Hfix.
  - intros Hs.
    assert (Aliases !! resolveBackend sys s = None
            ∧ strings.ToLower (MapToLower sys) (resolveBackend sys s)
              = resolveBackend sys s) as [Hnone Hlow].
    { unfold resolveBackend.
      destruct (Aliases !! strings.ToLower (MapToLower sys) s) as [v|] eqn:Hv.
      - by apply (Htarget _ _ Hv).
      - destruct Hs as [Hs|[? [=]]].
        split; [done|]. by apply ToLower_idemp. }
    split_and!; [|done..]. by apply Hfix.
Qed.

Lemma resolveBackend_idempotent_witness :
  resolveBackend (sampleSys false [] [] [] false false healthy)
    (resolveBackend (sampleSys false [] [] [] false false healthy)
                    "Go-LLaMA")
  = resolveBackend (sampleSys false [] [] [] false false healthy) "Go-LLaMA"
  ∧ resolveBackend (sampleSys false [] [] [] false false healthy) "Go-LLaMA"
    = LLamaCPP.
Proof.
  destruct (resolveBackend_idempotent
              (sampleSys false [] [] [] false false healthy) "Go-LLaMA")
    as [_ Hs].
  destruct Hs as (Hidem & _ & _).
  - left. reflexivity.
  - split; [exact Hidem | reflexivity].
Defined.

Lemma append_nonempty s c t : s +:+ String c t ≠ "".
Proof. by destruct s. Qed.

Lemma prefix_append_nonempty p s t :
  s ≠ "" → String.prefix (String p "") (s +:+ t) = String.prefix (String p "") s.
Proof.
  destruct s as [|c s]; [done|]. intros _.
  change (String c s +:+ t) with (String c (s +:+ t)). cbn.
  destruct (ascii_dec p c); [|done]. by destruct (s +:+ t); destruct s.
Qed.

(** Cleaning a path that ends in a plain name, with one more plain name
    after it: the name is put after the cleaned path. *)
Lemma Clean_child path g v :
  plainName g → plainName v → lastElem path = Some g →
  filepath.Clean (path +:+ "/" +:+ v) = filepath.Clean path +:+ "/" +:+ v.
Proof.
  intros Hg Hv Hlast. unfold lastElem in Hlast.
  apply last_Some in Hlast as [cs Hcs].
  assert (path ≠ "") as Hpath.
  { intros ->. cbn in Hcs. destruct cs as [|? []]; simplify_eq/=.
    by destruct Hg as (_ & ? & _). }
  unfold filepath.Clean.
  change ("/" +:+ v) with (String "/" v).
  rewrite split_app_sep, Hcs, prefix_append_nonempty by done.
  destruct Hv as (Hsplit & Hv'). rewrite Hsplit.
  rewrite !foldl_app. cbn [foldl].
  rewrite (cleanStep_plain _ _ g) by done.
  rewrite (cleanStep_plain _ _ v) by (by split).
  cbn [rev]. set (xs := rev _).
  rewrite (concat_snoc "/" (xs ++ [g]) v).
  assert (String.concat "/" (xs ++ [g]) ≠ "") as Hbody.
  { rewrite concat_snoc. destruct xs; [by destruct Hg as (_ & ? & _)|].
    change ("/" +:+ g) with (String "/" g). apply append_nonempty. }
  destruct (xs ++ [g]) eqn:Hxs; [by destruct xs|]. rewrite <- Hxs in *.
  change ("/" +:+ v) with (String "/" v).
  destruct (String.prefix "/" path).
  - by rewrite append_assoc.
  - apply String.eqb_neq in Hbody. rewrite Hbody.
    pose proof (append_nonempty (String.concat "/" (xs ++ [g])) "/" v) as Hne.
    apply String.eqb_neq in Hne. by rewrite Hne.
Qed.

(** The executable of a backend is the entry of that name in the directory
    [backendsInAssetDir] reads: its path is the path of that directory, a
    separator and the name. So the last element of the path is the name,
    and two names have two paths. This for a plain name: one element that
    is neither empty nor a dot name. *)
Theorem backendPath_child (assetDir v w : string) :
  plainName v → plainName w →
  backendPath assetDir v = backendPath assetDir "" +:+ "/" +:+ v
  ∧ lastElem (backendPath assetDir v) = Some v
  ∧ (backendPath assetDir v = backendPath assetDir w → v = w).
Proof.
  intros Hv Hw. split_and!.
  - unfold backendPath, filepath.Join.
    assert (filter (λ e, e ≠ "") [assetDir; "backend-assets"; "grpc"; v]
            = ((if decide (assetDir ≠ "") then [assetDir] else [])
               ++ ["backend-assets"]) ++ ["grpc"] ++ [v]) as ->.
    { destruct Hv as (_ & Hne & _).
      rewrite filter_cons. case_decide.
      all: rewrite filter_cons_True by done.
      all: rewrite filter_cons_True by done.
      all: by rewrite filter_cons_True. }
    assert (filter (λ e, e ≠ "") [assetDir; "backend-assets"; "grpc"; ""]
            = ((if decide (assetDir ≠ "") then [assetDir] else [])
               ++ ["backend-assets"]) ++ ["grpc"]) as ->.
    { rewrite filter_cons. case_decide.
      all: rewrite filter_cons_True by done.
      all: rewrite filter_cons_True by done.
      all: by rewrite filter_cons_False by (by intros ?). }
    set (pre := (if decide (assetDir ≠ "") then [assetDir] else [])
                ++ ["backend-assets"]).
    assert (plainName "grpc") as Hg by plain_name.
    pose proof (lastElem_concat pre "grpc" Hg) as Hlast.
    pose proof (Clean_child _ "grpc" v Hg Hv Hlast) as Hclean.
    assert (∀ es, es ≠ [] →
              match es with
              | [] => ""
              | e :: es' => filepath.Clean (String.concat "/" (e :: es'))
              end = filepath.Clean (String.concat "/" es)) as Hjoin
      by (by intros [|? ?]).
    rewrite !Hjoin by (by destruct pre).
    rewrite app_assoc, (concat_snoc "/" (pre ++ ["grpc"]) v).
    destruct (pre ++ ["grpc"]) eqn:Hpre; [by destruct pre|].
    by rewrite <- Hpre in *.
  - by apply lastElem_backendPath.
  - by apply backendPath_inj.
Qed.

Lemma backendPath_child_witness :
  backendPath "/usr/share/local-ai/" "whisper"
  = backendPath "/usr/share/local-ai/" "" +:+ "/" +:+ "whisper"
  ∧ lastElem (backendPath "/usr/share/local-ai/" "whisper") = Some "whisper"
  ∧ (backendPath "/usr/share/local-ai/" "whisper"
     = backendPath "/usr/share/local-ai/" "piper" → "whisper" = "piper").
Proof.
  apply (backendPath_child "/usr/share/local-ai/" "whisper" "piper");
    plain_name.
Defined.

(** ** What is listed, in terms of the directory *)

Lemma scanEntry_listed ad (backends : Backends) e :
  scanEntry ad backends e
  = if listed ad e then <[Name e := []]> backends else backends.
Proof.
  unfold scanEntry, listed.
  destruct (bool_decide _), (IsDir e), (strings.HasSuffix _ _), (_ && _ && ad);
    reflexivity.
Qed.

Lemma foldl_scanEntry_is_Some ad entry (backends : Backends) k :
  is_Some (foldl (scanEntry ad) backends entry !! k)
  ↔ is_Some (backends !! k)
    ∨ ∃ e, e ∈ entry ∧ Name e = k ∧ listed ad e = true.
Proof.
  revert backends. induction entry as [|e entry IH]; intros backends;
    cbn [foldl].
  { split; [by left|]. intros [H|(e & []%elem_of_nil & _)]. done. }
  rewrite IH, scanEntry_listed. destruct (listed ad e) eqn:Hl.
  - rewrite lookup_insert_is_Some. split.
    + intros [[<-|[_ H]]|(e' & He' & Hn & Hl')].
      * right. exists e. split_and!; [by left | done..].
      * by left.
      * right. exists e'. split_and!; [by right | done..].
    + intros [H|(e' & [->|He']%elem_of_cons & Hn & Hl')].
      * destruct (decide (Name e = k)); [by left; left | by left; right].
      * by left; left.
      * right. by exists e'.
  - split.
    + intros [H|(e' & He' & Hn & Hl')]; [by left|].
      right. exists e'. split_and!; [by right | done..].
    + intros [H|(e' & [->|He']%elem_of_cons & Hn & Hl')]; [by left | |].
      * congruence.
      * right. by exists e'.
Qed.

(** A name the first loop skips with auto-detection: it holds llama-cpp
    and does not hold llama-cpp-fallback. *)
Ltac skipped_variant Hl :=
  match type of Hl with
  | context [strings.Contains ?v LLamaCPP
             && negb (strings.Contains ?v LLamaCPPFallback) && true] =>
      let Hc := fresh "Hc" in
      assert (strings.Contains v LLamaCPP
              && negb (strings.Contains v LLamaCPPFallback) && true = true)
        as Hc by (vm_compute; reflexivity);
      rewrite Hc in Hl; cbn [negb] in Hl; rewrite andb_false_r in Hl
  end.

(** The llama-cpp key of the discovered backends, with auto-detection. *)
Lemma discoverBackends_llama entry :
  is_Some (discoverBackends true entry !! LLamaCPP)
  ↔ ∃ e v, e ∈ entry ∧ v ∈ variantTests
           ∧ strings.Contains (Name e) v = true.
Proof.
  assert (foldl (scanEntry true) ∅ entry !! LLamaCPP = None) as Hnone
    by (apply foldl_scanEntry_no_LLamaCPP, lookup_empty).
  assert (variantsInv (foldl scanVariants
                         (foldl (scanEntry true) ∅ entry, noneFound) entry)
                      (firstOccurrences (mjoin (hits ∘ Name <$> entry))))
    as [Hmap _].
  { apply foldl_scanVariants_inv. split; [done|].
    intros v Hv. unfold variantTests in Hv.
    repeat (apply elem_of_cons in Hv as [->|Hv]; [reflexivity|]).
    by apply elem_of_nil in Hv. }
  unfold discoverBackends. rewrite Hnone, Hmap.
  assert (∀ v, v ∈ firstOccurrences (mjoin (hits ∘ Name <$> entry))
               ↔ v ∈ variantTests
                 ∧ ∃ e, e ∈ entry ∧ strings.Contains (Name e) v = true)
    as Hin.
  { intros v. unfold firstOccurrences.
    rewrite elem_of_foldl_pushNew, elem_of_nil, list_elem_of_join. split.
    - intros [[]|(l & Hv & Hl)].
      apply list_elem_of_fmap in Hl as (e & -> & He).
      apply list_elem_of_filter in Hv as [Hc Hv]. eauto.
    - intros (Hv & e & He & Hc). right. exists (hits (Name e)). split.
      + by apply list_elem_of_filter.
      + apply list_elem_of_fmap. by exists e. }
  destruct (firstOccurrences _) as [|v0 l0] eqn:Hfo.
  - split; [by intros [? ?]|]. intros (e & v & He & Hv & Hc).
    assert (v ∈ @nil string) as []%elem_of_nil. apply Hin. eauto.
  - split; [|by eauto]. intros _.
    destruct (Hin v0) as [(Hv & e & He & Hc) _]; [by left|]. eauto.
Qed.

(** What [ListAvailableBackends] lists, said on the directory: the names
    of the entries that are neither local-store, nor a directory, nor a
    log file, nor, with auto-detection, a llama.cpp variant other than the
    fallback; and, with auto-detection, llama-cpp itself as soon as the
    name of any entry, directories and log files among them, holds the
    name of a variant. With auto-detection no llama.cpp variant but the
    fallback is listed under its own name. *)
Theorem ListAvailableBackends_entries (sys : Sys) (assetDir : string)
    (entry : list DirEntry) :
  ReadDir sys (backendPath assetDir "") = inr entry →
  rangeBackends sys (discoverBackends (autoDetect sys) entry)
    ≡ₚ map_to_list (discoverBackends (autoDetect sys) entry) →
  ∃ l,
    ListAvailableBackends sys assetDir = inr l
    ∧ (∀ k, k ∈ l
            ↔ (∃ e, e ∈ entry ∧ Name e = k
                    ∧ listed (autoDetect sys) e = true)
              ∨ (autoDetect sys = true ∧ k = LLamaCPP
                 ∧ ∃ e v, e ∈ entry ∧ v ∈ variantTests
                          ∧ strings.Contains (Name e) v = true))
    ∧ (autoDetect sys = true →
       ∀ v, v ∈ variantTests → v ≠ LLamaCPPFallback → v ∉ l).
Proof.
  intros Hdir Hperm. unfold ListAvailableBackends, backendsInAssetDir.
  rewrite Hdir.
  destruct (orderBackends_shape _ _ Hperm) as (mid & _ & _ & Hin & _).
  eexists. split; [reflexivity|].
  assert (∀ k, k ∈ orderBackends
                     (rangeBackends sys
                        (discoverBackends (autoDetect sys) entry))
                     (discoverBackends (autoDetect sys) entry)
               ↔ (∃ e, e ∈ entry ∧ Name e = k
                       ∧ listed (autoDetect sys) e = true)
                 ∨ (autoDetect sys = true ∧ k = LLamaCPP
                    ∧ ∃ e v, e ∈ entry ∧ v ∈ variantTests
                             ∧ strings.Contains (Name e) v = true))
    as Hchar.
  { intros k. rewrite Hin. destruct (autoDetect sys) eqn:Had.
    - destruct (decide (k = LLamaCPP)) as [->|Hne].
      + rewrite discoverBackends_llama. split; [by right|].
        intros [(e & He & Hn & Hl)|(_ & _ & H)]; [|done].
        exfalso. unfold listed in Hl. rewrite Hn in Hl. by skipped_variant Hl.
      + unfold discoverBackends.
        assert (foldl (scanEntry true) ∅ entry !! LLamaCPP = None) as ->
          by (apply foldl_scanEntry_no_LLamaCPP, lookup_empty).
        rewrite foldl_scanVariants_lookup by done. cbn [fst].
        rewrite foldl_scanEntry_is_Some, lookup_empty. split.
        * intros [[? [=]]|H]; by left.
        * intros [H|(_ & ? & _)]; [by right | done].
    - unfold discoverBackends.
      rewrite foldl_scanEntry_is_Some, lookup_empty. split.
      + intros [[? [=]]|H]; by left.
      + intros [H|([=] & _)]. by right. }
  split; [done|].
  intros Had v Hv Hne Hl.
  apply Hchar in Hl as [(e & He & Hn & Hl)|(_ & -> & _)].
  - unfold listed in Hl. rewrite Hn, Had in Hl.
    unfold variantTests in Hv. apply list_elem_of_In in Hv. cbn in Hv.
    destruct Hv as [<-|[<-|[<-|[<-|[<-|[<-|[<-|[<-|[]]]]]]]]];
      try done; by skipped_variant Hl.
  - unfold variantTests in Hv. apply list_elem_of_In in Hv. cbn in Hv.
    intuition discriminate.
Qed.

Lemma ListAvailableBackends_entries_witness :
  ∃ l,
    ListAvailableBackends
      (sampleSys true
         [file "llama-cpp-avx2"; file "whisper"; file "whisper.log";
          {| Name := "piper"; IsDir := true |}]
         [] [] false false healthy) "/opt"
    = inr l
    ∧ (LLamaCPPAVX2 ∉ l).
Proof.
  destruct (ListAvailableBackends_entries
              (sampleSys true
                 [file "llama-cpp-avx2"; file "whisper"; file "whisper.log";
                  {| Name := "piper"; IsDir := true |}]
                 [] [] false false healthy) "/opt"
              [file "llama-cpp-avx2"; file "whisper"; file "whisper.log";
               {| Name := "piper"; IsDir := true |}])
    as (l & Hl & _ & Hvar).
  - reflexivity.
  - reflexivity.
  - exists l. split; [exact Hl|]. apply Hvar.
    + reflexivity.
    + apply list_elem_of_In. cbn. tauto.
    + discriminate.
Defined.

(** ** More on [BackendLoader] *)

Lemma readinessTrace_elem c d n ev :
  ev ∈ readinessTrace c d n →
  ev = EvHealthCheck c ∨ ev = EvSleep (sleepDuration d).
Proof.
  induction n as [|n IH]; [by intros ?%elem_of_nil|].
  rewrite readinessTrace_S.
  intros [Hev|Hev]%elem_of_app; [|by apply IH].
  apply list_elem_of_In in Hev. cbn [In] in Hev.
  destruct Hev as [<-|[<-|[]]]; [by left | by right].
Qed.

(** Among the effects of [grpcModel] no backend is stopped, and the
    load-model calls carry the options of the caller, with the model name
    and file. *)
Lemma grpcModel_load_events sys backend o modelName modelFile st :
  ∃ new,
    trace (grpcModel sys backend o modelName modelFile st).2
    = trace st ++ new
    ∧ (∀ kept, EvStopGRPC kept ∉ new)
    ∧ (∀ c mo, EvLoadModel c mo ∈ new →
               mo = loadOptions o modelName modelFile).
Proof.
  destruct (grpcModel_run sys backend o modelName modelFile st)
    as (starts & rest & Htr & Hone & _ & _ & Hres).
  exists (starts ++ rest). split; [done|].
  assert (∀ ev, ev ∈ starts → ∃ p m a args, ev = EvStartProcess p m a args)
    as Hstarts.
  { intros ev Hev. destruct Hone as [->|(p & a & args & ->)].
    - by apply elem_of_nil in Hev.
    - apply list_elem_of_singleton in Hev. eauto. }
  assert (∀ ev, ev ∈ rest →
            (∃ c, ev = EvHealthCheck c) ∨ (∃ d, ev = EvSleep d)
            ∨ ev = EvDeleteProcess (model o)
            ∨ ∃ c, ev = EvLoadModel c (loadOptions o modelName modelFile))
    as Hrest.
  { assert (∀ c d n tail ev,
              (∀ ev, ev ∈ tail →
                 (∃ c, ev = EvHealthCheck c) ∨ (∃ d, ev = EvSleep d)
                 ∨ ev = EvDeleteProcess (model o)
                 ∨ ∃ c, ev = EvLoadModel c
                               (loadOptions o modelName modelFile)) →
              ev ∈ readinessTrace c d n ++ tail →
              (∃ c, ev = EvHealthCheck c) ∨ (∃ d, ev = EvSleep d)
              ∨ ev = EvDeleteProcess (model o)
              ∨ ∃ c, ev = EvLoadModel c (loadOptions o modelName modelFile))
      as Hshape.
    { intros c d n tail ev Htail [Hev|Hev]%elem_of_app; [|by apply Htail].
      apply readinessTrace_elem in Hev as [->| ->]; eauto. }
    intros ev Hev.
    destruct (grpcModel sys backend o modelName modelFile st).1 as [e|h].
    - destruct Hres as [[-> _]|(_ & h & [->|(n & _ & ->)])].
      + by apply elem_of_nil in Hev.
      + eapply Hshape; [|done]. intros ev' Hev'.
        apply list_elem_of_In in Hev'. cbn in Hev'.
        destruct Hev' as [<-|[]]. eauto.
      + eapply Hshape; [|done]. intros ev' Hev'.
        apply list_elem_of_In in Hev'. cbn in Hev'.
        destruct Hev' as [<-|[<-|[<-|[]]]]; eauto 6.
    - destruct Hres as (_ & _ & n & _ & ->).
      eapply Hshape; [|done]. intros ev' Hev'.
      apply list_elem_of_In in Hev'. cbn in Hev'.
      destruct Hev' as [<-|[<-|[]]]; eauto 6. }
  split.
  - intros kept [Hin|Hin]%elem_of_app.
    + by apply Hstarts in Hin as (? & ? & ? & ? & ?).
    + apply Hrest in Hin as [(? & ?)|[(? & ?)|[?|(? & ?)]]]; done.
  - intros c mo [Hin|Hin]%elem_of_app.
    + by apply Hstarts in Hin as (? & ? & ? & ? & ?).
    + apply Hrest in Hin as [(? & ?)|[(? & ?)|[?|(? & ?)]]];
        by simplify_eq.
Qed.

(** The effects of [LoadModel] are those of the loader it is given. *)
Lemma LoadModel_trace sys modelName loader st :
  trace (LoadModel sys modelName loader st).2 = trace st
  ∨ trace (LoadModel sys modelName loader st).2
    = trace (loader modelName (filepath.Join [ModelPath sys; modelName])
                    st).2.
Proof.
  unfold LoadModel. destruct (CheckIsLoaded st modelName); [by left|].
  right. by destruct (loader _ _ st) as [[e|m] st1].
Qed.

(** [BackendLoader] stops the other backends first, once, and only when
    one backend alone may be active. For piper, whatever the case of the
    letters in the requested name, the library search path of the
    options is set to the espeak-ng data of the asset directory: the
    options the caller shares carry it afterwards, and so does every
    load-model call; for any other backend the options are left as they
    are and the calls carry the path of the caller. *)
Theorem BackendLoader_effects (sys : Sys) (opts : list Option_) (st : State) :
  ∃ new,
    trace (BackendLoader sys opts st).2
    = trace st
      ++ (if singleActiveBackend (NewOptions sys opts)
          then [EvStopGRPC (model (NewOptions sys opts))] else [])
      ++ new
    ∧ (∀ kept, EvStopGRPC kept ∉ new)
    ∧ (∀ c mo, EvLoadModel c mo ∈ new →
         LibrarySearchPath mo
         = LibrarySearchPath (loadedOptions (BackendLoader sys opts st).1))
    ∧ loadedOptions (BackendLoader sys opts st).1
      = if String.eqb (resolveBackend sys
                         (backendString (NewOptions sys opts)))
                      PiperBackend
        then {| F16Memory := F16Memory (gRPCOptions (NewOptions sys opts));
                LibrarySearchPath :=
                  filepath.Join [assetDir (NewOptions sys opts);
                                 "backend-assets"; "espeak-ng-data"];
                Model := Model (gRPCOptions (NewOptions sys opts));
                ModelFile := ModelFile (gRPCOptions (NewOptions sys opts)) |}
        else gRPCOptions (NewOptions sys opts).
Proof.
  unfold BackendLoader.
  set (o := NewOptions sys opts).
  set (st0 := if singleActiveBackend o
              then (StopGRPC_allExcept sys (model o) st).2 else st).
  set (o' := if String.eqb (resolveBackend sys (backendString o))
                           PiperBackend
             then setLibrarySearchPath
                    (filepath.Join [assetDir o; "backend-assets";
                                    "espeak-ng-data"]) o
             else o).
  set (b := if String.eqb (resolveBackend sys (backendString o)) PiperBackend
            then PiperBackend else resolveBackend sys (backendString o)).
  assert (trace st0
          = trace st ++ (if singleActiveBackend o
                         then [EvStopGRPC (model o)] else [])) as Hst0.
  { unfold st0. destruct (singleActiveBackend o); [done|].
    by rewrite app_nil_r. }
  assert (loadedOptions
            (let (s, st1) := LoadModel sys (model o') (grpcModel sys b o') st0 in
             match s with
             | inl err =>
                 ({| loadedClient := None; loadedErr := Some err;
                     loadedOptions := gRPCOptions o' |}, st1)
             | inr m =>
                 ({| loadedClient := Some (GRPC m (parallelRequests o'));
                     loadedErr := None; loadedOptions := gRPCOptions o' |},
                  st1)
             end).1 = gRPCOptions o') as Hopts.
  { by destruct (LoadModel _ _ _ _) as [[e|m] st1]. }
  assert (trace
            (let (s, st1) := LoadModel sys (model o') (grpcModel sys b o') st0 in
             match s with
             | inl err =>
                 ({| loadedClient := None; loadedErr := Some err;
                     loadedOptions := gRPCOptions o' |}, st1)
             | inr m =>
                 ({| loadedClient := Some (GRPC m (parallelRequests o'));
                     loadedErr := None; loadedOptions := gRPCOptions o' |},
                  st1)
             end).2
          = trace (LoadModel sys (model o') (grpcModel sys b o') st0).2)
    as Htr.
  { by destruct (LoadModel _ _ _ _) as [[e|m] st1]. }
  rewrite Hopts, Htr.
  destruct (grpcModel_load_events sys b o' (model o')
              (filepath.Join [ModelPath sys; model o']) st0)
    as (new & Hnew & Hstop & Hload).
  assert (∃ new',
            trace (LoadModel sys (model o') (grpcModel sys b o') st0).2
            = trace st0 ++ new'
            ∧ (∀ kept, EvStopGRPC kept ∉ new')
            ∧ (∀ c mo, EvLoadModel c mo ∈ new' →
                       LibrarySearchPath mo
                       = LibrarySearchPath (gRPCOptions o')))
    as (new' & Hnew' & Hstop' & Hload').
  { destruct (LoadModel_trace sys (model o') (grpcModel sys b o') st0)
      as [->| ->].
    - exists []. rewrite app_nil_r. split_and!; [done | |].
      + intros kept []%elem_of_nil.
      + intros c mo []%elem_of_nil.
    - exists new. split_and!; [done | done |].
      intros c mo Hin. by rewrite (Hload c mo Hin). }
  exists new'. rewrite Hnew', Hst0, <- app_assoc.
  split_and!; [done | done | done |].
  unfold o'. by destruct (String.eqb _ PiperBackend).
Qed.

(** A backend directory that cannot be read ends [GreedyLoader] with the
    error of [os.ReadDir] as it is, not with the error that names the
    candidates: no candidate is tried, the external ones neither, and
    nothing is started. The other backends have been stopped by then when
    one backend alone may be active. [ListAvailableBackends] returns the
    same error. *)
Theorem GreedyLoader_unreadable_directory (sys : Sys) (opts : list Option_)
    (st : State) (err : error) :
  CheckIsLoaded st (model (NewOptions sys opts)) = None →
  ReadDir sys (backendPath (assetDir (NewOptions sys opts)) "") = inl err →
  (GreedyLoader sys opts st).1 = Return None (Some err)
  ∧ trace (GreedyLoader sys opts st).2
    = trace st
      ++ (if singleActiveBackend (NewOptions sys opts)
          then [EvStopGRPC (model (NewOptions sys opts))] else [])
  ∧ ListAvailableBackends sys (assetDir (NewOptions sys opts)) = inl err.
Proof.
  intros Hloaded Hdir.
  unfold GreedyLoader, ListAvailableBackends, backendsInAssetDir.
  rewrite Hloaded, Hdir. split_and!; [done | | done].
  destruct (singleActiveBackend _); [done|]. by rewrite app_nil_r.
Qed.

Lemma GreedyLoader_unreadable_directory_witness :
  (GreedyLoader
     {| autoDetect := true; ModelPath := "/models";
        ReadDir := λ _, inl (errorString "open /opt/backend-assets/grpc: permission denied");
        Stat := λ _, StatNotExist; GPUs := inr [];
        HasCPUCaps := λ _, false;
        rangeBackends := map_to_list; rangeExternal := map_to_list;
        GetFreePort := λ _, inr 50000%Z; VerifyPath := λ _ _, None;
        LoadLDSO := λ _ args p, (args, p);
        startProcessResult := λ _ _, None;
        HealthCheck := λ _ _, (true, None);
        LoadModelRPC := λ _ _ _, inr (true, "");
        stopResult := λ _ _, None; MapToLower := λ s, s;
        defaultOptions :=
          defaultOptions (sampleSys true [] [] [] false false healthy) |}
     [WithModel "base.bin"; WithAssetDir "/opt";
      WithExternalBackend "remote" "10.0.0.7:9000"]
     emptyState).1
  = Return None
      (Some (errorString "open /opt/backend-assets/grpc: permission denied")).
Proof.
  eapply (GreedyLoader_unreadable_directory
            {| autoDetect := true; ModelPath := "/models";
               ReadDir := λ _, inl (errorString "open /opt/backend-assets/grpc: permission denied");
               Stat := λ _, StatNotExist; GPUs := inr [];
               HasCPUCaps := λ _, false;
               rangeBackends := map_to_list; rangeExternal := map_to_list;
               GetFreePort := λ _, inr 50000%Z; VerifyPath := λ _ _, None;
               LoadLDSO := λ _ args p, (args, p);
               startProcessResult := λ _ _, None;
               HealthCheck := λ _ _, (true, None);
               LoadModelRPC := λ _ _ _, inr (true, "");
               stopResult := λ _ _, None; MapToLower := λ s, s;
               defaultOptions :=
                 defaultOptions (sampleSys true [] [] [] false false healthy) |}
            [WithModel "base.bin"; WithAssetDir "/opt";
             WithExternalBackend "remote" "10.0.0.7:9000"]
            emptyState).
  - reflexivity.
  - reflexivity.
Defined.

(** ** The name a backend is asked for by *)

(** A backend of the asset directory that was launched: the one process
    that was started is the executable its name resolves to. *)
Lemma launch_started sys backend o modelName st client st1 :
  externalBackends o !! backend = None →
  launch sys backend o modelName st = (inr client, st1) →
  ∃ addr,
    trace st1
    = trace st
      ++ [EvStartProcess
            (LoadLDSO sys (assetDir o) []
                      (resolveProcess sys (environ st) backend o)).2
            (model o) addr
            (LoadLDSO sys (assetDir o) []
                      (resolveProcess sys (environ st) backend o)).1].
Proof.
  intros Hext. unfold launch. rewrite Hext.
  destruct (VerifyPath sys _ _); [done|].
  unfold mbind, M_bind, get, throw, mret, M_ret, getFreeAddress, startProcess.
  destruct (isNotExist _); [done|].
  destruct (GetFreePort sys (trace st)) as [err|port]; [done|].
  destruct (LoadLDSO sys (assetDir o) []
              (resolveProcess sys (environ st) backend o)) as [args p].
  destruct (startProcessResult sys _ _); [done|].
  intros [= <- <-]. cbn. eauto.
Qed.

Lemma resolveBackend_fixed sys s :
  strings.isASCII s = true
  ∨ is_Some (Aliases !! strings.ToLower (MapToLower sys) s) →
  resolveBackend sys (resolveBackend sys s) = resolveBackend sys s.
Proof.
  intros Hs.
  assert (Aliases !! resolveBackend sys s = None
          ∧ strings.ToLower (MapToLower sys) (resolveBackend sys s)
            = resolveBackend sys s) as [Hnone Hlow].
  { unfold resolveBackend.
    destruct (Aliases !! strings.ToLower (MapToLower sys) s) as [v|] eqn:Hv.
    - apply Aliases_target, list_elem_of_In in Hv. cbn in Hv.
      destruct Hv as [<-|[<-|[<-|[]]]]; by vm_compute.
    - destruct Hs as [Hs|[? [=]]].
      split; [done|]. by apply ToLower_idemp. }
  unfold resolveBackend at 1. by rewrite Hlow, Hnone.
Qed.

(** What [BackendLoader] does for a model that is not registered: it runs
    [grpcModel] with the resolved name. *)
Lemma BackendLoader_runs_resolved sys opts st :
  let o := NewOptions sys opts in
  let b := resolveBackend sys (backendString o) in
  let st0 := if singleActiveBackend o
             then (StopGRPC_allExcept sys (model o) st).2 else st in
  let o' := if String.eqb b PiperBackend
            then setLibrarySearchPath
                   (filepath.Join [assetDir o; "backend-assets";
                                   "espeak-ng-data"]) o
            else o in
  CheckIsLoaded st0 (model o) = None →
  BackendLoader sys opts st
  = match grpcModel sys b o' (model o)
                    (filepath.Join [ModelPath sys; model o]) st0 with
    | (inl err, st1) =>
        ({| loadedClient := None; loadedErr := Some err;
            loadedOptions := gRPCOptions o' |}, st1)
    | (inr m, st1) =>
        ({| loadedClient := Some (GRPC m (parallelRequests o));
            loadedErr := None; loadedOptions := gRPCOptions o' |},
         setModels (<[model o := m]> (models st1)) st1)
    end.
Proof.
  intros o b st0 o' Hloaded. unfold BackendLoader. fold o. fold b. fold st0.
  fold o'.
  assert (model o' = model o ∧ parallelRequests o' = parallelRequests o)
    as [Hm Hp] by (unfold o'; by destruct (String.eqb b PiperBackend)).
  assert ((if String.eqb b PiperBackend then PiperBackend else b) = b) as ->.
  { destruct (String.eqb_spec b PiperBackend); done. }
  unfold LoadModel. rewrite Hm, Hp, Hloaded.
  by destruct (grpcModel sys b o' (model o) _ st0) as [[err|m] st1].
Qed.

(** C10. [BackendLoader] works with the requested name in lower case and
    with its aliases resolved: go-llama and llama stand for llama-cpp,
    embedded-store for local-store, langchain-huggingface for huggingface.
    The backend that is loaded is the one of the resolved name: for a model
    that is not registered the call is the run of [grpcModel] with that
    name, and when a backend of the asset directory is launched the one
    process that is started is the executable the resolved name stands
    for. So two requested names with the same lower case, or that resolve
    to one backend as two aliases do, give the same result and the same
    state; and so does a name of ASCII bytes and the name it resolves to. *)
Theorem BackendLoader_normalizes (sys : Sys) (opts : list Option_)
    (st : State) (s1 s2 : string) :
  let o := NewOptions sys (opts ++ [WithBackendString s1]) in
  let b := resolveBackend sys s1 in
  let st0 := if singleActiveBackend o
             then (StopGRPC_allExcept sys (model o) st).2 else st in
  let o' := if String.eqb b PiperBackend
            then setLibrarySearchPath
                   (filepath.Join [assetDir o; "backend-assets";
                                   "espeak-ng-data"]) o
            else o in
  b = default (strings.ToLower (MapToLower sys) s1)
              (Aliases !! strings.ToLower (MapToLower sys) s1)
  ∧ (CheckIsLoaded st0 (model o) = None →
     BackendLoader sys (opts ++ [WithBackendString s1]) st
     = match grpcModel sys b o' (model o)
                       (filepath.Join [ModelPath sys; model o]) st0 with
       | (inl err, st1) =>
           ({| loadedClient := None; loadedErr := Some err;
               loadedOptions := gRPCOptions o' |}, st1)
       | (inr m, st1) =>
           ({| loadedClient := Some (GRPC m (parallelRequests o));
               loadedErr := None; loadedOptions := gRPCOptions o' |},
            setModels (<[model o := m]> (models st1)) st1)
       end)
  ∧ (CheckIsLoaded st0 (model o) = None →
     externalBackends o !! b = None →
     ∀ client st1,
       launch sys b o' (model o) (setCacheEnv sys st0) = (inr client, st1) →
       startedPaths
         (trace (BackendLoader sys (opts ++ [WithBackendString s1]) st).2)
       = startedPaths (trace st)
         ++ [(LoadLDSO sys (assetDir o) []
                (resolveProcess sys (environ (setCacheEnv sys st0)) b o')).2])
  ∧ (strings.ToLower (MapToLower sys) s1
     = strings.ToLower (MapToLower sys) s2 →
     BackendLoader sys (opts ++ [WithBackendString s1]) st
     = BackendLoader sys (opts ++ [WithBackendString s2]) st)
  ∧ (resolveBackend sys s1 = resolveBackend sys s2 →
     BackendLoader sys (opts ++ [WithBackendString s1]) st
     = BackendLoader sys (opts ++ [WithBackendString s2]) st)
  ∧ (strings.isASCII s1 = true →
     strings.ToLower (MapToLower sys) s1 = strings.lowerASCII s1
     ∧ BackendLoader sys (opts ++ [WithBackendString s1]) st
       = BackendLoader sys (opts ++ [WithBackendString b]) st)
  ∧ resolveBackend sys "go-llama" = LLamaCPP
  ∧ resolveBackend sys "llama" = LLamaCPP
  ∧ resolveBackend sys "embedded-store" = LocalStoreBackend
  ∧ resolveBackend sys "langchain-huggingface" = LCHuggingFaceBackend
  ∧ resolveBackend sys LLamaCPP = LLamaCPP
  ∧ resolveBackend sys LocalStoreBackend = LocalStoreBackend
  ∧ resolveBackend sys LCHuggingFaceBackend = LCHuggingFaceBackend.
Proof.
  intros o b st0 o'.
  assert (backendString o = s1) as Hs1
    by (unfold o; by rewrite NewOptions_snoc).
  assert (CheckIsLoaded st0 (model o) = None →
          BackendLoader sys (opts ++ [WithBackendString s1]) st
          = match grpcModel sys b o' (model o)
                            (filepath.Join [ModelPath sys; model o]) st0 with
            | (inl err, st1) =>
                ({| loadedClient := None; loadedErr := Some err;
                    loadedOptions := gRPCOptions o' |}, st1)
            | (inr m, st1) =>
                ({| loadedClient := Some (GRPC m (parallelRequests o));
                    loadedErr := None; loadedOptions := gRPCOptions o' |},
                 setModels (<[model o := m]> (models st1)) st1)
            end) as Hrun.
  { intros Hloaded.
    pose proof (BackendLoader_runs_resolved sys
                  (opts ++ [WithBackendString s1]) st) as H.
    cbn zeta in H. fold o in H. rewrite Hs1 in H. by apply H. }
  split; [|split; [|split; [|split; [|split; [|split]]]]].
  - unfold b, resolveBackend.
    by destruct (Aliases !! strings.ToLower (MapToLower sys) s1).
  - exact Hrun.
  - intros Hloaded Hext client st1 Hlaunch. rewrite (Hrun Hloaded).
    destruct (grpcModel_rest sys b o' (model o)
                (filepath.Join [ModelPath sys; model o]) st0)
      as (starts & rest & Htr & Hl & _ & Hrest & _).
    assert (externalBackends o' !! b = None ∧ assetDir o' = assetDir o
            ∧ model o' = model o) as (Hext' & Ha & Hm).
    { unfold o'. by destruct (String.eqb b PiperBackend). }
    rewrite Hlaunch in Hl. cbn [snd] in Hl.
    destruct (launch_started _ _ _ _ _ _ _ Hext' Hlaunch) as (addr & Hst1).
    destruct (setCacheEnv_trace sys st0) as [Hct _].
    rewrite Hct, Hl in Hst1. apply app_inv_head in Hst1. rewrite Ha in Hst1.
    assert (startedPaths (trace st0) = startedPaths (trace st)) as Hst0.
    { unfold st0. destruct (singleActiveBackend o); [|done].
      cbn. rewrite startedPaths_app. cbn. by rewrite app_nil_r. }
    assert (trace
              (let (s, st2) := grpcModel sys b o' (model o)
                                 (filepath.Join [ModelPath sys; model o]) st0
               in match s with
                  | inl err =>
                      ({| loadedClient := None; loadedErr := Some err;
                          loadedOptions := gRPCOptions o' |}, st2)
                  | inr m =>
                      ({| loadedClient := Some (GRPC m (parallelRequests o));
                          loadedErr := None;
                          loadedOptions := gRPCOptions o' |},
                       setModels (<[model o := m]> (models st2)) st2)
                  end).2
            = trace (grpcModel sys b o' (model o)
                       (filepath.Join [ModelPath sys; model o]) st0).2) as ->.
    { by destruct (grpcModel _ _ _ _ _ _) as [[?|?] ?]. }
    rewrite Htr, !startedPaths_app, (startedPaths_afterLaunch _ _ Hrest),
      app_nil_r, Hst0, Hst1. done.
  - intros Hlow. apply BackendLoader_resolved. unfold resolveBackend.
    by rewrite Hlow.
  - apply BackendLoader_resolved.
  - intros Hascii. split.
    + unfold strings.ToLower. by rewrite Hascii.
    + apply BackendLoader_resolved. symmetry.
      by apply (resolveBackend_fixed sys s1); left.
  - repeat split; vm_compute; reflexivity.
Qed.

Lemma BackendLoader_normalizes_witness :
  BackendLoader
    (sampleSys false [] ["/opt/backend-assets/grpc/llama-cpp"] [] false false
               healthy)
    ([WithModel "m.gguf"; WithAssetDir "/opt"; WithGRPCAttempts 3]
     ++ [WithBackendString "Go-LLaMA"]) emptyState
  = BackendLoader
      (sampleSys false [] ["/opt/backend-assets/grpc/llama-cpp"] [] false
                 false healthy)
      ([WithModel "m.gguf"; WithAssetDir "/opt"; WithGRPCAttempts 3]
       ++ [WithBackendString "llama"]) emptyState
  ∧ startedPaths
      (trace (BackendLoader
                (sampleSys false [] ["/opt/backend-assets/grpc/llama-cpp"] []
                           false false healthy)
                ([WithModel "m.gguf"; WithAssetDir "/opt";
                  WithGRPCAttempts 3]
                 ++ [WithBackendString "Go-LLaMA"]) emptyState).2)
    = ["/opt/backend-assets/grpc/llama-cpp"].
Proof.
  destruct (BackendLoader_normalizes
              (sampleSys false [] ["/opt/backend-assets/grpc/llama-cpp"] []
                         false false healthy)
              [WithModel "m.gguf"; WithAssetDir "/opt"; WithGRPCAttempts 3]
              emptyState "Go-LLaMA" "llama")
    as (_ & _ & Hstart & _ & Hres & _).
  split.
  - apply Hres. reflexivity.
  - eapply eq_trans; [eapply Hstart|]; [reflexivity | reflexivity | | ].
    + vm_compute. reflexivity.
    + vm_compute. reflexivity.
Defined.

(** ** The candidate list, in terms of the directory *)

(** The keys of the map of the discovered backends, said on the directory
    entries. *)
Lemma discoverBackends_entries ad entry k :
  is_Some (discoverBackends ad entry !! k)
  ↔ (∃ e, e ∈ entry ∧ Name e = k ∧ listed ad e = true)
    ∨ (ad = true ∧ k = LLamaCPP
       ∧ ∃ e v, e ∈ entry ∧ v ∈ variantTests
                ∧ strings.Contains (Name e) v = true).
Proof.
  destruct ad.
  - destruct (decide (k = LLamaCPP)) as [->|Hne].
    + rewrite discoverBackends_llama. split; [by right|].
      intros [(e & He & Hn & Hl)|(_ & _ & H)]; [|done].
      exfalso. unfold listed in Hl. rewrite Hn in Hl. by skipped_variant Hl.
    + unfold discoverBackends.
      assert (foldl (scanEntry true) ∅ entry !! LLamaCPP = None) as ->
        by (apply foldl_scanEntry_no_LLamaCPP, lookup_empty).
      rewrite foldl_scanVariants_lookup by done. cbn [fst].
      rewrite foldl_scanEntry_is_Some, lookup_empty. split.
      * intros [[? [=]]|H]; by left.
      * intros [H|(_ & ? & _)]; [by right | done].
  - unfold discoverBackends.
    rewrite foldl_scanEntry_is_Some, lookup_empty. split.
    + intros [[? [=]]|H]; by left.
    + intros [H|([=] & _)]. by right.
Qed.

(** An entry that is a directory or a log file is skipped by the first
    loop. *)
Lemma listed_file ad e :
  listed ad e = true →
  IsDir e = false ∧ strings.HasSuffix (Name e) ".log" = false.
Proof.
  unfold listed. destruct (IsDir e), (strings.HasSuffix (Name e) ".log");
    rewrite ?andb_false_r; cbn; by rewrite ?andb_false_r.
Qed.

(** C1. What the candidate list is for a backend directory without any
    backend file, every entry being a sub-directory or a log file: with
    auto-detection, as soon as the name of one of these entries holds the
    name of a llama.cpp variant, the list is llama-cpp alone; otherwise it
    is empty. The first loop skips directories and log files; the second
    loop, which folds the variants into llama-cpp, looks at every entry
    again and does not. So llama-cpp is a candidate where no backend file
    was discovered. *)
Theorem backendsInAssetDir_without_backend_file (sys : Sys)
    (assetDir : string) (entry : list DirEntry) :
  ReadDir sys (backendPath assetDir "") = inr entry →
  rangeBackends sys (discoverBackends (autoDetect sys) entry)
    ≡ₚ map_to_list (discoverBackends (autoDetect sys) entry) →
  (∀ e, e ∈ entry →
        IsDir e = true ∨ strings.HasSuffix (Name e) ".log" = true) →
  (∀ e, e ∈ entry → listed (autoDetect sys) e = false)
  ∧ backendsInAssetDir sys assetDir
    = inr (if autoDetect sys
              && existsb (λ e, existsb (strings.Contains (Name e))
                                       variantTests) entry
           then [LLamaCPP] else []).
Proof.
  intros Hdir Hperm Hnofile.
  assert (∀ e, e ∈ entry → listed (autoDetect sys) e = false) as Hnl.
  { intros e He. destruct (listed (autoDetect sys) e) eqn:Hl; [|done].
    apply listed_file in Hl as [Hd Hlog].
    destruct (Hnofile e He); congruence. }
  split; [done|].
  unfold backendsInAssetDir. rewrite Hdir. f_equal.
  set (backends := discoverBackends (autoDetect sys) entry) in *.
  destruct (orderBackends_shape _ _ Hperm) as (mid & Heq & _ & Hin & Hmid).
  assert (∀ k, is_Some (backends !! k)
               ↔ autoDetect sys
                 && existsb (λ e, existsb (strings.Contains (Name e))
                                          variantTests) entry = true
                 ∧ k = LLamaCPP) as Hkeys.
  { intros k. unfold backends. rewrite discoverBackends_entries.
    rewrite andb_true_iff, existsb_exists. split.
    - intros [(e & He & _ & Hl)|(Had & -> & e & v & He & Hv & Hc)].
      + rewrite (Hnl e He) in Hl. done.
      + split; [|done]. split; [done|]. exists e.
        split; [by apply list_elem_of_In|].
        apply existsb_exists. exists v. split; [by apply list_elem_of_In|done].
    - intros [[Had (e & He & Hex)] ->]. right. split_and!; [done..|].
      apply existsb_exists in Hex as (v & Hv & Hc).
      exists e, v. split_and!; [by apply list_elem_of_In.. | done]. }
  assert (mid = []) as ->.
  { destruct mid as [|k mid]; [done|]. exfalso.
    destruct (Hmid k) as [Hnp _]; [by left|].
    assert (k ∈ orderBackends (rangeBackends sys backends) backends) as Hk.
    { rewrite Heq, !elem_of_app. right; left. by left. }
    apply Hin, Hkeys in Hk as [_ ->]. apply Hnp. by left. }
  rewrite Heq, app_nil_l.
  destruct (autoDetect sys
            && existsb (λ e, existsb (strings.Contains (Name e))
                                     variantTests) entry) eqn:Hb.
  - assert (filter (λ k, is_Some (backends !! k)) priorityList = [LLamaCPP])
      as ->.
    { unfold priorityList.
      rewrite filter_cons_True by (apply Hkeys; done).
      rewrite filter_cons_False by (rewrite Hkeys; by intros [_ [=]]).
      rewrite filter_cons_False by (rewrite Hkeys; by intros [_ [=]]).
      done. }
    assert (filter (λ k, is_Some (backends !! k)) toTheEnd = []) as ->; [|done].
    unfold toTheEnd.
    rewrite filter_cons_False by (rewrite Hkeys; by intros [_ [=]]).
    rewrite filter_cons_False by (rewrite Hkeys; by intros [_ [=]]).
    done.
  - assert (∀ l, filter (λ k, is_Some (backends !! k)) l = []) as Hnil.
    { intros l. induction l as [|x l IH]; [done|].
      rewrite filter_cons_False; [done|]. rewrite Hkeys. by intros [[=] _]. }
    by rewrite !Hnil.
Qed.

Lemma backendsInAssetDir_without_backend_file_witness :
  backendsInAssetDir
    (sampleSys true [{| Name := "llama-cpp-cuda"; IsDir := true |}]
               [] [] false false healthy) "/opt"
  = inr ["llama-cpp"]
  ∧ backendsInAssetDir
      (sampleSys true [file "llama-cpp-avx2.log"] [] [] false false healthy)
      "/opt"
    = inr ["llama-cpp"].
Proof.
  split.
  - apply (backendsInAssetDir_without_backend_file
             (sampleSys true [{| Name := "llama-cpp-cuda"; IsDir := true |}]
                        [] [] false false healthy) "/opt"
             [{| Name := "llama-cpp-cuda"; IsDir := true |}]).
    + reflexivity.
    + reflexivity.
    + intros e He. apply list_elem_of_In in He. cbn in He.
      destruct He as [<-|[]]. left. reflexivity.
  - apply (backendsInAssetDir_without_backend_file
             (sampleSys true [file "llama-cpp-avx2.log"] [] [] false false
                        healthy) "/opt"
             [file "llama-cpp-avx2.log"]).
    + reflexivity.
    + reflexivity.
    + intros e He. apply list_elem_of_In in He. cbn in He.
      destruct He as [<-|[]]. right. reflexivity.
Defined.

(** For every content of the asset directory, and whatever the order in
    which Go visits the map of the discovered backends, the candidate list
    of [backendsInAssetDir] has no name twice. Its names are those of the
    entries that are neither local-store, nor a directory, nor a log file,
    nor, with auto-detection, a llama.cpp variant other than the fallback;
    and, with auto-detection, llama-cpp as soon as the name of any entry
    holds the name of a variant. The names of the priority list come
    first, in the order llama-cpp, llama-ggml, llama-cpp-fallback; the
    deferred names come last, huggingface before bert-embeddings; the names
    between are in neither list; and local-store is never a candidate. *)
Theorem backendsInAssetDir_order (sys : Sys) (assetDir : string)
    (entry : list DirEntry) :
  ReadDir sys (backendPath assetDir "") = inr entry →
  rangeBackends sys (discoverBackends (autoDetect sys) entry)
    ≡ₚ map_to_list (discoverBackends (autoDetect sys) entry) →
  ∃ candidates mid,
    backendsInAssetDir sys assetDir = inr candidates
    ∧ NoDup candidates
    ∧ (∀ k, k ∈ candidates
            ↔ (∃ e, e ∈ entry ∧ Name e = k
                    ∧ listed (autoDetect sys) e = true)
              ∨ (autoDetect sys = true ∧ k = LLamaCPP
                 ∧ ∃ e v, e ∈ entry ∧ v ∈ variantTests
                          ∧ strings.Contains (Name e) v = true))
    ∧ (LocalStoreBackend ∉ candidates)
    ∧ candidates
      = filter (λ k, k ∈ candidates) priorityList
        ++ mid ++ filter (λ k, k ∈ candidates) toTheEnd
    ∧ (∀ k, k ∈ mid → (k ∉ priorityList) ∧ (k ∉ toTheEnd)).
Proof.
  intros Hdir Hperm. unfold backendsInAssetDir. rewrite Hdir.
  set (backends := discoverBackends (autoDetect sys) entry) in *.
  destruct (orderBackends_shape _ _ Hperm) as (mid & Heq & Hnd & Hin & Hmid).
  exists (orderBackends (rangeBackends sys backends) backends), mid.
  split_and!; [done | done | | | | done].
  - intros k. rewrite Hin. apply discoverBackends_entries.
  - rewrite Hin. intros Hsome. unfold backends in Hsome.
    rewrite (discoverBackends_excluded _ _ LocalStoreBackend) in Hsome.
    + by destruct Hsome.
    + unfold excludeBackends. by left.
  - rewrite Heq at 1. f_equal; [|f_equal];
      apply list_filter_iff; intros k; by rewrite Hin.
Qed.

Lemma backendsInAssetDir_order_witness :
  ∃ candidates mid,
    backendsInAssetDir
      (sampleSys false
         [file "bert-embeddings"; file "huggingface"; file "llama-cpp";
          file "local-store"; file "piper"; file "whisper"]
         [] [] false false healthy) "/usr/share/local-ai"
    = inr candidates
    ∧ candidates
      = ["llama-cpp"; "whisper"; "piper"; "huggingface"; "bert-embeddings"]
    ∧ NoDup candidates
    ∧ (LocalStoreBackend ∉ candidates)
    ∧ candidates
      = filter (λ k, k ∈ candidates) priorityList
        ++ mid ++ filter (λ k, k ∈ candidates) toTheEnd.
Proof.
  destruct (backendsInAssetDir_order
              (sampleSys false
                 [file "bert-embeddings"; file "huggingface";
                  file "llama-cpp"; file "local-store"; file "piper";
                  file "whisper"]
                 [] [] false false healthy) "/usr/share/local-ai"
              [file "bert-embeddings"; file "huggingface"; file "llama-cpp";
               file "local-store"; file "piper"; file "whisper"])
    as (candidates & mid & Hc & Hnd & _ & Hls & Heq & _).
  - reflexivity.
  - reflexivity.
  - exists candidates, mid. split_and!; [exact Hc | | exact Hnd | exact Hls
                                         | exact Heq].
    assert (inr candidates
            = (inr ["llama-cpp"; "whisper"; "piper"; "huggingface";
                    "bert-embeddings"] : error + list string)) as [= ->].
    { rewrite <- Hc. vm_compute. reflexivity. }
    reflexivity.
Defined.

(** ** The start *)

Lemma phaseSpec_ret {A} (x : A) P Q (V : A → Prop) :
  V x → phaseSpec (mret x) P Q V.
Proof.
  intros Hx r. exists []. cbn. rewrite app_nil_r.
  split_and!; [done | constructor | done |]. by intros a [= <-].
Qed.

Lemma phaseSpec_step s (P : Step → Prop) Q (V : unit → Prop) :
  P s → V tt → phaseSpec (step s) P Q V.
Proof.
  intros Hs Hv r. exists [s]. cbn.
  split_and!; [done | by constructor | done |]. by intros [] _.
Qed.

Lemma phaseSpec_returns {A} out P (Q : StartupOutcome → Prop)
    (V : A → Prop) :
  Q out → phaseSpec (returns out) P Q V.
Proof.
  intros Hq r. exists []. cbn. rewrite app_nil_r.
  split_and!; [done | constructor | | done]. by intros ? [= <-].
Qed.

Lemma phaseSpec_bind {A B} (c : Starting A) (k : A → Starting B) P Q
    (V : A → Prop) (W : B → Prop) :
  phaseSpec c P Q V → (∀ a, V a → phaseSpec (k a) P Q W) →
  phaseSpec (c ≫= k) P Q W.
Proof.
  intros Hc Hk r. unfold mbind, Starting_bind.
  destruct (Hc r) as (new1 & Hs1 & Hp1 & Hq1 & Hv1).
  destruct (c r) as [[out|a] r1]; cbn [fst snd] in *.
  - exists new1. split_and!; [done | done | | done].
    intros out' [= <-]. by apply Hq1.
  - destruct (Hk a (Hv1 a eq_refl) r1) as (new2 & Hs2 & Hp2 & Hq2 & Hv2).
    exists (new1 ++ new2). rewrite Hs2, Hs1, <- app_assoc.
    split_and!; [done | by apply Forall_app | done | done].
Qed.

Lemma phaseSpec_when b c P Q (V : unit → Prop) :
  (b = true → phaseSpec c P Q V) → (b = false → V tt) →
  phaseSpec (when b c) P Q V.
Proof.
  intros Ht Hf. destruct b; cbn; [by apply Ht|].
  apply phaseSpec_ret. by apply Hf.
Qed.

Lemma phaseSpec_weaken {A} (c : Starting A) (P P' : Step → Prop)
    (Q Q' : StartupOutcome → Prop) (V V' : A → Prop) :
  phaseSpec c P Q V → (∀ s, P s → P' s) → (∀ out, Q out → Q' out) →
  (∀ a, V a → V' a) → phaseSpec c P' Q' V'.
Proof.
  intros Hc Hp Hq Hv r. destruct (Hc r) as (new & Hs & HP & HQ & HV).
  exists new. split_and!; [done | | naive_solver..].
  eapply Forall_impl; [done|]. exact Hp.
Qed.

Lemma phaseSpec_history P Q :
  phaseSpec history P Q (λ _, True).
Proof.
  intros r. exists []. cbn. rewrite app_nil_r.
  split_and!; [done | constructor | done | done].
Qed.

(** *** The parts of the start *)

Lemma probeGPUs_spec h :
  phaseSpec (probeGPUs h) (λ s, s = StepGetNvidiaGpuInfo) (λ _, False)
            (λ _, True).
Proof.
  unfold probeGPUs. apply phaseSpec_when; [|done].
  intros _. by apply phaseSpec_step.
Qed.

Lemma mkdir_spec h what dir :
  phaseSpec (mkdir h what dir)
    (λ s, s = StepMkdirAll dir perm0750)
    (λ out, ∃ before err,
       MkdirAll h before dir = Some err
       ∧ out = StartupReturn false
                 (Some (errorString
                          ("unable to create " +:+ what +:+ ": "
                           +:+ Quote h (Error err)))))
    (λ _, True).
Proof.
  unfold mkdir.
  eapply phaseSpec_bind; [apply phaseSpec_history|]. intros before _.
  eapply (phaseSpec_bind _ _ _ _ (λ _, True)); [by apply phaseSpec_step|].
  intros _ _. destruct (MkdirAll h before dir) as [err|] eqn:Hmk.
  - apply phaseSpec_returns. eauto.
  - by apply phaseSpec_ret.
Qed.

Lemma startupDirectories_elem options what d :
  (what, d) ∈ startupDirectories options
  ↔ (what = "ModelPath" ∧ d = config.ModelPath options)
    ∨ d ≠ "" ∧ ((what = "ImageDir" ∧ d = config.ImageDir options)
                ∨ (what = "AudioDir" ∧ d = config.AudioDir options)
                ∨ (what = "UploadDir" ∧ d = config.UploadDir options)).
Proof.
  unfold startupDirectories.
  rewrite elem_of_cons, list_elem_of_filter, !elem_of_cons, elem_of_nil.
  cbn. split.
  - intros [[= -> ->]|[Hne [[= -> ->]|[[= -> ->]|[[= -> ->]|[]]]]]]; tauto.
  - intros [[-> ->]|[Hne [[-> ->]|[[-> ->]|[-> ->]]]]]; tauto.
Qed.

Lemma optional_mkdir_spec h options what dir :
  (what = "ImageDir" ∧ dir = config.ImageDir options)
  ∨ (what = "AudioDir" ∧ dir = config.AudioDir options)
  ∨ (what = "UploadDir" ∧ dir = config.UploadDir options) →
  phaseSpec (when (negb (String.eqb dir "")) (mkdir h what dir))
    (λ s, ∃ d, s = StepMkdirAll d perm0750)
    (earlyReturn h options)
    (λ _, True).
Proof.
  intros Hdir. apply phaseSpec_when; [|done].
  intros Hne%negb_true_iff%String.eqb_neq.
  eapply phaseSpec_weaken;
    [apply mkdir_spec | by intros s0 ->; eexists | | done].
  intros out (before & err & Hmk & ->). split; [done|]. right; left.
  exists what, dir, before, err. split_and!; [|done..].
  apply startupDirectories_elem. by right.
Qed.

Lemma makeDirectories_spec h options :
  phaseSpec (makeDirectories h options)
    (λ s, ∃ d, s = StepMkdirAll d perm0750)
    (earlyReturn h options)
    (λ _, config.ModelPath options ≠ "").
Proof.
  unfold makeDirectories.
  eapply (phaseSpec_bind _ _ _ _ (λ _, config.ModelPath options ≠ "")).
  { destruct (String.eqb_spec (config.ModelPath options) "").
    - apply phaseSpec_returns. split; [done|]. by left.
    - by apply phaseSpec_ret. }
  intros [] Hmp.
  eapply (phaseSpec_bind _ _ _ _ (λ _, True)).
  { eapply phaseSpec_weaken;
      [apply mkdir_spec | by intros s0 ->; eexists | | done].
    intros out (before & err & Hmk & ->). split; [done|]. right; left.
    exists "ModelPath", (config.ModelPath options), before, err.
    split_and!; [|done..]. apply startupDirectories_elem. by left. }
  intros [] _.
  eapply phaseSpec_bind; [apply optional_mkdir_spec; tauto|].
  intros [] _.
  eapply phaseSpec_bind; [apply optional_mkdir_spec; tauto|].
  intros [] _.
  eapply phaseSpec_weaken;
    [apply (optional_mkdir_spec h options "UploadDir"); tauto
    | done | done |].
  by intros [] _.
Qed.

Lemma applyGallery_spec s call :
  notWatch s →
  phaseSpec (applyGallery s call) notWatch
    (λ out, ∃ before err,
       call before = Some err ∧ out = StartupReturn false (Some err))
    (λ _, True).
Proof.
  intros Hs. unfold applyGallery.
  eapply phaseSpec_bind; [apply phaseSpec_history|]. intros before _.
  eapply (phaseSpec_bind _ _ _ _ (λ _, True)); [by apply phaseSpec_step|].
  intros _ _. destruct (call before) as [err|] eqn:Hcall.
  - apply phaseSpec_returns. eauto.
  - by apply phaseSpec_ret.
Qed.

Lemma loadConfigurations_spec h options :
  phaseSpec (loadConfigurations h options) notWatch (earlyReturn h options)
            (λ _, True).
Proof.
  unfold loadConfigurations.
  repeat (eapply (phaseSpec_bind _ _ _ _ (λ _, True));
          [first [ by apply phaseSpec_step
                 | apply phaseSpec_when; [intros _|done];
                   by apply phaseSpec_step
                 | idtac ]
          | intros _ _]).
  - apply phaseSpec_when; [intros _|done].
    eapply phaseSpec_weaken; [by apply applyGallery_spec | done | | done].
    intros out (before & err & Hres & ->). split; [done|].
    do 2 right. left. by exists before.
  - apply phaseSpec_when; [intros _|done].
    eapply phaseSpec_weaken; [by apply applyGallery_spec | done | | done].
    intros out (before & err & Hres & ->). split; [done|].
    do 3 right. left. by exists before.
Qed.

Lemma prepareBackends_spec options :
  phaseSpec (prepareBackends options) notWatch (λ _, False) (λ _, True).
Proof.
  unfold prepareBackends.
  repeat (eapply (phaseSpec_bind _ _ _ _ (λ _, True));
          [first [ by apply phaseSpec_step
                 | apply phaseSpec_when; [intros _|done];
                   by apply phaseSpec_step ]
          | intros _ _]).
  apply phaseSpec_when; [intros _|done].
  repeat (eapply (phaseSpec_bind _ _ _ _ (λ _, True));
          [by apply phaseSpec_step | intros _ _]).
  by apply phaseSpec_step.
Qed.

Lemma setMemory_spec m info P Q :
  phaseSpec (setMemory m info) P Q (λ _, True).
Proof.
  intros r. exists []. cbn. rewrite app_nil_r.
  split_and!; [done | constructor | done | done].
Qed.

Lemma runBackendLoader_spec ml o P Q :
  phaseSpec (runBackendLoader ml o) P Q
    (λ backendErr,
       ∀ e, backendErr = Some e →
            ∃ st, loadedErr (BackendLoader ml o st).1 = Some e).
Proof.
  intros r. exists []. unfold runBackendLoader.
  destruct (BackendLoader ml o (loader r)) as [res st] eqn:Hres.
  cbn. rewrite app_nil_r. split_and!; [done | constructor | done |].
  intros a [= <-] e He. exists (loader r). by rewrite Hres.
Qed.

Lemma runGreedyLoader_spec ml o P (Q : StartupOutcome → Prop) :
  Q StartupPanic →
  phaseSpec (runGreedyLoader ml o) P Q
    (λ backendErr,
       ∀ e, backendErr = Some e →
            ∃ st c, (GreedyLoader ml o st).1 = Return c (Some e)).
Proof.
  intros Hq r. exists []. unfold runGreedyLoader.
  destruct (GreedyLoader ml o (loader r)) as [[c err|] st] eqn:Hres;
    cbn; rewrite app_nil_r; (split_and!; [done | constructor | |]).
  - done.
  - intros a [= <-] e ->. exists (loader r), c. by rewrite Hres.
  - by intros out [= <-].
  - done.
Qed.

Lemma loadToMemory_spec h options ms :
  (∀ m, m ∈ ms → m ∈ config.LoadToMemory options) →
  phaseSpec
    (loadToMemory h (NewModelLoader (loaderSys h) (config.ModelPath options))
                  options ms)
    notWatch (earlyReturn h options) (λ _, True).
Proof.
  induction ms as [|m ms IH]; intros Hms; cbn [loadToMemory].
  { by apply phaseSpec_ret. }
  assert (phaseSpec
            (loadToMemory h (NewModelLoader (loaderSys h)
                                            (config.ModelPath options))
                          options ms)
            notWatch (earlyReturn h options) (λ _, True)) as Hrest.
  { apply IH. intros m' Hm'. apply Hms. by right. }
  eapply phaseSpec_bind; [apply phaseSpec_history|]. intros before _.
  eapply (phaseSpec_bind _ _ _ _ (λ _, True)); [by apply phaseSpec_step|].
  intros _ _.
  destruct (LoadBackendConfigFileByName h before m) as [err|cfg] eqn:Hcfg.
  { apply phaseSpec_returns. split; [done|]. do 4 right.
    exists before, m. split; [apply Hms; by left | done]. }
  eapply phaseSpec_bind; [apply phaseSpec_history|]. intros before' _.
  eapply (phaseSpec_bind _ _ _ _ (λ _, True)); [by apply phaseSpec_step|].
  intros _ _.
  destruct (GetModelGGufData h before') as [_|items]; [done|].
  eapply phaseSpec_bind; [apply setMemory_spec|]. intros _ _.
  eapply (phaseSpec_bind _ _ _ _
            (λ backendErr, ∀ e, backendErr = Some e → failedLoad h options)).
  { destruct (String.eqb_spec (config.Backend cfg) "") as [Hb|Hb];
      cbn [negb].
    - eapply phaseSpec_weaken;
        [by apply (runGreedyLoader_spec _ _ notWatch (earlyReturn h options))
        | done | done |].
      intros backendErr Hfail e He.
      destruct (Hfail e He) as (st & c & Hres).
      exists before, m, cfg, st. split_and!; [apply Hms; by left | done |].
      right. eauto.
    - eapply phaseSpec_weaken;
        [apply (runBackendLoader_spec _ _ notWatch (earlyReturn h options))
        | done | done |].
      intros backendErr Hfail e He.
      destruct (Hfail e He) as (st & Hres).
      exists before, m, cfg, st. split_and!; [apply Hms; by left | done |].
      left. eauto. }
  intros [e|] Hfail; [|done].
  apply phaseSpec_returns. split; [done|]. by apply (Hfail e).
Qed.

Lemma startWatcher_steps h options r :
  (startWatcher h options r).1 = inr tt
  ∧ steps (startWatcher h options r).2 = steps r ++ watcherSteps h options
  ∧ loader (startWatcher h options r).2 = loader r.
Proof.
  unfold startWatcher, watcherSteps.
  destruct (String.eqb _ ""); [by rewrite app_nil_r|].
  destruct (Stat _ _); cbn.
  - done.
  - unfold mbind, Starting_bind. cbn. by rewrite <- app_assoc.
  - by rewrite app_nil_r.
Qed.

(** The whole of the start before the watcher. *)
Lemma beforeWatcher_spec h options :
  phaseSpec
    (_ ← probeGPUs h;
     _ ← makeDirectories h options;
     _ ← loadConfigurations h options;
     _ ← prepareBackends options;
     loadToMemory h (NewModelLoader (loaderSys h) (config.ModelPath options))
                  options (config.LoadToMemory options))
    notWatch (earlyReturn h options) (λ _, True).
Proof.
  eapply (phaseSpec_bind _ _ _ _ (λ _, True)).
  { eapply phaseSpec_weaken; [apply probeGPUs_spec | | done | done].
    by intros s -> dir. }
  intros _ _. eapply (phaseSpec_bind _ _ _ _ (λ _, True)).
  { eapply phaseSpec_weaken; [apply makeDirectories_spec | | done | done].
    by intros s (d & ->) dir. }
  intros _ _. eapply (phaseSpec_bind _ _ _ _ (λ _, True));
    [apply loadConfigurations_spec|].
  intros _ _. eapply (phaseSpec_bind _ _ _ _ (λ _, True)).
  { eapply phaseSpec_weaken; [apply prepareBackends_spec | done.. ]. }
  intros _ _. by apply loadToMemory_spec.
Qed.

(** How [Startup] ends. It returns the two loaders and the options with a
    nil error once it has gone through all its parts, and the steps of
    the watcher are then its last ones. Or it returns before the watcher
    is looked at, without the loaders: with one of its errors (an empty
    model path, a directory that cannot be made, a gallery call that
    fails, a model to load without a configuration), or with a nil error
    after a model failed to load. Or it panics, as [GreedyLoader] does. *)
Theorem Startup_outcomes (h : Host) (options : config.ApplicationConfig)
    (env : gmap string string) :
  ∃ pre,
    Forall notWatch pre
    ∧ (((Startup h options env).1 = StartupReturn true None
        ∧ steps (Startup h options env).2 = pre ++ watcherSteps h options)
       ∨ (earlyReturn h options (Startup h options env).1
          ∧ (∀ e, (Startup h options env).1 ≠ StartupReturn true e)
          ∧ steps (Startup h options env).2 = pre)).
Proof.
  unfold Startup.
  set (r0 := {| loader := {| environ := env; models := ∅; trace := [] |};
                steps := []; localAIModelMemoryMap := ∅ |}).
  set (ml := NewModelLoader (loaderSys h) (config.ModelPath options)).
  destruct (beforeWatcher_spec h options r0)
    as (pre & Hsteps & Hpre & Hq & _).
  fold ml in Hsteps, Hq.
  exists pre. split; [done|].
  match type of Hsteps with
  | context [?c r0] => set (before := c) in *
  end.
  assert (∀ (k : Starting unit),
            (before ≫= λ _, k) r0
            = match before r0 with
              | (inl out, r) => (inl out, r)
              | (inr _, r) => k r
              end) as Hbind by done.
  assert ((_ ← probeGPUs h;
           _ ← makeDirectories h options;
           _ ← loadConfigurations h options;
           _ ← prepareBackends options;
           _ ← loadToMemory h ml options (config.LoadToMemory options);
           startWatcher h options) r0
          = (before ≫= λ _, startWatcher h options) r0) as ->.
  { unfold before, mbind, Starting_bind.
    destruct (probeGPUs h r0) as [[?|?] ?]; [done|].
    destruct (makeDirectories h options _) as [[?|?] ?]; [done|].
    destruct (loadConfigurations h options _) as [[?|?] ?]; [done|].
    destruct (prepareBackends options _) as [[?|?] ?]; [done|].
    by destruct (loadToMemory h ml options _ _) as [[?|?] ?]. }
  rewrite Hbind. cbn [steps] in Hsteps.
  destruct (before r0) as [[out|[]] r1]; cbn [fst snd] in *.
  - right. specialize (Hq out eq_refl). split_and!; [done | | done].
    intros e ->. destruct e; by destruct Hq.
  - left. destruct (startWatcher_steps h options r1) as (Hres & Hw & _).
    destruct (startWatcher h options r1) as [[out|[]] r2];
      cbn [fst snd] in *; [done|].
    split; [done|]. by rewrite Hw, Hsteps.
Qed.

(** *** The model loader during the start *)

Lemma stepsOnly_ret {A} (x : A) : stepsOnly (mret x : Starting A).
Proof. by intros r. Qed.

Lemma stepsOnly_step s : stepsOnly (step s).
Proof. by intros r. Qed.

Lemma stepsOnly_returns {A} out : stepsOnly (returns out : Starting A).
Proof. by intros r. Qed.

Lemma stepsOnly_history : stepsOnly history.
Proof. by intros r. Qed.

Lemma stepsOnly_bind {A B} (c : Starting A) (k : A → Starting B) :
  stepsOnly c → (∀ a, stepsOnly (k a)) → stepsOnly (c ≫= k).
Proof.
  intros Hc Hk r. unfold mbind, Starting_bind.
  destruct (Hc r) as [Hl Hm]. destruct (c r) as [[out|a] r1]; [done|].
  cbn [snd] in *. destruct (Hk a r1) as [Hl' Hm']. split; congruence.
Qed.

Lemma stepsOnly_when b c : stepsOnly c → stepsOnly (when b c).
Proof. intros Hc. destruct b; [done|]. apply stepsOnly_ret. Qed.

Lemma stepsOnly_mkdir h what dir : stepsOnly (mkdir h what dir).
Proof.
  unfold mkdir. apply stepsOnly_bind; [apply stepsOnly_history|].
  intros before. apply stepsOnly_bind; [apply stepsOnly_step|]. intros _.
  destruct (MkdirAll h before dir);
    [apply stepsOnly_returns | apply stepsOnly_ret].
Qed.

Lemma stepsOnly_applyGallery s call : stepsOnly (applyGallery s call).
Proof.
  unfold applyGallery. apply stepsOnly_bind; [apply stepsOnly_history|].
  intros before. apply stepsOnly_bind; [apply stepsOnly_step|]. intros _.
  destruct (call before); [apply stepsOnly_returns | apply stepsOnly_ret].
Qed.

Lemma stepsOnly_preparation h options : stepsOnly (preparation h options).
Proof.
  unfold preparation, probeGPUs, makeDirectories, loadConfigurations,
    prepareBackends.
  repeat first
    [ apply stepsOnly_mkdir
    | apply stepsOnly_applyGallery
    | apply stepsOnly_when
    | apply stepsOnly_step
    | apply stepsOnly_ret
    | apply stepsOnly_returns
    | match goal with
      | |- stepsOnly (if ?b then _ else _) => destruct b
      end
    | apply stepsOnly_bind; [|intros ?] ].
Qed.

(** [Startup] is the preparation, then the loop over the models to load,
    then the watcher. *)
Lemma Startup_parts h options env :
  Startup h options env
  = match preparation h options (initialRun env) with
    | (inl out, r) => (out, r)
    | (inr _, r) =>
        match loadToMemory h (NewModelLoader (loaderSys h)
                                             (config.ModelPath options))
                           options (config.LoadToMemory options) r with
        | (inl out, r) => (out, r)
        | (inr _, r) =>
            match startWatcher h options r with
            | (inl out, r) => (out, r)
            | (inr _, r) => (StartupReturn true None, r)
            end
        end
    end.
Proof.
  unfold Startup, preparation, initialRun, mbind, Starting_bind.
  destruct (probeGPUs h _) as [[?|?] ?]; [done|].
  destruct (makeDirectories h options _) as [[?|?] ?]; [done|].
  destruct (loadConfigurations h options _) as [[?|?] ?]; [done|].
  destruct (prepareBackends options _) as [[?|?] ?]; [done|].
  by destruct (loadToMemory h _ options _ _) as [[?|?] ?].
Qed.

(** A model of [LoadToMemory] that fails to load ends [Startup] without
    the loaders and without an error. When the preparation has gone
    through, the first model to load has a configuration and its GGUF data
    is read, and the load of the model fails in the model loader (through
    [BackendLoader] when the configuration names a backend, through
    [GreedyLoader] otherwise), then [Startup] returns nil four times: the
    error it returns is the one of the GGUF data, which is nil there, not
    the one of the load. The watcher is not started. *)
Theorem Startup_failed_load (h : Host) (options : config.ApplicationConfig)
    (env : gmap string string) (r : Run) (m : string) (ms : list string)
    (cfg : config.BackendConfig) (items : list (list VRAMEstimate))
    (e : error) :
  let ml := NewModelLoader (loaderSys h) (config.ModelPath options) in
  let o := backend_ModelOptions h cfg in
  preparation h options (initialRun env) = (inr tt, r) →
  config.LoadToMemory options = m :: ms →
  LoadBackendConfigFileByName h (steps r) m = inr cfg →
  GetModelGGufData h
    (steps r ++ [StepLoadBackendConfigFileByName m
                   (config.ModelPath options)])
  = inr items →
  (if negb (String.eqb (config.Backend cfg) "")
   then loadedErr (BackendLoader ml
                     (o ++ [WithBackendString (config.Backend cfg)])
                     (loader (initialRun env))).1 = Some e
   else ∃ c, (GreedyLoader ml o (loader (initialRun env))).1
             = Return c (Some e)) →
  (Startup h options env).1 = StartupReturn false None
  ∧ steps (Startup h options env).2
    = steps r ++ [StepLoadBackendConfigFileByName m
                    (config.ModelPath options);
                  StepGetModelGGufData (config.ModelPath options)]
  ∧ localAIModelMemoryMap (Startup h options env).2
    = {[ config.Model cfg := ggufVRAMDeviceInfo items ]}.
Proof.
  intros ml o Hprep Hms Hcfg Hgguf Hfail.
  destruct (stepsOnly_preparation h options (initialRun env)) as [Hl Hmm].
  rewrite Hprep in Hl, Hmm. cbn [snd] in Hl, Hmm.
  rewrite Startup_parts, Hprep, Hms. fold ml. cbn [loadToMemory].
  unfold mbind, Starting_bind, history, step, setMemory. cbn [fst snd steps].
  rewrite Hcfg. cbn [steps]. rewrite Hgguf. fold o.
  cbn [loader steps localAIModelMemoryMap].
  destruct (negb (String.eqb (config.Backend cfg) "")).
  - unfold runBackendLoader. cbn [loader steps localAIModelMemoryMap].
    rewrite Hl.
    destruct (BackendLoader ml _ _) as [res st]. cbn [fst] in Hfail.
    rewrite Hfail. cbn. rewrite Hmm, <- app_assoc. cbn.
    split_and!; [done | done |]. by rewrite insert_empty.
  - unfold runGreedyLoader. cbn [loader steps localAIModelMemoryMap].
    rewrite Hl. destruct Hfail as [c Hfail].
    destruct (GreedyLoader ml o _) as [out st]. cbn [fst] in Hfail.
    rewrite Hfail. cbn. rewrite Hmm, <- app_assoc. cbn.
    split_and!; [done | done |]. by rewrite insert_empty.
Qed.

Lemma Startup_failed_load_witness :
  (Startup
     (sampleHost (sampleSys false [] [] [] false false healthy) []
                 [("phi", {| config.Model := "phi.gguf";
                             config.Backend := "llama-cpp" |})] true)
     (sampleConfig "/models" ["phi"] "") ∅).1
  = StartupReturn false None.
Proof.
  eapply (Startup_failed_load
            (sampleHost (sampleSys false [] [] [] false false healthy) []
                        [("phi", {| config.Model := "phi.gguf";
                                    config.Backend := "llama-cpp" |})] true)
            (sampleConfig "/models" ["phi"] "") ∅).
  - vm_compute. reflexivity.
  - reflexivity.
  - vm_compute. reflexivity.
  - vm_compute. reflexivity.
  - vm_compute. reflexivity.
Defined.



(** [startWatcher] never ends the start and leaves the model loader
    alone. The watcher is started exactly when a directory of dynamic
    configurations is set and [os.Stat] finds it or reports that it is not
    there; in the second case, and only then, the directory is made first,
    with permissions 0700, and the watcher is started whether or not that
    succeeded. When [os.Stat] fails in another way nothing is done. *)
Theorem startWatcher_watch (h : Host) (options : config.ApplicationConfig)
    (r : Run) :
  ∃ new,
    startWatcher h options r
    = (inr tt, {| loader := loader r; steps := steps r ++ new;
                  localAIModelMemoryMap := localAIModelMemoryMap r |})
    ∧ (∀ d, StepWatch d ∈ new
            ↔ d = config.DynamicConfigsDir options ∧ d ≠ ""
              ∧ Stat (loaderSys h) d ≠ StatFailure)
    ∧ (∀ d p, StepMkdirAll d p ∈ new
              ↔ d = config.DynamicConfigsDir options ∧ d ≠ ""
                ∧ p = perm0700 ∧ Stat (loaderSys h) d = StatNotExist)
    ∧ (∀ s, s ∈ new → (∃ d, s = StepWatch d) ∨ ∃ d p, s = StepMkdirAll d p)
    ∧ (List.length new ≤ 2)%nat
    ∧ last new = (if bool_decide (new = []) then None
                  else Some (StepWatch (config.DynamicConfigsDir options))).
Proof.
  unfold startWatcher.
  destruct (String.eqb_spec (config.DynamicConfigsDir options) "")
    as [Heq|Hne].
  { exists []. rewrite app_nil_r. destruct r.
    split_and!; [done | | | | cbn; lia | done].
    - intros d. rewrite elem_of_nil. split; [done|].
      intros (-> & Hd & _). done.
    - intros d p. rewrite elem_of_nil. split; [done|].
      intros (-> & Hd & _). done.
    - by intros s []%elem_of_nil. }
  destruct (Stat (loaderSys h) (config.DynamicConfigsDir options)) eqn:Hstat.
  - exists [StepWatch (config.DynamicConfigsDir options)].
    split_and!; [done | | | | cbn; lia | done].
    + intros d. rewrite list_elem_of_singleton. split.
      * intros [= ->]. by rewrite Hstat.
      * by intros (-> & _).
    + intros d p. rewrite list_elem_of_singleton. split; [done|].
      intros (-> & _ & _ & Hs). congruence.
    + intros s ->%list_elem_of_singleton. left. eauto.
  - exists [StepMkdirAll (config.DynamicConfigsDir options) perm0700;
            StepWatch (config.DynamicConfigsDir options)].
    split_and!; [| | | | cbn; lia | done].
    + unfold mbind, Starting_bind, step. cbn. by rewrite <- app_assoc.
    + intros d. rewrite !elem_of_cons, elem_of_nil. split.
      * intros [[=]|[[= ->]|[]]]. by rewrite Hstat.
      * intros (-> & _). tauto.
    + intros d p. rewrite !elem_of_cons, elem_of_nil. split.
      * intros [[= -> ->]|[[=]|[]]]. done.
      * intros (-> & _ & -> & _). tauto.
    + intros s. rewrite !elem_of_cons, elem_of_nil.
      intros [->|[->|[]]]; eauto.
  - exists []. rewrite app_nil_r. destruct r.
    split_and!; [done | | | | cbn; lia | done].
    + intros d. rewrite elem_of_nil. split; [done|].
      intros (-> & _ & Hs). done.
    + intros d p. rewrite elem_of_nil. split; [done|].
      intros (-> & _ & _ & Hs). congruence.
    + by intros s []%elem_of_nil.
Qed.
